(** * TxTracer-core: replay of a TON transaction in a sandbox

    A shallow embedding of [src/methods.ts] and of the runner
    ([retrace], [retraceBaseTx], [txOpcode], [tryLoadAsLibrary]), with the
    earlier revision of [retrace] beside it.

    The program is an orchestration of calls to the outside (indexer APIs,
    the sandbox executor, the codecs of [@ton/core]).  Those calls are
    collected in the class [Externals]; everything the repository itself
    computes on top of them is translated function by function.

    - JavaScript [bigint] and the integers carried by [number] are [Z].
    - A [Buffer] is a list of bytes, each a [Z] in [0, 256).
    - A JavaScript exception is the [Throw] case of [Res]; [undefined] and
      [null] are [None].
    - [async] functions run in the monad [M]: explicit passing of the state
      of the outside world, plus a journal of the executor runs and library
      downloads that were issued. *)

From Stdlib Require Import ZArith String Ascii List Bool Lia DecimalString.
From stdpp Require Import base gmap strings list.

Local Open Scope string_scope.
Local Open Scope Z_scope.

(** ** Exceptions *)

(** A thrown JavaScript [Error]; only its message is kept. *)
Definition JsError := string.

Inductive Res (A : Type) : Type :=
| Ok (a : A)
| Throw (err : JsError).

Arguments Ok {A} a.
Arguments Throw {A} err.

Definition res_bind {A B : Type} (m : Res A) (k : A -> Res B) : Res B :=
  match m with
  | Ok a => k a
  | Throw e => Throw e
  end.

Notation "'let?' x ':=' m 'in' k" := (res_bind m (fun x => k))
  (at level 10, x pattern, m at level 100, k at level 200).

(** [bigint.toString()] and [number.toString()] on integers. *)
Definition Z_toString (z : Z) : string := NilZero.string_of_int (Z.to_int z).

(** ** Cells, bit strings and slices of [@ton/core]

    The subset of [Cell], [BitString], [BitReader] and [Slice] that the
    repository calls: [bits.length], [beginParse], [asSlice], [loadUint],
    [loadBuffer], [remainingBits]. *)

Definition Buffer := list Z.

#[warnings="-register-all"]
Inductive Cell : Type :=
| mkCell (bits : list bool) (refs : list Cell) (isExotic : bool).

Definition cell_bits (c : Cell) : list bool := let '(mkCell b _ _) := c in b.
Definition cell_refs (c : Cell) : list Cell := let '(mkCell _ r _) := c in r.
Definition cell_isExotic (c : Cell) : bool := let '(mkCell _ _ x) := c in x.

(** A [Slice] reads a bit string from a moving offset ([BitReader]). *)
Record Slice : Type := mkSlice {
  slice_bits : list bool;
  slice_offset : nat;
  slice_refs : list Cell
}.

(** [cell.beginParse(allowExotic)]: an exotic cell is refused unless
    [allowExotic] is set. *)
Definition beginParse (allowExotic : bool) (c : Cell) : Res Slice :=
  if cell_isExotic c && negb allowExotic
  then Throw "Exotic cells cannot be parsed"
  else Ok (mkSlice (cell_bits c) 0 (cell_refs c)).

(** [cell.asSlice()] is [beginParse()] with the default [allowExotic = false]. *)
Definition asSlice (c : Cell) : Res Slice := beginParse false c.

Definition remainingBits (s : Slice) : nat :=
  (length (slice_bits s) - slice_offset s)%nat.

(** [BitString.at(index)] throws past the end of the string. *)
Definition BitString_at (bs : list bool) (index : nat) : Res bool :=
  match bs !! index with
  | Some b => Ok b
  | None =>
      Throw ("Index " +:+ Z_toString (Z.of_nat index) +:+ " > "
             +:+ Z_toString (Z.of_nat (length bs)) +:+ " is out of bounds")
  end.

(** [BitReader._preloadUint(bits, offset)]: big-endian accumulation, one
    [BitString.at] per bit. *)
Fixpoint preloadUint (bs : list bool) (n : nat) (offset : nat) (acc : Z) : Res Z :=
  match n with
  | O => Ok acc
  | S n' =>
      let? b := BitString_at bs offset in
      preloadUint bs n' (S offset) (2 * acc + (if b then 1 else 0))
  end.

(** [slice.loadUint(bits)]: the value read and the advanced slice. *)
Definition loadUint (n : nat) (s : Slice) : Res (Z * Slice) :=
  let? v := preloadUint (slice_bits s) n (slice_offset s) 0 in
  Ok (v, mkSlice (slice_bits s) (slice_offset s + n) (slice_refs s)).

(** [BitReader._preloadBuffer(bytes, offset)]: one byte per 8 bits. *)
Fixpoint preloadBuffer (bs : list bool) (bytes : nat) (offset : nat) : Res Buffer :=
  match bytes with
  | O => Ok []
  | S k =>
      let? byte := preloadUint bs 8 offset 0 in
      let? rest := preloadBuffer bs k (offset + 8) in
      Ok (byte :: rest)
  end.

(** [slice.loadBuffer(bytes)]. *)
Definition loadBuffer (bytes : nat) (s : Slice) : Res (Buffer * Slice) :=
  let? buf := preloadBuffer (slice_bits s) bytes (slice_offset s) in
  Ok (buf, mkSlice (slice_bits s) (slice_offset s + 8 * bytes) (slice_refs s)).

(** ** Strings of the JavaScript runtime *)

Definition hexDigit (d : Z) : ascii :=
  if d <? 10 then ascii_of_nat (Z.to_nat (48 + d))
  else ascii_of_nat (Z.to_nat (87 + d)).

(** [buffer.toString("hex")]: two lower-case digits per byte. *)
Fixpoint Buffer_toHex (b : Buffer) : string :=
  match b with
  | [] => EmptyString
  | byte :: rest =>
      String (hexDigit (byte / 16)) (String (hexDigit (byte mod 16)) (Buffer_toHex rest))
  end.

Definition ascii_toUpperCase (c : ascii) : ascii :=
  let n := nat_of_ascii c in
  if (97 <=? n)%nat && (n <=? 122)%nat then ascii_of_nat (n - 32) else c.

(** [string.toUpperCase()], on ASCII text. *)
Fixpoint toUpperCase (s : string) : string :=
  match s with
  | EmptyString => EmptyString
  | String c rest => String (ascii_toUpperCase c) (toUpperCase rest)
  end.

(** [buffer.equals(other)]. *)
Definition Buffer_equals (a b : Buffer) : bool := bool_decide (a = b).

(** [array.at(-k)] for [k >= 1]: the k-th element from the end. *)
Definition at_neg {A : Type} (l : list A) (k : nat) : option A :=
  if (length l <? k)%nat then None else l !! (length l - k)%nat.

(** ** Ledger records of [@ton/core]

    Each record keeps the fields the repository reads and leaves out the
    others (extra currencies, fees it does not look at, status fields). *)

Record Address : Type := mkAddress {
  addr_workChain : Z;
  addr_hash : Buffer
}.

Record ExternalAddress : Type := mkExternalAddress {
  ext_value : Z;
  ext_bits : Z
}.

(** [ExternalAddress.toString()]. *)
Definition ExternalAddress_toString (a : ExternalAddress) : string :=
  "External<" +:+ Z_toString (ext_bits a) +:+ ":" +:+ Z_toString (ext_value a) +:+ ">".

Record CurrencyCollection : Type := mkCurrency {
  coins : Z
}.

Record InternalInfo : Type := mkInternalInfo {
  int_bounce : bool;
  int_bounced : bool;
  int_src : Address;
  int_dest : Address;
  int_value : CurrencyCollection;
  int_createdLt : Z
}.

Record ExternalInInfo : Type := mkExternalInInfo {
  extin_src : option ExternalAddress;
  extin_dest : Address;
  extin_importFee : Z
}.

Record ExternalOutInfo : Type := mkExternalOutInfo {
  extout_src : Address;
  extout_dest : option ExternalAddress;
  extout_createdLt : Z
}.

(** [CommonMessageInfo], a union tagged by [type]: ["internal"],
    ["external-in"], ["external-out"]. *)
Inductive CommonMessageInfo : Type :=
| InfoInternal (i : InternalInfo)
| InfoExternalIn (i : ExternalInInfo)
| InfoExternalOut (i : ExternalOutInfo).

Record StateInit : Type := mkStateInit {
  si_code : option Cell;
  si_data : option Cell
}.

Record Message : Type := mkMessage {
  msg_info : CommonMessageInfo;
  msg_init : option StateInit;
  msg_body : Cell
}.

Record ComputeVm : Type := mkComputeVm {
  vm_success : bool;
  vm_gasFees : Z;
  vm_gasUsed : Z;
  vm_exitCode : Z;
  vm_vmSteps : Z
}.

(** [TransactionComputePhase]: [type] is ["skipped"] or ["vm"]. *)
Inductive ComputePhase : Type :=
| ComputeSkipped (reason : string)
| ComputePhaseVm (vm : ComputeVm).

Record ActionPhase : Type := mkActionPhase {
  act_success : bool;
  act_resultCode : Z
}.

Record GenericDescription : Type := mkGeneric {
  gen_creditFirst : bool;
  gen_computePhase : ComputePhase;
  gen_actionPhase : option ActionPhase;
  gen_aborted : bool;
  gen_destroyed : bool
}.

(** [TransactionDescription]: ["generic"], or one of the other kinds
    (["storage"], ["tick-tock"], ["split-prepare"], ...), kept by name. *)
Inductive TransactionDescription : Type :=
| DescGeneric (g : GenericDescription)
| DescOther (type : string).

Record HashUpdate : Type := mkHashUpdate {
  oldHash : Buffer;
  newHash : Buffer
}.

(** [outMessages] is a [Dictionary<number, Message>]; [values()] lists its
    values in the order of the keys' insertion. *)
Record Transaction : Type := mkTransaction {
  tx_address : Z;
  tx_lt : Z;
  tx_now : Z;
  tx_inMessage : option Message;
  tx_outMessages : list (Z * Message);
  tx_totalFees : CurrencyCollection;
  tx_stateUpdate : HashUpdate;
  tx_description : TransactionDescription
}.

Definition Dictionary_values {K V : Type} (d : list (K * V)) : list V := map snd d.

Inductive AccountState : Type :=
| AccountUninit
| AccountActive (state : StateInit)
| AccountFrozen (stateHash : Z).

Record AccountStorage : Type := mkAccountStorage {
  as_lastTransLt : Z;
  as_balance : CurrencyCollection;
  as_state : AccountState
}.

Record Account : Type := mkAccount {
  acc_addr : Address;
  acc_storage : AccountStorage
}.

Record ShardAccount : Type := mkShardAccount {
  sa_account : option Account;
  sa_lastTransactionHash : Z;
  sa_lastTransactionLt : Z
}.

Inductive LibRef : Type :=
| LibRefHash (libHash : Buffer)
| LibRefCell (library : Cell).

Inductive OutAction : Type :=
| ActionSendMsg (mode : Z) (outMsg : Message)
| ActionSetCode (newCode : Cell)
| ActionReserve (mode : Z) (currency : CurrencyCollection)
| ActionChangeLibrary (mode : Z) (libRef : LibRef).

(** ** Records of [src/types.ts] and of the indexer APIs *)

Record BaseTxInfo : Type := mkBaseTxInfo {
  base_lt : Z;
  base_hash : Buffer;
  base_address : Address
}.

Record RawBlockRef : Type := mkRawBlockRef {
  rb_workchain : Z;
  rb_seqno : Z;
  rb_shard : string;
  rb_rootHash : string;
  rb_fileHash : string
}.

Record RawTransaction : Type := mkRawTransaction {
  raw_block : RawBlockRef;
  raw_tx : Transaction
}.

Record BlockRef : Type := mkBlockRef {
  ref_workchain : Z;
  ref_shard : string;
  ref_seqno : Z
}.

Record Block : Type := mkBlock {
  blk_root_hash : string;
  blk_masterchain_block_ref : BlockRef;
  blk_rand_seed : string
}.

Record ShardTransaction : Type := mkShardTransaction {
  stx_lt : string;
  stx_hash : string;
  stx_account : string
}.

Record ShardInfo : Type := mkShardInfo {
  shard_workchain : Z;
  shard_shard : string;
  shard_seqno : Z;
  shard_transactions : list ShardTransaction
}.

Record BlockInfo : Type := mkBlockInfo {
  shards : list ShardInfo
}.

Record ComputeInfoVm : Type := mkComputeInfoVm {
  ci_success : bool;
  ci_exitCode : Z;
  ci_vmSteps : Z;
  ci_gasUsed : Z;
  ci_gasFees : Z
}.

(** [ComputeInfo]: the literal ["skipped"] or the structured record. *)
Inductive ComputeInfo : Type :=
| ComputeInfoSkipped
| ComputeInfoRecord (info : ComputeInfoVm).

Record TraceInMessage : Type := mkTraceInMessage {
  in_sender : option Address;
  in_contract : Address;
  in_amount : option Z;
  in_opcode : option Z
}.

Record TraceMoneyResult : Type := mkTraceMoneyResult {
  balanceBefore : Z;
  sentTotal : Z;
  totalFees : Z;
  balanceAfter : Z
}.

Record TraceEmulatedTx : Type := mkTraceEmulatedTx {
  em_raw : string;
  em_utime : Z;
  em_lt : Z;
  em_computeInfo : ComputeInfo;
  em_executorLogs : string;
  em_actions : list OutAction;
  em_c5 : option Cell;
  em_vmLogs : string
}.

Record EmulatorVersion : Type := mkEmulatorVersion {
  commitHash : string;
  commitDate : string
}.

Record TraceResult : Type := mkTraceResult {
  stateUpdateHashOk : bool;
  codeCell : option Cell;
  originalCodeCell : option Cell;
  inMsg : TraceInMessage;
  money : TraceMoneyResult;
  emulatedTx : TraceEmulatedTx;
  emulatorVersion : EmulatorVersion
}.

(** ** Results of the sandbox executor ([@ton/sandbox]) *)

Record EmulationResultSuccess : Type := mkEmulationSuccess {
  ok_transaction : string;
  ok_shardAccount : string;
  ok_vmLog : string;
  ok_actions : option string
}.

(** [result]: [success: true] with its payload, or [success: false] with
    the executor's [error]. *)
Inductive EmulationOutcome : Type :=
| EmulationSuccess (payload : EmulationResultSuccess)
| EmulationError (error : string).

Record EmulationResult : Type := mkEmulationResult {
  er_result : EmulationOutcome;
  er_logs : string;
  er_debugLogs : string
}.

(** The arguments of [executor.runTransaction]; [verbosity],
    [ignoreChksig] and [debugEnabled] are constants of the call. *)
Record RunTransactionArgs : Type := mkRunArgs {
  run_config : string;
  run_libs : option Cell;
  run_shardAccount : string;
  run_message : Message;
  run_now : Z;
  run_lt : Z;
  run_randomSeed : Buffer
}.

(** ** Parsed VM log lines ([logs.parse] of [ton-assembly])

    The line and stack-element kinds [retrace] tests for, each with the
    fields it reads; every other kind is kept by its tag. *)

Inductive StackElement : Type :=
| StackCell (boc : string)
| StackOther (tag : string).

Inductive VmLine : Type :=
| VmStack (stack : list StackElement)
| VmExecute (instr : string)
| VmException (errno : Z) (message : string)
| VmExceptionHandler (errno : Z)
| VmOther (tag : string).

(** ** The outside world *)

Inductive Provider : Type := Toncenter | Dton.

(** What the journal records: every [executor.runTransaction] with its
    arguments and its answer, and every library request sent to a provider. *)
Inductive Event : Type :=
| EvRunTransaction (args : RunTransactionArgs) (answer : Res EmulationResult)
| EvGetLibrary (provider : Provider) (testnet : bool) (hash : string).

(** Everything the repository calls and does not define.

    - Codecs and runtime functions are pure; the fallible ones return [Res].
    - Network calls and the executor read and change the state [World] of
      the outside; each stands for the whole request, its decoding included. *)
Class Externals : Type := {
  World : Type;
  (* the JavaScript runtime *)
  BigInt : string -> Res Z;
  Buffer_fromBase64 : string -> Buffer;
  (* @ton/core *)
  Cell_fromBase64 : string -> Res Cell;
  Cell_fromHex : string -> Res Cell;
  Address_toString : Address -> string;
  loadShardAccount : Slice -> Res ShardAccount;
  loadTransaction : Slice -> Res Transaction;
  loadOutList : Slice -> Res (list OutAction);
  storeShardAccount_base64 : ShardAccount -> string;
  storeTransaction_hex : Transaction -> string;
  storeDictDirect : gmap Z Cell -> Res Cell;
  (* ton-assembly *)
  logs_parse : string -> list VmLine;
  (* indexers *)
  api_findBaseTxByHash : bool -> string -> World -> Res (option BaseTxInfo) * World;
  api_findRawTxByHash : bool -> BaseTxInfo -> World -> Res (list RawTransaction) * World;
  api_findShardBlockForTx : bool -> RawTransaction -> World -> Res (option Block) * World;
  api_findFullBlockForSeqno : bool -> Z -> World -> Res BlockInfo * World;
  api_findAllTransactionsBetween :
    bool -> BaseTxInfo -> Z -> World -> Res (list Transaction) * World;
  api_getBlockConfig : bool -> BlockInfo -> World -> Res string * World;
  api_getBlockAccount : bool -> Address -> BlockInfo -> World -> Res ShardAccount * World;
  api_getLibrary : Provider -> bool -> string -> World -> Res Cell * World;
  (* @ton/sandbox *)
  sandbox_create : World -> Res EmulatorVersion * World;
  sandbox_runTransaction : RunTransactionArgs -> World -> Res EmulationResult * World
}.

(** ** Pure functions of the repository *)

(** [calculateSentTotal] (methods.ts): the loop over [tx.outMessages.values()]
    with the accumulator [total]. *)
Definition calculateSentTotal (tx : Transaction) : Z :=
  fold_left
    (fun total msg =>
       match msg_info msg with
       | InfoInternal i => total + coins (int_value i)
       | _ => total
       end)
    (Dictionary_values (tx_outMessages tx)) 0.

(** [txOpcode] (runner): the opcode of the in-message, if any. *)
Definition txOpcode (transaction : Transaction) : Res (option Z) :=
  let inMessage := tx_inMessage transaction in
  let isBounced :=
    match inMessage with
    | Some m => match msg_info m with InfoInternal i => int_bounced i | _ => false end
    | None => false
    end in
  match inMessage with
  | None => Ok None
  | Some m =>
      let? slice := asSlice (msg_body m) in
      let? slice :=
        (if isBounced
         then (* skip 0xFFFF.. *)
              let? r := loadUint 32 slice in Ok (snd r)
         else Ok slice) in
      if (32 <=? remainingBits slice)%nat
      then let? r := loadUint 32 slice in Ok (Some (fst r))
      else Ok None
  end.

(** A [for ... of] loop whose body may throw: the first exception ends it. *)
Fixpoint for_of_res {A S : Type} (l : list A) (body : A -> S -> Res S) (s : S) : Res S :=
  match l with
  | [] => Ok s
  | x :: rest => let? s' := body x s in for_of_res rest body s'
  end.

Section Methods.
Context {E : Externals}.

(** [computeMinLt] (methods.ts).  [BigInt(txInBlock.lt)] is evaluated
    only for an entry of the account, once in the test and once more in
    the assignment. *)
Definition computeMinLt (tx : Transaction) (address : Address) (block : BlockInfo) : Res Z :=
  let minLt := tx_lt tx in
  let addrStr := Address_toString address in
  for_of_res (shards block)
    (fun shard minLt =>
       for_of_res (shard_transactions shard)
         (fun txInBlock minLt =>
            if String.eqb (stx_account txInBlock) addrStr
            then
              let? lt := BigInt (stx_lt txInBlock) in
              if lt <? minLt then BigInt (stx_lt txInBlock) else Ok minLt
            else Ok minLt)
         minLt)
    minLt.

(** The balance read off a decoded shard account:
    [shardAccount.account?.storage.balance.coins]. *)
Definition balanceOf (sa : ShardAccount) : option Z :=
  match sa_account sa with
  | Some a => Some (coins (as_balance (acc_storage a)))
  | None => None
  end.

(** [loadShardAccount(Cell.fromBase64(s).asSlice())]. *)
Definition decodeShardAccount (s : string) : Res ShardAccount :=
  let? c := Cell_fromBase64 s in
  let? sl := asSlice c in
  loadShardAccount sl.

(** [loadTransaction(Cell.fromBase64(s).asSlice())]. *)
Definition decodeTransaction (s : string) : Res Transaction :=
  let? c := Cell_fromBase64 s in
  let? sl := asSlice c in
  loadTransaction sl.

Record FinalData : Type := mkFinalData {
  fd_sender : option Address;
  fd_contract : Address;
  fd_money : TraceMoneyResult;
  fd_emulatedTx : Transaction;
  fd_amount : option Z;
  fd_computeInfo : ComputeInfo
}.

(** The source and destination of an in-message as [computeFinalData]
    accepts them: [src] must be absent or an [Address], [dest] must be an
    [Address]. *)
Definition checkedEndpoints (info : CommonMessageInfo) : Res (option Address * Address) :=
  match info with
  | InfoInternal i => Ok (Some (int_src i), int_dest i)
  | InfoExternalIn i =>
      match extin_src i with
      | Some src => Throw ("Invalid src address: " +:+ ExternalAddress_toString src)
      | None => Ok (None, extin_dest i)
      end
  | InfoExternalOut i =>
      Throw ("Invalid dest address: " +:+
             match extout_dest i with
             | Some d => ExternalAddress_toString d
             | None => "undefined"
             end)
  end.

(** [computeFinalData] (methods.ts). *)
Definition computeFinalData (res : EmulationResultSuccess) (balanceBefore : Z) : Res FinalData :=
  let? shardAccount := decodeShardAccount (ok_shardAccount res) in
  let endBalance := default 0 (balanceOf shardAccount) in
  let? emulatedTx := decodeTransaction (ok_transaction res) in
  match tx_inMessage emulatedTx with
  | None => Throw "No in_message was found in result tx"
  | Some inMessage =>
      let? endpoints := checkedEndpoints (msg_info inMessage) in
      let src := fst endpoints in
      let dest := snd endpoints in
      let amount :=
        match msg_info inMessage with
        | InfoInternal i => Some (coins (int_value i))
        | _ => None
        end in
      let sentTotal := calculateSentTotal emulatedTx in
      let totalFees := coins (tx_totalFees emulatedTx) in
      match tx_description emulatedTx with
      | DescOther type =>
          Throw ("TxTracer doesn't support non-generic transaction. Given type: " +:+ type)
      | DescGeneric description =>
          let computePhase := gen_computePhase description in
          let computeInfo :=
            match computePhase with
            | ComputeSkipped _ => ComputeInfoSkipped
            | ComputePhaseVm vm =>
                ComputeInfoRecord
                  {| ci_success := vm_success vm;
                     ci_exitCode :=
                       if vm_exitCode vm =? 0
                       then match gen_actionPhase description with
                            | Some a => act_resultCode a
                            | None => 0
                            end
                       else vm_exitCode vm;
                     ci_vmSteps := vm_vmSteps vm;
                     ci_gasUsed := vm_gasUsed vm;
                     ci_gasFees := vm_gasFees vm |}
            end in
          let money :=
            {| balanceBefore := balanceBefore;
               sentTotal := sentTotal;
               totalFees := totalFees;
               balanceAfter := endBalance |} in
          Ok {| fd_sender := src;
                fd_contract := dest;
                fd_money := money;
                fd_emulatedTx := emulatedTx;
                fd_amount := amount;
                fd_computeInfo := computeInfo |}
      end
  end.

(** [findFinalActions] (methods.ts). *)
Definition findFinalActions (res : EmulationResultSuccess)
  : Res (list OutAction * option Cell) :=
  match ok_actions res with
  | None => Ok ([], None)
  | Some actions =>
      let? c5 := Cell_fromBase64 actions in
      let? sl := asSlice c5 in
      let? finalActions := loadOutList sl in
      Ok (finalActions, Some c5)
  end.

(** [shardAccountToBase64] (methods.ts). *)
Definition shardAccountToBase64 (shardAccountBeforeTx : ShardAccount) : string :=
  storeShardAccount_base64 shardAccountBeforeTx.

End Methods.

(** ** The monad of [async] functions *)

(** The state threaded through a run: the outside world and the journal,
    newest event first. *)
Record St (W : Type) : Type := mkSt {
  st_world : W;
  st_journal : list Event
}.

Arguments mkSt {W} st_world st_journal.
Arguments st_world {W} s.
Arguments st_journal {W} s.

Section Monad.
Context {E : Externals}.

Definition M (A : Type) : Type := St World -> Res A * St World.

Definition ret {A : Type} (a : A) : M A := fun st => (Ok a, st).

Definition throw {A : Type} (e : JsError) : M A := fun st => (Throw e, st).

Definition bind {A B : Type} (m : M A) (k : A -> M B) : M B :=
  fun st =>
    match m st with
    | (Ok a, st') => k a st'
    | (Throw e, st') => (Throw e, st')
    end.

(** A pure, possibly throwing computation inside an [async] function. *)
Definition lift {A : Type} (r : Res A) : M A := fun st => (r, st).

(** A request to the outside: it changes the world, not the journal. *)
Definition call {A : Type} (f : World -> Res A * World) : M A :=
  fun st =>
    let '(r, w) := f (st_world st) in
    (r, {| st_world := w; st_journal := st_journal st |}).

Definition journal (e : Event) : M unit :=
  fun st => (Ok tt, {| st_world := st_world st; st_journal := e :: st_journal st |}).

(** [try { m } catch (error) { h error }]. *)
Definition try_catch {A : Type} (m : M A) (h : JsError -> M A) : M A :=
  fun st =>
    match m st with
    | (Ok a, st') => (Ok a, st')
    | (Throw e, st') => h e st'
    end.

End Monad.

Notation "'let*' x ':=' m 'in' k" := (bind m (fun x => k))
  (at level 10, x pattern, m at level 100, k at level 200).

Section AsyncMethods.
Context {E : Externals}.

(** A [for ... of] loop with [await] in its body: a thrown exception ends
    the loop and the function. *)
Fixpoint for_of {A S : Type} (l : list A) (body : A -> S -> M S) (s : S) : M S :=
  match l with
  | [] => ret s
  | x :: rest => let* s' := body x s in for_of rest body s'
  end.

(** *** Requests (methods.ts) *)

Definition findBaseTxByHash (testnet : bool) (txHash : string) : M (option BaseTxInfo) :=
  call (api_findBaseTxByHash testnet txHash).

Definition findRawTxByHash (testnet : bool) (info : BaseTxInfo) : M (list RawTransaction) :=
  call (api_findRawTxByHash testnet info).

Definition findShardBlockForTx (testnet : bool) (tx : RawTransaction) : M (option Block) :=
  call (api_findShardBlockForTx testnet tx).

Definition findFullBlockForSeqno (testnet : bool) (seqno : Z) : M BlockInfo :=
  call (api_findFullBlockForSeqno testnet seqno).

Definition findAllTransactionsBetween (testnet : bool) (baseTx : BaseTxInfo) (minLt : Z)
  : M (list Transaction) :=
  call (api_findAllTransactionsBetween testnet baseTx minLt).

Definition getBlockConfig (testnet : bool) (block : BlockInfo) : M string :=
  call (api_getBlockConfig testnet block).

Definition getBlockAccount (testnet : bool) (address : Address) (block : BlockInfo)
  : M ShardAccount :=
  call (api_getBlockAccount testnet address block).

Definition getLibraryByHashToncenter (testnet : bool) (hash : string) : M Cell :=
  let* _ := journal (EvGetLibrary Toncenter testnet hash) in
  call (api_getLibrary Toncenter testnet hash).

Definition getLibraryByHashDton (testnet : bool) (hash : string) : M Cell :=
  let* _ := journal (EvGetLibrary Dton testnet hash) in
  call (api_getLibrary Dton testnet hash).

(** [getLibraryByHash]: toncenter first, dton when toncenter throws. *)
Definition getLibraryByHash (testnet : bool) (hash : string) : M Cell :=
  try_catch (getLibraryByHashToncenter testnet hash)
            (fun _ => getLibraryByHashDton testnet hash).

(** *** [collectUsedLibraries] (methods.ts) *)

Definition EXOTIC_LIBRARY_TAG : Z := 2.

(** The closure [addMaybeExoticLibrary]; the dictionary [libs] it writes
    to is passed in and returned. *)
Definition addMaybeExoticLibrary (testnet : bool) (libs : gmap Z Cell) (code : option Cell)
  : M (gmap Z Cell * option Cell) :=
  match code with
  | None => ret (libs, None)
  | Some code =>
      if negb (length (cell_bits code) =? 256 + 8)%nat
      then ret (libs, None) (* not an exotic library cell *)
      else
        let* cs := lift (beginParse true code) in (* allow exotics *)
        let* r := lift (loadUint 8 cs) in
        let tag := fst r in
        let cs := snd r in
        if negb (tag =? EXOTIC_LIBRARY_TAG)
        then ret (libs, None) (* not a library cell *)
        else
          let* r := lift (loadBuffer 32 cs) in
          let libHash := fst r in
          let libHashHex := toUpperCase (Buffer_toHex libHash) in
          let* actualCode := getLibraryByHash testnet libHashHex in
          let* key := lift (BigInt ("0x" +:+ libHashHex)) in
          ret (<[key := actualCode]> libs, Some actualCode)
  end.

Definition accountState (account : ShardAccount) : option AccountState :=
  match sa_account account with
  | Some a => Some (as_state (acc_storage a))
  | None => None
  end.

Definition inMessageInit (tx : Transaction) : option StateInit :=
  match tx_inMessage tx with
  | Some m => msg_init m
  | None => None
  end.

Definition collectUsedLibraries (testnet : bool) (account : ShardAccount) (tx : Transaction)
    (additionalLibs : list (Z * Cell)) : M (option Cell * option Cell) :=
  let libs : gmap Z Cell := ∅ in
  (* 1. scan the current contract code *)
  let state := accountState account in
  let* r :=
    match state with
    | Some (AccountActive s) => addMaybeExoticLibrary testnet libs (si_code s)
    | _ => ret (libs, None)
    end in
  let libs := fst r in
  let loadedCellCode := snd r in
  (* 2. scan the incoming StateInit; [??=] evaluates its right-hand side
        only when [loadedCellCode] is still undefined *)
  let init := inMessageInit tx in
  let* r :=
    match init with
    | Some init =>
        match loadedCellCode with
        | Some _ => ret (libs, loadedCellCode)
        | None => addMaybeExoticLibrary testnet libs (si_code init)
        end
    | None => ret (libs, loadedCellCode)
    end in
  let libs := fst r in
  let loadedCellCode := snd r in
  let libs := fold_left (fun libs entry => <[fst entry := snd entry]> libs) additionalLibs libs in
  if (size libs =? 0)%nat
  then ret (None, loadedCellCode)
  else
    let* dict := lift (storeDictDirect libs) in
    ret (Some dict, loadedCellCode).

(** *** [emulatePreviousTransactions] (methods.ts) *)

Record ReplayState : Type := mkReplayState {
  rs_prevBalance : Z;
  rs_shardAccountBase64 : string
}.

Definition replayFailure (tx : Transaction) (res : EmulationResult) : JsError :=
  "Transaction failed for lt: " +:+ Z_toString (tx_lt tx) +:+ ", logs: " +:+ er_logs res
  +:+ ", debugLogs: " +:+ er_debugLogs res.

(** One turn of the loop of [emulatePreviousTransactions]: [cur] holds the
    two variables [prevBalance] and [shardAccountBase64] it assigns. *)
Definition replayStep (emulate : Transaction -> string -> M EmulationResult)
    (tx : Transaction) (cur : ReplayState) : M ReplayState :=
  let* res := emulate tx (rs_shardAccountBase64 cur) in
  match er_result res with
  | EmulationError _ => throw (replayFailure tx res)
  | EmulationSuccess payload =>
      (* the new state becomes the current one *)
      let shardAccountBase64 := ok_shardAccount payload in
      let* shardAccount := lift (decodeShardAccount shardAccountBase64) in
      let newBalance := balanceOf shardAccount in
      ret (mkReplayState (default 0 newBalance) shardAccountBase64)
  end.

Definition emulatePreviousTransactions (prevBalance : Z) (prevTxsInBlock : list Transaction)
    (emulate : Transaction -> string -> M EmulationResult) (shardAccountBase64 : string)
  : M ReplayState :=
  if (length prevTxsInBlock =? 0)%nat
  then ret (mkReplayState prevBalance shardAccountBase64)
  else
    for_of prevTxsInBlock (replayStep emulate)
      (mkReplayState prevBalance shardAccountBase64).

(** *** [prepareEmulator] (methods.ts) *)

(** [executor.runTransaction(args)], entered in the journal. *)
Definition runTransaction (args : RunTransactionArgs) : M EmulationResult :=
  fun st =>
    let '(r, w) := sandbox_runTransaction args (st_world st) in
    (r, {| st_world := w; st_journal := EvRunTransaction args r :: st_journal st |}).

Definition prepareEmulator (blockConfig : string) (libs : option Cell) (randSeed : Buffer)
  : M (EmulatorVersion * (Transaction -> string -> M EmulationResult)) :=
  let* emulatorVersion := call sandbox_create in
  let emulate := fun (tx : Transaction) (shardAccountBase64 : string) =>
    match tx_inMessage tx with
    | None => throw "No in_message was found in transaction"
    | Some inMsg =>
        runTransaction
          {| run_config := blockConfig;
             run_libs := libs;
             run_shardAccount := shardAccountBase64;
             run_message := inMsg;
             run_now := tx_now tx;
             run_lt := tx_lt tx;
             run_randomSeed := randSeed |}
    end in
  ret (emulatorVersion, emulate).

End AsyncMethods.

(** ** The runner: [retraceBaseTx], [tryLoadAsLibrary], [retrace] *)

Section Runner.
Context {E : Externals}.

(** [tryLoadAsLibrary]: parse a stack cell as a library cell and load it. *)
Definition tryLoadAsLibrary (cell : string) (testnet : bool) : M (option (string * Cell)) :=
  let* libCell := lift (Cell_fromHex cell) in
  if negb (length (cell_bits libCell) =? 256 + 8)%nat
  then ret None (* not an exotic library cell *)
  else
    let* cs := lift (beginParse true libCell) in (* allow exotics *)
    let* r := lift (loadUint 8 cs) in
    let tag := fst r in
    let cs := snd r in
    if negb (tag =? 2)
    then ret None (* not a library cell *)
    else
      let* r := lift (loadBuffer 32 cs) in
      let libHash := fst r in
      let libHashHex := toUpperCase (Buffer_toHex libHash) in
      let* actualCode := getLibraryByHash testnet libHashHex in
      ret (Some (libHashHex, actualCode)).

(** The code cell reported as [originalCodeCell]: the account's code when
    it is active, the code of the in-message's StateInit otherwise. *)
Definition codeCellOf (account : ShardAccount) (tx : Transaction) : option Cell :=
  match accountState account with
  | Some (AccountActive s) => si_code s
  | _ => match inMessageInit tx with
         | Some init => si_code init
         | None => None
         end
  end.

(** [a ?? b]. *)
Definition nullish {A : Type} (a b : option A) : option A :=
  match a with
  | Some _ => a
  | None => b
  end.

(** [retraceBaseTx] (runner).  [ourTx] is the first element of the list
    answered by [findAllTransactionsBetween]; on an empty list it is
    [undefined] and the first read of [tx.inMessage] throws. *)
Definition retraceBaseTx (testnet : bool) (baseTx : BaseTxInfo)
    (additionalLibs : list (Z * Cell)) : M TraceResult :=
  let* txs := findRawTxByHash testnet baseTx in
  match head txs with
  | None => throw "Cannot find transaction info"
  | Some tx =>
      let shard := raw_block tx in
      let* block := findShardBlockForTx testnet tx in
      match block with
      | None => throw "Cannot find shard block for transaction"
      | Some block =>
          (* check if we correctly select master-block *)
          if negb (String.eqb (blk_root_hash block) (rb_rootHash shard))
          then throw ("root_hash mismatch in mc_seqno getter: " +:+ rb_rootHash shard
                      +:+ " != " +:+ blk_root_hash block)
          else
            let mcSeqno := ref_seqno (blk_masterchain_block_ref block) in
            let randSeed := Buffer_fromBase64 (blk_rand_seed block) in
            let* fullBlock := findFullBlockForSeqno testnet mcSeqno in
            let* minLt := lift (computeMinLt (raw_tx tx) (base_address baseTx) fullBlock) in
            let* all := findAllTransactionsBetween testnet baseTx minLt in
            let ourTx := head all in
            let prevTxsInBlock := rev (tail all) in
            let* blockConfig := getBlockConfig testnet fullBlock in
            let* shardAccountBeforeTx := getBlockAccount testnet (base_address baseTx) fullBlock in
            let* r := collectUsedLibraries testnet shardAccountBeforeTx (raw_tx tx)
                        additionalLibs in
            let libs := fst r in
            let loadedCode := snd r in
            let codeCell := codeCellOf shardAccountBeforeTx (raw_tx tx) in
            let* r := prepareEmulator blockConfig libs randSeed in
            let emulatorVersion := fst r in
            let emulate := snd r in
            (* for the first transaction (executor doesn't know about last tx) *)
            let shardAccountBeforeTx :=
              {| sa_account := sa_account shardAccountBeforeTx;
                 sa_lastTransactionHash := 0;
                 sa_lastTransactionLt := 0 |} in
            let initialShardAccountBase64 := shardAccountToBase64 shardAccountBeforeTx in
            let balance := default 0 (balanceOf shardAccountBeforeTx) in
            let* replayed := emulatePreviousTransactions balance prevTxsInBlock emulate
                               initialShardAccountBase64 in
            match ourTx with
            | None => throw "Cannot read properties of undefined (reading 'inMessage')"
            | Some ourTx =>
                let* txRes := emulate ourTx (rs_shardAccountBase64 replayed) in
                match er_result txRes with
                | EmulationError error => throw ("Transaction failed: " +:+ error)
                | EmulationSuccess payload =>
                    let* r := lift (findFinalActions payload) in
                    let finalActions := fst r in
                    let c5 := snd r in
                    let* final := lift (computeFinalData payload (rs_prevBalance replayed)) in
                    let stateUpdateHashOk :=
                      Buffer_equals (newHash (tx_stateUpdate (fd_emulatedTx final)))
                                    (newHash (tx_stateUpdate ourTx)) in
                    let* opcode := lift (txOpcode ourTx) in
                    ret {| stateUpdateHashOk := stateUpdateHashOk;
                           codeCell := nullish loadedCode codeCell;
                           originalCodeCell := codeCell;
                           inMsg := {| in_sender := fd_sender final;
                                       in_contract := fd_contract final;
                                       in_amount := fd_amount final;
                                       in_opcode := opcode |};
                           money := fd_money final;
                           emulatedTx :=
                             {| em_raw := storeTransaction_hex ourTx;
                                em_utime := tx_now (fd_emulatedTx final);
                                em_lt := tx_lt (fd_emulatedTx final);
                                em_computeInfo := fd_computeInfo final;
                                em_executorLogs := er_logs txRes;
                                em_actions := finalActions;
                                em_c5 := c5;
                                em_vmLogs := ok_vmLog payload |};
                           emulatorVersion := emulatorVersion |}
                end
            end
      end
  end.

(** [retrace] (runner).  The function calls itself with one more library
    and no bound of its own; [fuel] bounds the depth of that recursion in
    the model, and running out of it is reported as an exception. *)
Fixpoint retrace (fuel : nat) (testnet : bool) (txLink : string)
    (additionalLibs : list (Z * Cell)) : M TraceResult :=
  match fuel with
  | O => throw "retrace: recursion bound of the model reached"
  | S fuel =>
      let* baseTx := findBaseTxByHash testnet txLink in
      match baseTx with
      | None => throw "Cannot find transaction info"
      | Some baseTx =>
          let* result := retraceBaseTx testnet baseTx additionalLibs in
          match em_computeInfo (emulatedTx result) with
          | ComputeInfoSkipped => ret result
          | ComputeInfoRecord info =>
              if ci_exitCode info =? 0
              then ret result (* fast path *)
              else if ci_exitCode info =? 9
              then
                let lines := logs_parse (em_vmLogs (emulatedTx result)) in
                let exceptionHandlerLine := at_neg lines 2 in
                let exceptionLine := at_neg lines 3 in
                let ctosLine := at_neg lines 4 in
                let stackLine := at_neg lines 6 in
                match exceptionHandlerLine, exceptionLine, ctosLine, stackLine with
                | Some (VmExceptionHandler _), Some (VmException _ message),
                  Some (VmExecute instr), Some (VmStack stack) =>
                    if String.eqb message "failed to load library cell"
                       && String.eqb instr "CTOS"
                    then
                      match at_neg stack 1 with
                      | Some (StackCell boc) =>
                          let* libraryResult := tryLoadAsLibrary boc testnet in
                          match libraryResult with
                          | None => ret result
                          | Some (libHashHex, actualCode) =>
                              let* key := lift (BigInt ("0x" +:+ libHashHex)) in
                              retrace fuel testnet txLink (additionalLibs ++ [(key, actualCode)])
                          end
                      | _ => ret result
                      end
                    else ret result
                | _, _, _, _ => ret result
                end
              else ret result
          end
      end
  end.

End Runner.

(** ** The earlier runner

    The revision of [retrace] without the retry: one function from the
    hash to the report, with the report of [src/types.ts] (no [opcode], no
    [raw]).  It calls [collectUsedLibraries] with three arguments, where the
    function of methods.ts has four parameters and no default for the
    last. *)

Module Legacy.

Record TraceInMessage : Type := mkTraceInMessage {
  in_sender : option Address;
  in_contract : Address;
  in_amount : option Z
}.

Record TraceEmulatedTx : Type := mkTraceEmulatedTx {
  em_utime : Z;
  em_lt : Z;
  em_computeInfo : ComputeInfo;
  em_executorLogs : string;
  em_actions : list OutAction;
  em_c5 : option Cell;
  em_vmLogs : string
}.

Record TraceResult : Type := mkTraceResult {
  stateUpdateHashOk : bool;
  codeCell : option Cell;
  originalCodeCell : option Cell;
  inMsg : TraceInMessage;
  money : TraceMoneyResult;
  emulatedTx : TraceEmulatedTx;
  emulatorVersion : EmulatorVersion
}.

Section Runner.
Context {E : Externals}.

(** The two scans [collectUsedLibraries] starts with: the code of the
    account, then the code of the incoming StateInit unless the first scan
    has resolved a library. *)
Definition scanUsedLibraries (testnet : bool) (account : ShardAccount) (tx : Transaction)
  : M (gmap Z Cell * option Cell) :=
  let libs : gmap Z Cell := ∅ in
  let state := accountState account in
  let* r :=
    match state with
    | Some (AccountActive s) => addMaybeExoticLibrary testnet libs (si_code s)
    | _ => ret (libs, None)
    end in
  let libs := fst r in
  let loadedCellCode := snd r in
  let init := inMessageInit tx in
  match init with
  | Some init =>
      match loadedCellCode with
      | Some _ => ret (libs, loadedCellCode)
      | None => addMaybeExoticLibrary testnet libs (si_code init)
      end
  | None => ret (libs, loadedCellCode)
  end.

(** [collectUsedLibraries(testnet, account, tx)]: [additionalLibs] is
    [undefined].  The scans run; then [for (... of additionalLibs)] throws
    a [TypeError]. *)
Definition collectUsedLibraries_threeArguments (testnet : bool) (account : ShardAccount)
    (tx : Transaction) : M (option Cell * option Cell) :=
  let* r := scanUsedLibraries testnet account tx in
  throw "additionalLibs is not iterable".

Definition retrace (testnet : bool) (txLink : string) : M TraceResult :=
  let* baseTx := findBaseTxByHash testnet txLink in
  match baseTx with
  | None => throw "Cannot find transaction info"
  | Some baseTx =>
  let* txs := findRawTxByHash testnet baseTx in
  match head txs with
  | None => throw "Cannot find transaction info"
  | Some tx =>
      let shard := raw_block tx in
      let* block := findShardBlockForTx testnet tx in
      match block with
      | None => throw "Cannot find shard block for transaction"
      | Some block =>
          (* check if we correctly select master-block *)
          if negb (String.eqb (blk_root_hash block) (rb_rootHash shard))
          then throw ("root_hash mismatch in mc_seqno getter: " +:+ rb_rootHash shard
                      +:+ " != " +:+ blk_root_hash block)
          else
            let mcSeqno := ref_seqno (blk_masterchain_block_ref block) in
            let randSeed := Buffer_fromBase64 (blk_rand_seed block) in
            let* fullBlock := findFullBlockForSeqno testnet mcSeqno in
            let* minLt := lift (computeMinLt (raw_tx tx) (base_address baseTx) fullBlock) in
            let* all := findAllTransactionsBetween testnet baseTx minLt in
            let ourTx := head all in
            let prevTxsInBlock := rev (tail all) in
            let* blockConfig := getBlockConfig testnet fullBlock in
            let* shardAccountBeforeTx := getBlockAccount testnet (base_address baseTx) fullBlock in
            let* r := collectUsedLibraries_threeArguments testnet shardAccountBeforeTx
                        (raw_tx tx) in
            let libs := fst r in
            let loadedCode := snd r in
            let codeCell := codeCellOf shardAccountBeforeTx (raw_tx tx) in
            let* r := prepareEmulator blockConfig libs randSeed in
            let emulatorVersion := fst r in
            let emulate := snd r in
            (* for the first transaction (executor doesn't know about last tx) *)
            let shardAccountBeforeTx :=
              {| sa_account := sa_account shardAccountBeforeTx;
                 sa_lastTransactionHash := 0;
                 sa_lastTransactionLt := 0 |} in
            let initialShardAccountBase64 := shardAccountToBase64 shardAccountBeforeTx in
            let balance := default 0 (balanceOf shardAccountBeforeTx) in
            let* replayed := emulatePreviousTransactions balance prevTxsInBlock emulate
                               initialShardAccountBase64 in
            match ourTx with
            | None => throw "Cannot read properties of undefined (reading 'inMessage')"
            | Some ourTx =>
                let* txRes := emulate ourTx (rs_shardAccountBase64 replayed) in
                match er_result txRes with
                | EmulationError _ => throw "Transaction failed"
                | EmulationSuccess payload =>
                    let* r := lift (findFinalActions payload) in
                    let finalActions := fst r in
                    let c5 := snd r in
                    let* final := lift (computeFinalData payload (rs_prevBalance replayed)) in
                    let stateUpdateHashOk :=
                      Buffer_equals (newHash (tx_stateUpdate (fd_emulatedTx final)))
                                    (newHash (tx_stateUpdate ourTx)) in
                    ret {| stateUpdateHashOk := stateUpdateHashOk;
                           codeCell := nullish loadedCode codeCell;
                           originalCodeCell := codeCell;
                           inMsg := {| in_sender := fd_sender final;
                                       in_contract := fd_contract final;
                                       in_amount := fd_amount final |};
                           money := fd_money final;
                           emulatedTx :=
                             {| em_utime := tx_now (fd_emulatedTx final);
                                em_lt := tx_lt (fd_emulatedTx final);
                                em_computeInfo := fd_computeInfo final;
                                em_executorLogs := er_logs txRes;
                                em_actions := finalActions;
                                em_c5 := c5;
                                em_vmLogs := ok_vmLog payload |};
                           emulatorVersion := emulatorVersion |}
                end
            end
      end
  end
  end.

End Runner.

End Legacy.

(** ** Vocabulary of the specification *)

(** The unsigned number spelled by a run of bits, most significant first. *)
Definition bitsToZ (bs : list bool) : Z :=
  fold_left (fun acc (b : bool) => 2 * acc + (if b then 1 else 0)) bs 0.

(** The [k]-th byte of a bit string, counted from bit [from]. *)
Definition byteAt (bs : list bool) (from k : nat) : Z :=
  bitsToZ (take 8 (drop (from + 8 * k) bs)).

(** The 256 bits that follow the first byte, as 32 bytes. *)
Definition fragmentHash (c : Cell) : Buffer :=
  map (byteAt (cell_bits c) 8) (seq 0 32).

(** The detection rule in the words of the specification: exactly 264
    bits, the first 8 of them spelling the tag 2; the hash is what follows. *)
Definition classifyFragment (c : Cell) : option Buffer :=
  if bool_decide (length (cell_bits c) = 264%nat)
     && bool_decide (bitsToZ (take 8 (cell_bits c)) = 2)
  then Some (fragmentHash c)
  else None.

(** The hexadecimal name under which a fragment is requested. *)
Definition fragmentName (h : Buffer) : string := toUpperCase (Buffer_toHex h).

(** The values of the internal messages among [msgs], in order. *)
Definition internalValue (m : Message) : option Z :=
  match msg_info m with
  | InfoInternal i => Some (coins (int_value i))
  | _ => None
  end.

Definition internalValues (msgs : list Message) : list Z := omap internalValue msgs.

Definition sumZ (l : list Z) : Z := foldr Z.add 0 l.

Definition withOutMessages (tx : Transaction) (out : list (Z * Message)) : Transaction :=
  {| tx_address := tx_address tx;
     tx_lt := tx_lt tx;
     tx_now := tx_now tx;
     tx_inMessage := tx_inMessage tx;
     tx_outMessages := out;
     tx_totalFees := tx_totalFees tx;
     tx_stateUpdate := tx_stateUpdate tx;
     tx_description := tx_description tx |}.

(** The entries of the block's shard summaries that belong to the account
    whose address prints as [addrStr]. *)
Definition accountEntries (addrStr : string) (block : BlockInfo) : list ShardTransaction :=
  filter (fun t => stx_account t = addrStr) (concat (map shard_transactions (shards block))).

(** Whether a message is an internal message with the [bounced] flag. *)
Definition isBouncedMessage (m : Message) : bool :=
  match msg_info m with
  | InfoInternal i => int_bounced i
  | _ => false
  end.

(** The missing-library signature in the tail of a parsed VM log: the
    exception handler, the exception "failed to load library cell", the
    instruction CTOS and, before its location line, the stack dump. *)
Definition hasMissingLibrarySignature (lines : list VmLine) (stack : list StackElement)
  : Prop :=
  (exists errno, at_neg lines 2 = Some (VmExceptionHandler errno))
  /\ (exists errno, at_neg lines 3 = Some (VmException errno "failed to load library cell"))
  /\ at_neg lines 4 = Some (VmExecute "CTOS")
  /\ at_neg lines 6 = Some (VmStack stack).

Definition withNewHash (h : Buffer) (tx : Transaction) : Transaction :=
  {| tx_address := tx_address tx;
     tx_lt := tx_lt tx;
     tx_now := tx_now tx;
     tx_inMessage := tx_inMessage tx;
     tx_outMessages := tx_outMessages tx;
     tx_totalFees := tx_totalFees tx;
     tx_stateUpdate := {| oldHash := oldHash (tx_stateUpdate tx); newHash := h |};
     tx_description := tx_description tx |}.

Definition withStateUpdateHashOk (flag : bool) (r : TraceResult) : TraceResult :=
  {| stateUpdateHashOk := flag;
     codeCell := codeCell r;
     originalCodeCell := originalCodeCell r;
     inMsg := inMsg r;
     money := money r;
     emulatedTx := emulatedTx r;
     emulatorVersion := emulatorVersion r |}.

(** The same outside world, except that every transaction decoded by
    [loadTransaction] carries [h] as its resulting state hash. *)
Definition withEmulatedHash (h : Buffer) (E : Externals) : Externals :=
  {| World := @World E;
     BigInt := @BigInt E;
     Buffer_fromBase64 := @Buffer_fromBase64 E;
     Cell_fromBase64 := @Cell_fromBase64 E;
     Cell_fromHex := @Cell_fromHex E;
     Address_toString := @Address_toString E;
     loadShardAccount := @loadShardAccount E;
     loadTransaction := fun sl => let? t := @loadTransaction E sl in Ok (withNewHash h t);
     loadOutList := @loadOutList E;
     storeShardAccount_base64 := @storeShardAccount_base64 E;
     storeTransaction_hex := @storeTransaction_hex E;
     storeDictDirect := @storeDictDirect E;
     logs_parse := @logs_parse E;
     api_findBaseTxByHash := @api_findBaseTxByHash E;
     api_findRawTxByHash := @api_findRawTxByHash E;
     api_findShardBlockForTx := @api_findShardBlockForTx E;
     api_findFullBlockForSeqno := @api_findFullBlockForSeqno E;
     api_findAllTransactionsBetween := @api_findAllTransactionsBetween E;
     api_getBlockConfig := @api_getBlockConfig E;
     api_getBlockAccount := @api_getBlockAccount E;
     api_getLibrary := @api_getLibrary E;
     sandbox_create := @sandbox_create E;
     sandbox_runTransaction := @sandbox_runTransaction E |}.

Section StackTop.
Context {E : Externals}.

(** The top of a stack dump is a cell that the detection rule classifies
    as a fragment. *)
Definition stackTopIsFragment (stack : list StackElement) : Prop :=
  exists (boc : string) (c : Cell) (h : Buffer),
    at_neg stack 1 = Some (StackCell boc)
    /\ Cell_fromHex boc = Ok c
    /\ classifyFragment c = Some h.

(** A cell on top of a stack dump is printed as the hexadecimal form of a
    bag of cells that [Cell.fromHex] reads back. *)
Definition stackTopReadable (stack : list StackElement) : Prop :=
  forall boc : string,
    at_neg stack 1 = Some (StackCell boc) -> exists c : Cell, Cell_fromHex boc = Ok c.

End StackTop.

(** ** A small world to run the functions in

    One account, one block, canned answers.  The scenario fixes what the
    indexers, the decoders and the engine answer. *)

Definition digitValue (c : ascii) : option Z :=
  let n := Z.of_nat (nat_of_ascii c) in
  if (48 <=? n) && (n <=? 57) then Some (n - 48)
  else if (65 <=? n) && (n <=? 70) then Some (n - 55)
  else if (97 <=? n) && (n <=? 102) then Some (n - 87)
  else None.

Fixpoint parseDigits (base : Z) (s : string) (acc : Z) : Res Z :=
  match s with
  | EmptyString => Ok acc
  | String c rest =>
      match digitValue c with
      | Some d =>
          if d <? base then parseDigits base rest (base * acc + d)
          else Throw "SyntaxError: Cannot convert to a BigInt"
      | None => Throw "SyntaxError: Cannot convert to a BigInt"
      end
  end.

(** [BigInt(string)] on decimal and 0x-prefixed hexadecimal numerals. *)
Definition numeralBigInt (s : string) : Res Z :=
  match s with
  | String "0" (String "x" EmptyString) => Throw "SyntaxError: Cannot convert to a BigInt"
  | String "0" (String "x" rest) => parseDigits 16 rest 0
  | _ => parseDigits 10 s 0
  end.

Definition byteBits (byte : Z) : list bool :=
  map (fun i => Z.testbit byte (Z.of_nat (7 - i))) (seq 0 8).

(** A library cell: the tag byte 2, then 32 times the byte [fill]. *)
Definition libraryCellOf (fill : Z) : Cell :=
  mkCell (byteBits 2 ++ concat (replicate 32 (byteBits fill)))%list [] true.

Definition libraryCellA : Cell := libraryCellOf 170.
Definition libraryCellB : Cell := libraryCellOf 187.
Definition ordinaryCode : Cell := mkCell [true; true; true; true; false; false; false; false] [] false.
Definition resolvedCode : Cell := mkCell [true; false; true] [] false.
Definition emptyCell : Cell := mkCell [] [] false.

Definition demoAddress : Address := mkAddress 0 (replicate 32 1).
Definition otherAddress : Address := mkAddress 0 (replicate 32 2).

Definition internalMessage (value : Z) (bounced : bool) (init : option StateInit) (body : Cell)
  : Message :=
  {| msg_info := InfoInternal {| int_bounce := true;
                                 int_bounced := bounced;
                                 int_src := otherAddress;
                                 int_dest := demoAddress;
                                 int_value := mkCurrency value;
                                 int_createdLt := 0 |};
     msg_init := init;
     msg_body := body |}.

Definition externalOutMessage : Message :=
  {| msg_info := InfoExternalOut {| extout_src := demoAddress;
                                    extout_dest := None;
                                    extout_createdLt := 0 |};
     msg_init := None;
     msg_body := emptyCell |}.

Definition genericVm (exitCode : Z) (action : option ActionPhase) : TransactionDescription :=
  DescGeneric {| gen_creditFirst := false;
                 gen_computePhase :=
                   ComputePhaseVm {| vm_success := exitCode =? 0;
                                     vm_gasFees := 400;
                                     vm_gasUsed := 1000;
                                     vm_exitCode := exitCode;
                                     vm_vmSteps := 25 |};
                 gen_actionPhase := action;
                 gen_aborted := negb (exitCode =? 0);
                 gen_destroyed := false |}.

Definition demoTx (lt : Z) (inMessage : option Message) (out : list (Z * Message))
    (stateHash : Buffer) (description : TransactionDescription) : Transaction :=
  {| tx_address := 1;
     tx_lt := lt;
     tx_now := 1700000000;
     tx_inMessage := inMessage;
     tx_outMessages := out;
     tx_totalFees := mkCurrency 500;
     tx_stateUpdate := {| oldHash := [0]; newHash := stateHash |};
     tx_description := description |}.

Definition activeAccount (code : Cell) (balance : Z) : ShardAccount :=
  {| sa_account :=
       Some {| acc_addr := demoAddress;
               acc_storage := {| as_lastTransLt := 90;
                                 as_balance := mkCurrency balance;
                                 as_state := AccountActive (mkStateInit (Some code) None) |} |};
     sa_lastTransactionHash := 7;
     sa_lastTransactionLt := 90 |}.

Record Scenario : Type := mkScenario {
  sc_account : ShardAccount;
  sc_summary : list ShardTransaction;
  sc_history : list Transaction;
  sc_emulated : Transaction;
  sc_after : ShardAccount;
  sc_lines : list VmLine;
  sc_engine : RunTransactionArgs -> Res EmulationResult
}.

Definition scenarioBase (sc : Scenario) : BaseTxInfo :=
  {| base_lt := 100; base_hash := [9]; base_address := demoAddress |}.

Definition scenarioRaw (sc : Scenario) : RawTransaction :=
  {| raw_block := {| rb_workchain := 0; rb_seqno := 5; rb_shard := "8000000000000000";
                     rb_rootHash := "root"; rb_fileHash := "file" |};
     raw_tx := default (demoTx 100 None [] [] (DescOther "storage")) (head (sc_history sc)) |}.

Definition scenarioExternals (sc : Scenario) : Externals :=
  {| World := unit;
     BigInt := numeralBigInt;
     Buffer_fromBase64 := fun _ => [3; 1; 4];
     Cell_fromBase64 := fun _ => Ok emptyCell;
     Cell_fromHex := fun boc =>
       if String.eqb boc "LIB-A" then Ok libraryCellA
       else if String.eqb boc "CODE" then Ok ordinaryCode
       else Throw "Invalid BOC";
     Address_toString := fun _ => "EQ-demo";
     loadShardAccount := fun _ => Ok (sc_after sc);
     loadTransaction := fun _ => Ok (sc_emulated sc);
     loadOutList := fun _ => Ok [];
     storeShardAccount_base64 := fun _ => "snapshot-0";
     storeTransaction_hex := fun _ => "b5ee";
     storeDictDirect := fun libs => Ok (mkCell [] (map snd (map_to_list libs)) false);
     logs_parse := fun _ => sc_lines sc;
     api_findBaseTxByHash := fun _ _ w => (Ok (Some (scenarioBase sc)), w);
     api_findRawTxByHash := fun _ _ w => (Ok [scenarioRaw sc], w);
     api_findShardBlockForTx := fun _ _ w =>
       (Ok (Some {| blk_root_hash := "root";
                    blk_masterchain_block_ref := mkBlockRef (-1) "8000000000000000" 40;
                    blk_rand_seed := "seed" |}), w);
     api_findFullBlockForSeqno := fun _ _ w =>
       (Ok (mkBlockInfo [mkShardInfo 0 "8000000000000000" 5 (sc_summary sc)]), w);
     api_findAllTransactionsBetween := fun _ _ _ w => (Ok (sc_history sc), w);
     api_getBlockConfig := fun _ _ w => (Ok "config", w);
     api_getBlockAccount := fun _ _ _ w => (Ok (sc_account sc), w);
     api_getLibrary := fun _ _ _ w => (Ok resolvedCode, w);
     sandbox_create := fun w => (Ok (mkEmulatorVersion "abc" "2025"), w);
     sandbox_runTransaction := fun args w => (sc_engine sc args, w) |}.

Definition successAnswer (snapshot : string) : Res EmulationResult :=
  Ok {| er_result := EmulationSuccess {| ok_transaction := "tx";
                                         ok_shardAccount := snapshot;
                                         ok_vmLog := "vm log";
                                         ok_actions := None |};
        er_logs := "logs";
        er_debugLogs := "debug" |}.


(** The engine succeeds on every transaction. *)
Definition engineOk (args : RunTransactionArgs) : Res EmulationResult :=
  successAnswer ("snapshot-" +:+ Z_toString (run_lt args)).


Definition summaryEntries : list ShardTransaction :=
  [ mkShardTransaction "98" "h98" "EQ-demo";
    mkShardTransaction "70" "h70" "EQ-other";
    mkShardTransaction "99" "h99" "EQ-demo";
    mkShardTransaction "100" "h100" "EQ-demo" ].

Definition targetMessage : Message := internalMessage 1000 false None emptyCell.

(** The target at logical time 100, after two earlier transactions of the
    account in the same block (newest first, as the indexer lists them). *)
Definition demoHistory : list Transaction :=
  [ demoTx 100 (Some targetMessage) [] [1; 2; 3] (genericVm 0 None);
    demoTx 99 (Some targetMessage) [] [1; 2] (genericVm 0 None);
    demoTx 98 (Some targetMessage) [] [1] (genericVm 0 None) ].

(** The exit code and the state hash of the emulated target vary. *)
Definition demoScenario (exitCode : Z) (stateHash : Buffer) (lines : list VmLine)
  : Scenario :=
  {| sc_account := activeAccount ordinaryCode 5000;
     sc_summary := summaryEntries;
     sc_history := demoHistory;
     sc_emulated := demoTx 100 (Some targetMessage)
                      [(0, internalMessage 300 false None emptyCell);
                       (1, externalOutMessage);
                       (2, internalMessage 200 false None emptyCell)]
                      stateHash (genericVm exitCode None);
     sc_after := activeAccount ordinaryCode 4000;
     sc_lines := lines;
     sc_engine := engineOk |}.

Definition world0 : St unit := mkSt tt [].

(** A log tail with the missing-library signature, the stack top being [top]. *)
Definition signatureLines (top : StackElement) : list VmLine :=
  [ VmStack [StackOther "Integer"; top];
    VmOther "VmLoc";
    VmExecute "CTOS";
    VmException 9 "failed to load library cell";
    VmExceptionHandler 9;
    VmOther "VmUnknown" ].

(** An active account whose code is the library cell A receives a message
    whose StateInit carries the library cell B. *)
Definition selfFragmentAccount : ShardAccount := activeAccount libraryCellA 5000.

Definition deployMessage : Message :=
  internalMessage 1000 false (Some (mkStateInit (Some libraryCellB) None)) emptyCell.

Definition deployTx : Transaction :=
  demoTx 100 (Some deployMessage) [] [1; 2; 3] (genericVm 0 None).

Definition plainTx : Transaction :=
  demoTx 100 (Some targetMessage) [] [1; 2; 3] (genericVm 0 None).

Definition demoExternals : Externals := scenarioExternals (demoScenario 0 [1; 2; 3] []).

(** A bounced in-message whose body has no bits. *)
Definition bouncedEmptyTx : Transaction :=
  demoTx 100 (Some (internalMessage 1000 true None emptyCell)) [] [1; 2; 3]
    (genericVm 0 None).

Definition demoBlock : BlockInfo :=
  mkBlockInfo [mkShardInfo 0 "8000000000000000" 5 summaryEntries].

Definition demoBase : BaseTxInfo := scenarioBase (demoScenario 0 [1; 2; 3] []).

(** The answer of the engine on the demo target: exit code 0 in
    [demoExternals], with the decoders' canned transaction. *)
Definition demoPayload : EmulationResultSuccess :=
  {| ok_transaction := "tx";
     ok_shardAccount := "snapshot-100";
     ok_vmLog := "vm log";
     ok_actions := None |}.


Definition tx98 : Transaction := demoTx 98 (Some targetMessage) [] [1] (genericVm 0 None).
Definition tx99 : Transaction := demoTx 99 (Some targetMessage) [] [1; 2] (genericVm 0 None).

(** A reconstruction that ends with exit code 9 and a log whose stack top
    is an ordinary cell; and one whose emulated state hash differs from
    the on-chain one. *)
Definition underflowExternals : Externals :=
  scenarioExternals (demoScenario 9 [1; 2; 3] (signatureLines (StackCell "CODE"))).

Definition mismatchExternals : Externals :=
  scenarioExternals (demoScenario 0 [9; 9; 9] []).

(** A reconstruction that ends with exit code 9 and the missing-library
    signature, the stack top being the library cell A. *)
Definition missingLibraryExternals : Externals :=
  scenarioExternals (demoScenario 9 [1; 2; 3] (signatureLines (StackCell "LIB-A"))).

(** A world whose first provider always fails. *)
Definition toncenterDownExternals : Externals :=
  {| World := unit;
     BigInt := numeralBigInt;
     Buffer_fromBase64 := @Buffer_fromBase64 demoExternals;
     Cell_fromBase64 := @Cell_fromBase64 demoExternals;
     Cell_fromHex := @Cell_fromHex demoExternals;
     Address_toString := @Address_toString demoExternals;
     loadShardAccount := @loadShardAccount demoExternals;
     loadTransaction := @loadTransaction demoExternals;
     loadOutList := @loadOutList demoExternals;
     storeShardAccount_base64 := @storeShardAccount_base64 demoExternals;
     storeTransaction_hex := @storeTransaction_hex demoExternals;
     storeDictDirect := @storeDictDirect demoExternals;
     logs_parse := @logs_parse demoExternals;
     api_findBaseTxByHash := @api_findBaseTxByHash demoExternals;
     api_findRawTxByHash := @api_findRawTxByHash demoExternals;
     api_findShardBlockForTx := @api_findShardBlockForTx demoExternals;
     api_findFullBlockForSeqno := @api_findFullBlockForSeqno demoExternals;
     api_findAllTransactionsBetween := @api_findAllTransactionsBetween demoExternals;
     api_getBlockConfig := @api_getBlockConfig demoExternals;
     api_getBlockAccount := @api_getBlockAccount demoExternals;
     api_getLibrary := fun provider _ _ w =>
       match provider with
       | Toncenter => (Throw "Get library on toncenter: timeout", w)
       | Dton => (Ok resolvedCode, w)
       end;
     sandbox_create := @sandbox_create demoExternals;
     sandbox_runTransaction := @sandbox_runTransaction demoExternals |}.

(** ** Vocabulary for the journal of a run *)

(** The journal entries of a replay by the prepared emulator: one engine
    run per transaction, each on the snapshot the run before returned, all
    with the same configuration, libraries and seed.  [ReplayTrace first txs
    events last]: replaying [txs] from the snapshot [first] adds [events]
    (newest first) and ends on the snapshot [last]. *)
Inductive ReplayTrace (blockConfig : string) (libs : option Cell) (randSeed : Buffer)
  : string -> list Transaction -> list Event -> string -> Prop :=
| ReplayTrace_nil (snapshot : string) :
    ReplayTrace blockConfig libs randSeed snapshot [] [] snapshot
| ReplayTrace_cons (snapshot : string) (tx : Transaction) (txs : list Transaction)
    (inMsg : Message) (res : EmulationResult) (payload : EmulationResultSuccess)
    (events : list Event) (last : string) :
    tx_inMessage tx = Some inMsg ->
    er_result res = EmulationSuccess payload ->
    ReplayTrace blockConfig libs randSeed (ok_shardAccount payload) txs events last ->
    ReplayTrace blockConfig libs randSeed snapshot (tx :: txs)
      (events ++ [EvRunTransaction
                    {| run_config := blockConfig;
                       run_libs := libs;
                       run_shardAccount := snapshot;
                       run_message := inMsg;
                       run_now := tx_now tx;
                       run_lt := tx_lt tx;
                       run_randomSeed := randSeed |} (Ok res)])%list
      last.

Definition isLibraryRequest (e : Event) : Prop :=
  match e with
  | EvGetLibrary _ _ _ => True
  | EvRunTransaction _ _ => False
  end.

#[global] Instance isLibraryRequest_dec (e : Event) : Decision (isLibraryRequest e).
Proof. destruct e; [right; exact (fun H => H) | left; exact I]. Defined.

(** The account as the first engine run receives it: the pointer to its
    last transaction is cleared. *)
Definition clearedLastTransaction (account : ShardAccount) : ShardAccount :=
  {| sa_account := sa_account account;
     sa_lastTransactionHash := 0;
     sa_lastTransactionLt := 0 |}.

(** The number of library requests in a journal. *)
Definition countLibraryRequests (journal : list Event) : nat :=
  length (filter isLibraryRequest journal).

(** The unsigned number spelled by a buffer, most significant byte first. *)
Definition bytesToZ (b : Buffer) : Z := fold_left (fun acc byte => 256 * acc + byte) b 0.

(** A runtime whose [BigInt] reads the numeral made of [0x] and one or more
    hexadecimal digits, in either case, as the number they spell.  Nothing
    is asked about any other text, nor about the errors. *)
Definition readsHexNumerals (E : Externals) : Prop :=
  forall (digits : string) (n : Z),
    digits <> EmptyString ->
    parseDigits 16 digits 0 = Ok n ->
    @BigInt E ("0x" +:+ digits) = Ok n.

(** A library as a retry of [retrace] adds it: the code [tryLoadAsLibrary]
    answered for a cell, under the key that [BigInt] reads off the
    hexadecimal hash it answered with. *)
Definition addedByRetry {E : Externals} (testnet : bool) (lib : Z * Cell) : Prop :=
  exists (boc libHashHex : string) (st st' : St World),
    tryLoadAsLibrary boc testnet st = (Ok (Some (libHashHex, snd lib)), st')
    /\ BigInt ("0x" +:+ libHashHex) = Ok (fst lib).

(** ** Building a cell and reading an address back ([@ton/core])

    What [bigintToAddress] (utils) runs through. *)

(** The [bits] low bits of a number, most significant first. *)
Fixpoint uintBits (bits : nat) (v : Z) : list bool :=
  match bits with
  | O => []
  | S bits' => (uintBits bits' (v / 2) ++ [Z.odd v])%list
  end.

(** [builder.storeUint(value, bits)]: a value that does not fit is refused,
    and so is a write past the 1023 bits of a cell. *)
Definition storeUint (value : Z) (bits : nat) (b : list bool) : Res (list bool) :=
  if (bits =? 0)%nat
  then (if value =? 0 then Ok b
        else Throw ("value is not zero for 0 bits. Got " +:+ Z_toString value))
  else if (value <? 0) || (2 ^ Z.of_nat bits <=? value)
  then Throw ("bitLength is too small for a value " +:+ Z_toString value +:+ ". Got "
              +:+ Z_toString (Z.of_nat bits))
  else if (1023 <? length b + bits)%nat
  then Throw "BitBuilder overflow"
  else Ok (b ++ uintBits bits value)%list.

(** [builder.asSlice()]: the slice of the ordinary cell built so far. *)
Definition Builder_asSlice (b : list bool) : Res Slice := asSlice (mkCell b [] false).

(** [BitReader._preloadInt(bits, offset)]: two's complement. *)
Definition preloadInt (bs : list bool) (n : nat) (offset : nat) : Res Z :=
  let? u := preloadUint bs n offset 0 in
  Ok (if 2 ^ (Z.of_nat n - 1) <=? u then u - 2 ^ Z.of_nat n else u).

(** [slice.loadAddress()]: the tag [10], no anycast, the workchain as a
    signed byte, the 256 bits of the hash. *)
Definition loadAddress (s : Slice) : Res (Address * Slice) :=
  let bs := slice_bits s in
  let offset := slice_offset s in
  let? type := preloadUint bs 2 offset 0 in
  if type =? 2
  then
    let? anycast := preloadUint bs 1 (offset + 2) 0 in
    if negb (anycast =? 0) then Throw "Invalid address"
    else
      let? wc := preloadInt bs 8 (offset + 3) in
      let? hash := preloadBuffer bs 32 (offset + 11) in
      Ok ({| addr_workChain := wc; addr_hash := hash |},
          mkSlice bs (offset + 267) (slice_refs s))
  else Throw ("Invalid address: " +:+ Z_toString type).

(** [bigintToAddress] (utils): every exception gives [undefined]. *)
Definition bigintToAddress (addr : option Z) : option Address :=
  match addr with
  | None => None
  | Some addr =>
      match (let? b := storeUint 4 3 [] in
             let? b := storeUint 0 8 b in
             let? b := storeUint addr 256 b in
             let? slice := Builder_asSlice b in
             let? r := loadAddress slice in
             Ok (fst r)) with
      | Ok address => Some address
      | Throw _ => None
      end
  end.

(** ** The requests of methods.ts, one level down

    Above, each request to an indexer is one external call.  Here the
    clients ([TonClient4], [axios]) are the externals, and the code of the
    repository around them is modelled: the block number asked for, the
    normalisation of the shard, the fallback, the conversion of the answer. *)

(** [bigint.toString(16)] : lower-case digits, no leading zero, a minus sign
    for a negative number. *)
Fixpoint hexDigitsOf (fuel : nat) (n : Z) (acc : string) : string :=
  match fuel with
  | O => acc
  | S fuel' =>
      if n <? 16 then String (hexDigit n) acc
      else hexDigitsOf fuel' (n / 16) (String (hexDigit (n mod 16)) acc)
  end.

Definition BigInt_toString16 (n : Z) : string :=
  if n <? 0
  then "-" +:+ hexDigitsOf (S (Z.to_nat (Z.log2 (- n)))) (- n) ""
  else hexDigitsOf (S (Z.to_nat (Z.log2 n))) n "".

Module Requests.

(** [StateFromAPI] (types.ts), a union tagged by [type]. *)
Inductive StateFromAPI : Type :=
| StateUninit
| StateActive (data code : option string)
| StateFrozen (stateHash : string).

Record LastFromAPI : Type := mkLast {
  last_lt : string;
  last_hash : string
}.

Record UsedFromAPI : Type := mkUsed {
  used_bits : Z;
  used_cells : Z;
  used_publicCells : Z
}.

Record StorageStatFromAPI : Type := mkStorageStat {
  stat_lastPaid : Z;
  stat_duePayment : option string;
  stat_used : UsedFromAPI
}.

(** [AccountFromAPI] (types.ts); [null] is [None]. *)
Record AccountFromAPI : Type := mkAccountFromAPI {
  api_coins : string;
  api_state : StateFromAPI;
  api_last : option LastFromAPI;
  api_storageStat : option StorageStatFromAPI
}.

(** An entry of toncenter's answer to [getLibraries]. *)
Record LibraryEntry : Type := mkLibraryEntry {
  lib_hash : string;
  lib_data : string
}.

(** The clients the requests go through. *)
Class Clients {E : Externals} : Type := {
  (* [address.toString({urlSafe: true})] *)
  Address_toString_urlSafe : Address -> string;
  (* [new TonClient4({endpoint}).getAccount(seqno, address)], its [account] *)
  clientV4_getAccount : string -> Z -> Address -> World -> Res AccountFromAPI * World;
  (* [new TonClient4({endpoint}).getConfig(seqno)], its [config.cell] *)
  clientV4_getConfig : string -> Z -> World -> Res string * World;
  (* [axios.get(path)] on an account path, its [data.account] *)
  axios_get_account : string -> World -> Res AccountFromAPI * World;
  (* [axios.get(url, {params: {workchain, shard, seqno}})], its [data.blocks] *)
  axios_get_blocks : string -> Z -> string -> Z -> World -> Res (list Block) * World;
  (* [axios.get(url, {params: {libraries}})], its [data.result.result] *)
  axios_get_libraries : string -> string -> World -> Res (list LibraryEntry) * World;
  (* [axios.post(url, {query, variables: {}})], its [data.data.get_lib] *)
  axios_post_graphql : string -> string -> World -> Res string * World
}.

Section Code.
Context {E : Externals} {C : Clients}.

(** [base64ToBigint] (utils). *)
Definition base64ToBigint (b64 : string) : Res Z :=
  BigInt ("0x" +:+ Buffer_toHex (Buffer_fromBase64 b64)).

(** [normalizeStateFromAPI] (methods.ts). *)
Definition normalizeStateFromAPI (givenState : StateFromAPI) : Res AccountState :=
  match givenState with
  | StateUninit => Ok AccountUninit
  | StateFrozen stateHash =>
      let? stateHash := base64ToBigint stateHash in
      Ok (AccountFrozen stateHash)
  | StateActive data code =>
      let? code :=
        match code with
        | None => Ok None
        | Some code => let? c := Cell_fromBase64 code in Ok (Some c)
        end in
      let? data :=
        match data with
        | None => Ok None
        | Some data => let? c := Cell_fromBase64 data in Ok (Some c)
        end in
      Ok (AccountActive {| si_code := code; si_data := data |})
  end.

(** [createShardAccountFromAPI] (methods.ts).  The fields are evaluated in
    the order of the object literal.  [Account] keeps no storage
    statistics; of the conversions that fill them, the one that can throw,
    [BigInt(duePayment)], still runs at its place.  Counters are integers,
    on which [BigInt(number)] does not throw. *)
Definition createShardAccountFromAPI (apiAccount : AccountFromAPI) (address : Address)
  : Res ShardAccount :=
  let lastLt :=
    match api_last apiAccount with
    | Some last => BigInt (last_lt last)
    | None => Ok 0
    end in
  let? lastTransLt := lastLt in
  let? balance := BigInt (api_coins apiAccount) in
  let? state := normalizeStateFromAPI (api_state apiAccount) in
  let? duePayment :=
    match api_storageStat apiAccount with
    | Some stat =>
        match stat_duePayment stat with
        | Some due => let? d := BigInt due in Ok (Some d)
        | None => Ok None
        end
    | None => Ok None
    end in
  let? lastTransactionLt := lastLt in
  let? lastTransactionHash :=
    match api_last apiAccount with
    | Some last => base64ToBigint (last_hash last)
    | None => Ok 0
    end in
  Ok {| sa_account :=
          Some {| acc_addr := address;
                  acc_storage := {| as_lastTransLt := lastTransLt;
                                    as_balance := {| coins := balance |};
                                    as_state := state |} |};
        sa_lastTransactionHash := lastTransactionHash;
        sa_lastTransactionLt := lastTransactionLt |}.

(** The endpoint of [createTonClient4]. *)
Definition createTonClient4 (testnet : bool) : string :=
  "https://" +:+ (if testnet then "sandbox" else "mainnet") +:+ "-v4.tonhubapi.com".

(** [block.shards[0].seqno]: a [TypeError] on a block without shards. *)
Definition firstShardSeqno (block : BlockInfo) : Res Z :=
  match shards block with
  | shard :: _ => Ok (shard_seqno shard)
  | [] => Throw "Cannot read properties of undefined (reading 'seqno')"
  end.

(** [getBlockConfig] (methods.ts). *)
Definition getBlockConfig (testnet : bool) (block : BlockInfo) : M string :=
  let clientV4 := createTonClient4 testnet in
  let* blockSeqno := lift (firstShardSeqno block) in
  call (clientV4_getConfig clientV4 blockSeqno).

(** [getBlockAccountFallback] (methods.ts). *)
Definition getBlockAccountFallback (testnet : bool) (seqno : Z) (address : Address)
  : M AccountFromAPI :=
  let endpoint := "https://" +:+ (if testnet then "sandbox" else "mainnet")
                  +:+ "-v4.tonhubapi.com" in
  let path := endpoint +:+ "/block/" +:+ Z_toString seqno +:+ "/"
              +:+ Address_toString_urlSafe address in
  call (axios_get_account path).

(** [getBlockAccount] (methods.ts): the conversion of the answer is inside
    the [try] block. *)
Definition getBlockAccount (testnet : bool) (address : Address) (block : BlockInfo)
  : M ShardAccount :=
  let* blockSeqno := lift (firstShardSeqno block) in
  let clientV4 := createTonClient4 testnet in
  try_catch
    (let* res := call (clientV4_getAccount clientV4 (blockSeqno - 1) address) in
     lift (createShardAccountFromAPI res address))
    (fun error =>
       (* @ton/ton testnet integration broken right now, fallback *)
       let* res := getBlockAccountFallback testnet (blockSeqno - 1) address in
       lift (createShardAccountFromAPI res address)).

(** [findShardBlockForTx] (methods.ts). *)
Definition findShardBlockForTx (testnet : bool) (tx : RawTransaction) : M (option Block) :=
  let shard := raw_block tx in
  (* normalize potentially negative shard to positive one *)
  let* shardInt := lift (BigInt (rb_shard shard)) in
  let* shardUint :=
    lift (if shardInt <? 0
          then let? k := BigInt "0x10000000000000000" in Ok (shardInt + k)
          else Ok shardInt) in
  let* blocks :=
    call (axios_get_blocks
            ("https://" +:+ (if testnet then "testnet." else "") +:+ "toncenter.com/api/v3/blocks")
            (rb_workchain shard)
            ("0x" +:+ BigInt_toString16 shardUint)
            (rb_seqno shard)) in
  ret (head blocks).

(** The API key of dton, part of its endpoint. *)
Definition DTON_API_KEY : string := "fpYxhGTWfIe3ZEf2s6vvgAGmps_qnNmD".

Definition doubleQuote : string := String (ascii_of_nat 34) EmptyString.

(** [getLibraryByHashToncenter] (methods.ts).  Whatever is thrown inside
    the [try] block, by the request, by the read of the first entry of an
    empty answer or by the decoder, is an [Error], and is thrown again with
    the provider's name before its message. *)
Definition getLibraryByHashToncenter (testnet : bool) (hash : string) : M Cell :=
  try_catch
    (let endpoint := "https://" +:+ (if testnet then "testnet." else "")
                     +:+ "toncenter.com/api/v2/getLibraries" in
     let* _ := journal (EvGetLibrary Toncenter testnet hash) in
     let* result := call (axios_get_libraries endpoint hash) in
     match result with
     | entry :: _ => lift (Cell_fromBase64 (lib_data entry))
     | [] => throw "Cannot read properties of undefined (reading 'data')"
     end)
    (fun error => throw ("Get library on toncenter: " +:+ error)).

(** [getLibraryByHashDton] (methods.ts), after its pause of a second. *)
Definition getLibraryByHashDton (testnet : bool) (hash : string) : M Cell :=
  let dtonEndpoint := "https://" +:+ (if testnet then "testnet." else "") +:+ "dton.io/"
                      +:+ DTON_API_KEY +:+ "/graphql" in
  let query := "query fetchAuthor { get_lib(lib_hash: " +:+ doubleQuote +:+ hash
               +:+ doubleQuote +:+ ") }" in
  try_catch
    (let* _ := journal (EvGetLibrary Dton testnet hash) in
     let* get_lib := call (axios_post_graphql dtonEndpoint query) in
     lift (Cell_fromBase64 get_lib))
    (fun error => throw ("Get library on dton's graphql: " +:+ error)).

(** [getLibraryByHash] (methods.ts). *)
Definition getLibraryByHash (testnet : bool) (hash : string) : M Cell :=
  try_catch (getLibraryByHashToncenter testnet hash)
            (fun _ => getLibraryByHashDton testnet hash).

End Code.

End Requests.

(** *** Clients to run the requests with *)

(** [BigInt(string)] with a sign before a decimal numeral. *)
Definition signedBigInt (s : string) : Res Z :=
  match s with
  | String "-" EmptyString => Throw "SyntaxError: Cannot convert to a BigInt"
  | String "-" rest => let? n := parseDigits 10 rest 0 in Ok (- n)
  | _ => numeralBigInt s
  end.

(** The demo world with that [BigInt] and a base64 decoder that knows the
    empty string. *)
Definition signedExternals : Externals :=
  {| World := unit;
     BigInt := signedBigInt;
     Buffer_fromBase64 := fun s => if String.eqb s "" then [] else [3; 1; 4];
     Cell_fromBase64 := @Cell_fromBase64 demoExternals;
     Cell_fromHex := @Cell_fromHex demoExternals;
     Address_toString := @Address_toString demoExternals;
     loadShardAccount := @loadShardAccount demoExternals;
     loadTransaction := @loadTransaction demoExternals;
     loadOutList := @loadOutList demoExternals;
     storeShardAccount_base64 := @storeShardAccount_base64 demoExternals;
     storeTransaction_hex := @storeTransaction_hex demoExternals;
     storeDictDirect := @storeDictDirect demoExternals;
     logs_parse := @logs_parse demoExternals;
     api_findBaseTxByHash := @api_findBaseTxByHash demoExternals;
     api_findRawTxByHash := @api_findRawTxByHash demoExternals;
     api_findShardBlockForTx := @api_findShardBlockForTx demoExternals;
     api_findFullBlockForSeqno := @api_findFullBlockForSeqno demoExternals;
     api_findAllTransactionsBetween := @api_findAllTransactionsBetween demoExternals;
     api_getBlockConfig := @api_getBlockConfig demoExternals;
     api_getBlockAccount := @api_getBlockAccount demoExternals;
     api_getLibrary := @api_getLibrary demoExternals;
     sandbox_create := @sandbox_create demoExternals;
     sandbox_runTransaction := @sandbox_runTransaction demoExternals |}.

Definition apiAccount (coins : string) (last : option Requests.LastFromAPI)
  : Requests.AccountFromAPI :=
  {| Requests.api_coins := coins;
     Requests.api_state := Requests.StateActive None (Some "code");
     Requests.api_last := last;
     Requests.api_storageStat := None |}.

(** The v4 client answers with an account whose balance is not a numeral;
    the plain request answers with a readable one.  Toncenter knows no
    library and dton is down. *)
Definition malformedPrimaryClients : @Requests.Clients signedExternals :=
  {| Requests.Address_toString_urlSafe := fun _ => "EQ-demo";
     Requests.clientV4_getAccount := fun _ _ _ w => (Ok (apiAccount "5 TON" None), w);
     Requests.clientV4_getConfig := fun _ _ w => (Ok "config", w);
     Requests.axios_get_account := fun path w =>
       if String.eqb path "https://mainnet-v4.tonhubapi.com/block/4/EQ-demo"
       then (Ok (apiAccount "5000" (Some (Requests.mkLast "90" "aGFzaA=="))), w)
       else (Throw "Request failed with status code 404", w);
     Requests.axios_get_blocks := fun _ _ shard _ w =>
       if String.eqb shard "0x8000000000000000"
       then (Ok [{| blk_root_hash := "root";
                    blk_masterchain_block_ref := mkBlockRef (-1) "8000000000000000" 40;
                    blk_rand_seed := "seed" |}], w)
       else (Ok [], w);
     Requests.axios_get_libraries := fun _ _ w => (Ok [], w);
     Requests.axios_post_graphql := fun _ _ w =>
       (Throw "Request failed with status code 500", w) |}.

(** A transaction in the shard that the v4 API prints as a negative number. *)
Definition negativeShardRaw : RawTransaction :=
  {| raw_block := {| rb_workchain := 0; rb_seqno := 5; rb_shard := "-9223372036854775808";
                     rb_rootHash := "root"; rb_fileHash := "file" |};
     raw_tx := plainTx |}.

(** *** More small worlds *)

(** The account's code is the library cell A. *)
Definition selfFragmentExternals : Externals :=
  scenarioExternals
    {| sc_account := selfFragmentAccount;
       sc_summary := summaryEntries;
       sc_history := demoHistory;
       sc_emulated := plainTx;
       sc_after := activeAccount ordinaryCode 4000;
       sc_lines := [];
       sc_engine := engineOk |}.

(** The shard block the indexer finds has another root hash than the one
    recorded with the transaction. *)
Definition rootMismatchExternals : Externals :=
  {| World := unit;
     BigInt := numeralBigInt;
     Buffer_fromBase64 := @Buffer_fromBase64 demoExternals;
     Cell_fromBase64 := @Cell_fromBase64 demoExternals;
     Cell_fromHex := @Cell_fromHex demoExternals;
     Address_toString := @Address_toString demoExternals;
     loadShardAccount := @loadShardAccount demoExternals;
     loadTransaction := @loadTransaction demoExternals;
     loadOutList := @loadOutList demoExternals;
     storeShardAccount_base64 := @storeShardAccount_base64 demoExternals;
     storeTransaction_hex := @storeTransaction_hex demoExternals;
     storeDictDirect := @storeDictDirect demoExternals;
     logs_parse := @logs_parse demoExternals;
     api_findBaseTxByHash := @api_findBaseTxByHash demoExternals;
     api_findRawTxByHash := @api_findRawTxByHash demoExternals;
     api_findShardBlockForTx := fun _ _ w =>
       (Ok (Some {| blk_root_hash := "another root";
                    blk_masterchain_block_ref := mkBlockRef (-1) "8000000000000000" 40;
                    blk_rand_seed := "seed" |}), w);
     api_findFullBlockForSeqno := @api_findFullBlockForSeqno demoExternals;
     api_findAllTransactionsBetween := @api_findAllTransactionsBetween demoExternals;
     api_getBlockConfig := @api_getBlockConfig demoExternals;
     api_getBlockAccount := @api_getBlockAccount demoExternals;
     api_getLibrary := @api_getLibrary demoExternals;
     sandbox_create := @sandbox_create demoExternals;
     sandbox_runTransaction := @sandbox_runTransaction demoExternals |}.

(** A world in which the target needs the library A.  Without a library
    dictionary the engine ends every run with exit code 9 and the log of a
    missing library, the cell A on top of the stack; with a dictionary it
    ends it with exit code 0. *)
Definition missingLibraryAnswer (args : RunTransactionArgs) : Res EmulationResult :=
  Ok {| er_result :=
          EmulationSuccess {| ok_transaction := "tx-9";
                              ok_shardAccount := "snapshot-" +:+ Z_toString (run_lt args);
                              ok_vmLog := "missing library";
                              ok_actions := None |};
        er_logs := "logs";
        er_debugLogs := "debug" |}.

Definition transactionNine : Cell := mkCell [true] [] false.

Definition libraryOnDemandExternals : Externals :=
  {| World := unit;
     BigInt := numeralBigInt;
     Buffer_fromBase64 := @Buffer_fromBase64 demoExternals;
     Cell_fromBase64 := fun s =>
       if String.eqb s "tx-9" then Ok transactionNine else Ok emptyCell;
     Cell_fromHex := @Cell_fromHex demoExternals;
     Address_toString := @Address_toString demoExternals;
     loadShardAccount := @loadShardAccount demoExternals;
     loadTransaction := fun slice =>
       if bool_decide (slice_bits slice = [true])
       then Ok (demoTx 100 (Some targetMessage) [] [1; 2; 3] (genericVm 9 None))
       else Ok plainTx;
     loadOutList := @loadOutList demoExternals;
     storeShardAccount_base64 := @storeShardAccount_base64 demoExternals;
     storeTransaction_hex := @storeTransaction_hex demoExternals;
     storeDictDirect := @storeDictDirect demoExternals;
     logs_parse := fun log =>
       if String.eqb log "missing library" then signatureLines (StackCell "LIB-A") else [];
     api_findBaseTxByHash := @api_findBaseTxByHash demoExternals;
     api_findRawTxByHash := @api_findRawTxByHash demoExternals;
     api_findShardBlockForTx := @api_findShardBlockForTx demoExternals;
     api_findFullBlockForSeqno := @api_findFullBlockForSeqno demoExternals;
     api_findAllTransactionsBetween := @api_findAllTransactionsBetween demoExternals;
     api_getBlockConfig := @api_getBlockConfig demoExternals;
     api_getBlockAccount := @api_getBlockAccount demoExternals;
     api_getLibrary := @api_getLibrary demoExternals;
     sandbox_create := @sandbox_create demoExternals;
     sandbox_runTransaction := fun args w =>
       match run_libs args with
       | None => (missingLibraryAnswer args, w)
       | Some _ => (engineOk args, w)
       end |}.

(** ** Slices *)

Lemma preloadUint_in_bounds (bs : list bool) (n offset : nat) (acc : Z) :
  (offset + n <= length bs)%nat ->
  preloadUint bs n offset acc
  = Ok (fold_left (fun a (b : bool) => 2 * a + (if b then 1 else 0))
          (take n (drop offset bs)) acc).
Proof.
  revert offset acc. induction n as [|n IH]; intros offset acc Hlen.
  - reflexivity.
  - simpl. unfold BitString_at.
    destruct (bs !! offset) as [b|] eqn:Hb.
    + simpl. rewrite IH by lia.
      rewrite (drop_S bs b offset Hb). reflexivity.
    + apply lookup_ge_None in Hb. lia.
Qed.

Lemma preloadUint_out_of_bounds (bs : list bool) (n offset : nat) (acc : Z) :
  (offset <= length bs)%nat ->
  (length bs < offset + n)%nat ->
  exists e, preloadUint bs n offset acc = Throw e.
Proof.
  revert offset acc. induction n as [|n IH]; intros offset acc Hoff Hlen.
  - lia.
  - simpl. unfold BitString_at.
    destruct (bs !! offset) as [b|] eqn:Hb.
    + simpl. apply lookup_lt_Some in Hb. apply IH; lia.
    + simpl. eauto.
Qed.

Lemma loadUint_in_bounds (n : nat) (s : Slice) :
  (n <= remainingBits s)%nat ->
  loadUint n s
  = Ok (bitsToZ (take n (drop (slice_offset s) (slice_bits s))),
        mkSlice (slice_bits s) (slice_offset s + n) (slice_refs s)).
Proof.
  intros Hn. unfold loadUint, remainingBits in *.
  destruct (decide (n = 0%nat)) as [->|Hpos].
  - reflexivity.
  - rewrite preloadUint_in_bounds by lia. reflexivity.
Qed.

Lemma preloadBuffer_in_bounds (bs : list bool) (bytes offset : nat) :
  (offset + 8 * bytes <= length bs)%nat ->
  preloadBuffer bs bytes offset = Ok (map (byteAt bs offset) (seq 0 bytes)).
Proof.
  revert offset. induction bytes as [|k IH]; intros offset Hlen.
  - reflexivity.
  - cbn [preloadBuffer]. rewrite preloadUint_in_bounds by lia.
    cbn [res_bind]. rewrite IH by lia. cbn [res_bind seq map].
    f_equal. f_equal.
    + unfold byteAt, bitsToZ. do 3 f_equal. lia.
    + rewrite <- seq_shift, map_map. apply map_ext. intros i.
      unfold byteAt. do 3 f_equal. lia.
Qed.

Section FragmentDetection.
Context {E : Externals}.

(** The three reads both callers make on a cell of 264 bits: the parse
    with exotic cells allowed, the tag byte, the 32 bytes of the hash. *)
Lemma fragment_parse (c : Cell) :
  length (cell_bits c) = 264%nat ->
  beginParse true c = Ok (mkSlice (cell_bits c) 0 (cell_refs c))
  /\ loadUint 8 (mkSlice (cell_bits c) 0 (cell_refs c))
     = Ok (bitsToZ (take 8 (cell_bits c)), mkSlice (cell_bits c) 8 (cell_refs c))
  /\ loadBuffer 32 (mkSlice (cell_bits c) 8 (cell_refs c))
     = Ok (fragmentHash c, mkSlice (cell_bits c) (8 + 8 * 32) (cell_refs c)).
Proof.
  intros Hlen. split; [|split].
  - unfold beginParse. rewrite andb_false_r. reflexivity.
  - rewrite loadUint_in_bounds by (unfold remainingBits; simpl; lia).
    reflexivity.
  - unfold loadBuffer. cbn [slice_bits slice_offset slice_refs].
    rewrite preloadBuffer_in_bounds by lia. reflexivity.
Qed.

(** The rule itself: 264 bits, tag 2, and the hash that follows. *)
Lemma classifyFragment_spec (c : Cell) (h : Buffer) :
  classifyFragment c = Some h
  <-> length (cell_bits c) = 264%nat
      /\ bitsToZ (take 8 (cell_bits c)) = EXOTIC_LIBRARY_TAG
      /\ h = map (byteAt (cell_bits c) 8) (seq 0 32).
Proof.
  unfold classifyFragment, fragmentHash, EXOTIC_LIBRARY_TAG.
  repeat case_bool_decide; cbn [andb]; split.
  - intros [= <-]. auto.
  - intros (_ & _ & ->). reflexivity.
  - discriminate.
  - intros (_ & ? & _). contradiction.
  - discriminate.
  - intros (? & _ & _). contradiction.
  - discriminate.
  - intros (? & _ & _). contradiction.
Qed.

(** The library scanner decides by the rule. *)
Lemma addMaybeExoticLibrary_classify (testnet : bool) (libs : gmap Z Cell) (c : Cell)
    (st : St World) :
  addMaybeExoticLibrary testnet libs (Some c) st
  = match classifyFragment c with
    | None => (Ok (libs, None), st)
    | Some h =>
        (let* actualCode := getLibraryByHash testnet (fragmentName h) in
         let* key := lift (BigInt ("0x" +:+ fragmentName h)) in
         ret (<[key := actualCode]> libs, Some actualCode)) st
    end.
Proof.
  unfold addMaybeExoticLibrary, classifyFragment, EXOTIC_LIBRARY_TAG.
  case_bool_decide as Hlen.
  - destruct (fragment_parse c Hlen) as (Hparse & Htag & Hbuf).
    change (256 + 8)%nat with 264%nat.
    rewrite Hlen, Nat.eqb_refl. cbn [negb andb].
    unfold bind at 1. unfold lift at 1. rewrite Hparse.
    unfold bind at 1. unfold lift at 1. rewrite Htag. cbn [fst snd].
    case_bool_decide as Htag2.
    + rewrite Htag2. cbn [Z.eqb Pos.eqb negb].
      unfold bind at 1. unfold lift at 1. rewrite Hbuf. reflexivity.
    + apply Z.eqb_neq in Htag2. rewrite Htag2. reflexivity.
  - apply Nat.eqb_neq in Hlen. change (256 + 8)%nat with 264%nat.
    rewrite Hlen. reflexivity.
Qed.

(** The stack-cell classifier of the retry controller decides by the rule. *)
Lemma tryLoadAsLibrary_classify (testnet : bool) (boc : string) (c : Cell) (st : St World) :
  Cell_fromHex boc = Ok c ->
  tryLoadAsLibrary boc testnet st
  = match classifyFragment c with
    | None => (Ok None, st)
    | Some h =>
        (let* actualCode := getLibraryByHash testnet (fragmentName h) in
         ret (Some (fragmentName h, actualCode))) st
    end.
Proof.
  intros Hhex. unfold tryLoadAsLibrary, classifyFragment.
  unfold bind at 1. unfold lift at 1. rewrite Hhex.
  case_bool_decide as Hlen.
  - destruct (fragment_parse c Hlen) as (Hparse & Htag & Hbuf).
    change (256 + 8)%nat with 264%nat.
    rewrite Hlen, Nat.eqb_refl. cbn [negb andb].
    unfold bind at 1. unfold lift at 1. rewrite Hparse.
    unfold bind at 1. unfold lift at 1. rewrite Htag. cbn [fst snd].
    case_bool_decide as Htag2.
    + rewrite Htag2. cbn [Z.eqb Pos.eqb negb].
      unfold bind at 1. unfold lift at 1. rewrite Hbuf. reflexivity.
    + apply Z.eqb_neq in Htag2. rewrite Htag2. reflexivity.
  - apply Nat.eqb_neq in Hlen. change (256 + 8)%nat with 264%nat.
    rewrite Hlen. reflexivity.
Qed.

(** C1. A code cell is a library fragment exactly when it has 264 bits and
    its first 8 bits spell the tag 2, and its hash is then the 256 bits that
    follow; any other cell is ordinary code.  The library scanner
    ([addMaybeExoticLibrary]) and the stack-cell classifier of the retry
    controller ([tryLoadAsLibrary]) both decide by this rule: on a fragment
    they request the code named by the hash, on any other cell they answer
    [undefined] without any request. *)
Theorem fragment_detection_rule :
  (forall (c : Cell) (h : Buffer),
     classifyFragment c = Some h
     <-> length (cell_bits c) = 264%nat
         /\ bitsToZ (take 8 (cell_bits c)) = EXOTIC_LIBRARY_TAG
         /\ h = map (byteAt (cell_bits c) 8) (seq 0 32))
  /\ (forall (testnet : bool) (libs : gmap Z Cell) (c : Cell) (st : St World),
        addMaybeExoticLibrary testnet libs (Some c) st
        = match classifyFragment c with
          | None => (Ok (libs, None), st)
          | Some h =>
              (let* actualCode := getLibraryByHash testnet (fragmentName h) in
               let* key := lift (BigInt ("0x" +:+ fragmentName h)) in
               ret (<[key := actualCode]> libs, Some actualCode)) st
          end)
  /\ (forall (testnet : bool) (boc : string) (c : Cell) (st : St World),
        Cell_fromHex boc = Ok c ->
        tryLoadAsLibrary boc testnet st
        = match classifyFragment c with
          | None => (Ok None, st)
          | Some h =>
              (let* actualCode := getLibraryByHash testnet (fragmentName h) in
               ret (Some (fragmentName h, actualCode))) st
          end).
Proof.
  split; [|split].
  - apply classifyFragment_spec.
  - apply addMaybeExoticLibrary_classify.
  - apply tryLoadAsLibrary_classify.
Qed.

End FragmentDetection.

(** ** Money sent *)

Lemma sentTotal_loop (msgs : list Message) (acc : Z) :
  fold_left
    (fun total msg =>
       match msg_info msg with
       | InfoInternal i => total + coins (int_value i)
       | _ => total
       end) msgs acc
  = acc + sumZ (internalValues msgs).
Proof.
  revert acc. induction msgs as [|m msgs IH]; intros acc.
  - simpl. lia.
  - cbn [fold_left]. rewrite IH. unfold internalValues. simpl.
    unfold internalValue at 2.
    destruct (msg_info m); simpl; unfold omap; lia.
Qed.

Lemma internalValues_app (l1 l2 : list Message) :
  internalValues (l1 ++ l2) = (internalValues l1 ++ internalValues l2)%list.
Proof. unfold internalValues. apply omap_app. Qed.

(** C9. [sentTotal] is the exact sum of the coin values of the outgoing
    messages of type "internal"; an outgoing message of another type,
    wherever it stands, changes nothing; with no outgoing internal message
    the total is zero. *)
Theorem sentTotal_sums_internal_values (tx : Transaction) :
  calculateSentTotal tx = sumZ (internalValues (Dictionary_values (tx_outMessages tx)))
  /\ (forall (pre post : list (Z * Message)) (k : Z) (m : Message),
        internalValue m = None ->
        calculateSentTotal (withOutMessages tx (pre ++ (k, m) :: post)%list)
        = calculateSentTotal (withOutMessages tx (pre ++ post)%list))
  /\ (internalValues (Dictionary_values (tx_outMessages tx)) = [] ->
      calculateSentTotal tx = 0).
Proof.
  assert (Hsum : forall t, calculateSentTotal t
                           = sumZ (internalValues (Dictionary_values (tx_outMessages t)))).
  { intros t. unfold calculateSentTotal. rewrite sentTotal_loop. lia. }
  split; [apply Hsum|split].
  - intros pre post k m Hm. rewrite !Hsum. cbn [withOutMessages tx_outMessages].
    unfold Dictionary_values. rewrite !map_app, !internalValues_app.
    cbn [map snd].
    assert (Hskip : internalValues (m :: map snd post) = internalValues (map snd post)).
    { unfold internalValues. simpl. rewrite Hm. reflexivity. }
    rewrite Hskip. reflexivity.
  - intros Hnone. rewrite Hsum, Hnone. reflexivity.
Qed.

(** ** Minimum logical time *)

Lemma for_of_res_app {A S : Type} (l1 l2 : list A) (body : A -> S -> Res S) (s : S) :
  for_of_res (l1 ++ l2)%list body s
  = let? s' := for_of_res l1 body s in for_of_res l2 body s'.
Proof.
  revert s. induction l1 as [|x l1 IH]; intros s.
  - reflexivity.
  - cbn [app for_of_res]. destruct (body x s) as [s'|e]; cbn [res_bind].
    + apply IH.
    + reflexivity.
Qed.

(** A loop over the rows of a table is the loop over their concatenation. *)
Lemma for_of_res_concat {A B S : Type} (rows : list A) (cells : A -> list B)
    (body : B -> S -> Res S) (s : S) :
  for_of_res rows (fun row s => for_of_res (cells row) body s) s
  = for_of_res (concat (map cells rows)) body s.
Proof.
  revert s. induction rows as [|row rows IH]; intros s.
  - reflexivity.
  - cbn [for_of_res map concat]. rewrite for_of_res_app.
    destruct (for_of_res (cells row) body s) as [s'|e]; cbn [res_bind].
    + apply IH.
    + reflexivity.
Qed.

Lemma min_scan_bounds (lts : list Z) (m0 : Z) :
  let m := fold_left Z.min lts m0 in
  m <= m0 /\ Forall (fun lt => m <= lt) lts /\ (m = m0 \/ In m lts).
Proof.
  revert m0. induction lts as [|lt lts IH]; intros m0; cbn [fold_left].
  - repeat split; [lia | constructor | left; reflexivity].
  - destruct (IH (Z.min m0 lt)) as (Hle & Hall & Hin).
    split; [lia|split].
    + constructor; [lia | exact Hall].
    + destruct Hin as [Heq|Hin].
      * destruct (Z.min_spec m0 lt) as [[_ Hm]|[_ Hm]].
        -- left. rewrite Heq. exact Hm.
        -- right. left. rewrite Heq. symmetry. exact Hm.
      * right. right. exact Hin.
Qed.

Section MinLt.
Context {E : Externals}.

(** The inner loop of [computeMinLt] on a list of summary entries. *)
Lemma computeMinLt_scan (addrStr : string) (entries : list ShardTransaction)
    (lts : list Z) (m0 : Z) :
  Forall2 (fun t lt => BigInt (stx_lt t) = Ok lt)
          (filter (fun t => stx_account t = addrStr) entries) lts ->
  for_of_res entries
    (fun txInBlock minLt =>
       if String.eqb (stx_account txInBlock) addrStr
       then
         let? lt := BigInt (stx_lt txInBlock) in
         if lt <? minLt then BigInt (stx_lt txInBlock) else Ok minLt
       else Ok minLt) m0
  = Ok (fold_left Z.min lts m0).
Proof.
  revert lts m0. induction entries as [|t entries IH]; intros lts m0 Hparse.
  - rewrite filter_nil in Hparse. inversion Hparse. reflexivity.
  - cbn [for_of_res]. destruct (String.eqb_spec (stx_account t) addrStr) as [Heq|Hne].
    + rewrite filter_cons_True in Hparse by exact Heq.
      inversion Hparse as [|? lt ? lts' Hlt Hrest]; subst.
      cbv beta in Hlt. rewrite Hlt. cbn [res_bind].
      destruct (Z.ltb_spec lt m0) as [Hlt0|Hge].
      * cbn [res_bind fold_left].
        rewrite (IH lts' lt Hrest). do 2 f_equal. lia.
      * cbn [res_bind fold_left].
        rewrite (IH lts' m0 Hrest). do 2 f_equal. lia.
    + rewrite filter_cons_False in Hparse by exact Hne.
      cbn [res_bind]. apply IH. exact Hparse.
Qed.

(** C7. When the logical times of the account's entries in the block's
    shard summaries are [lts], [computeMinLt] answers the minimum of the
    target transaction's logical time and [lts]: a value that is one of
    them and is below all of them.  It never exceeds the target's logical
    time, and it is the target's logical time when no entry is earlier. *)
Theorem computeMinLt_is_minimum (tx : Transaction) (address : Address) (block : BlockInfo)
    (lts : list Z) :
  Forall2 (fun t lt => BigInt (stx_lt t) = Ok lt)
          (accountEntries (Address_toString address) block) lts ->
  exists minLt : Z,
    computeMinLt tx address block = Ok minLt
    /\ minLt = foldr Z.min (tx_lt tx) lts
    /\ minLt <= tx_lt tx
    /\ Forall (fun lt => minLt <= lt) lts
    /\ (minLt = tx_lt tx \/ In minLt lts)
    /\ (Forall (fun lt => tx_lt tx <= lt) lts -> minLt = tx_lt tx).
Proof.
  intros Hparse. exists (fold_left Z.min lts (tx_lt tx)).
  destruct (min_scan_bounds lts (tx_lt tx)) as (Hle & Hall & Hin).
  split; [|split; [|split; [|split; [|split]]]].
  - unfold computeMinLt. rewrite for_of_res_concat.
    apply computeMinLt_scan. exact Hparse.
  - clear. generalize (tx_lt tx) as m0. induction lts as [|lt lts IH]; intros m0.
    + reflexivity.
    + cbn [fold_left foldr]. rewrite IH.
      clear IH. revert m0. induction lts as [|lt' lts IH]; intros m0; cbn [foldr]; [lia|].
      rewrite IH. lia.
  - exact Hle.
  - exact Hall.
  - exact Hin.
  - intros Hlater. destruct Hin as [Heq|Hin]; [exact Heq|].
    rewrite Forall_forall in Hlater. apply list_elem_of_In in Hin.
    specialize (Hlater _ Hin). lia.
Qed.

End MinLt.

(** ** Compute-phase summary *)

Section FinalData.
Context {E : Externals}.

(** What a successful [computeFinalData] went through. *)
Lemma computeFinalData_inv (res : EmulationResultSuccess) (balanceBefore : Z)
    (out : FinalData) :
  computeFinalData res balanceBefore = Ok out ->
  exists (sa : ShardAccount) (emTx : Transaction) (m : Message) (g : GenericDescription),
    decodeShardAccount (ok_shardAccount res) = Ok sa
    /\ decodeTransaction (ok_transaction res) = Ok emTx
    /\ tx_inMessage emTx = Some m
    /\ checkedEndpoints (msg_info m) = Ok (fd_sender out, fd_contract out)
    /\ tx_description emTx = DescGeneric g
    /\ fd_emulatedTx out = emTx
    /\ fd_money out
       = {| balanceBefore := balanceBefore;
            sentTotal := calculateSentTotal emTx;
            totalFees := coins (tx_totalFees emTx);
            balanceAfter := default 0 (balanceOf sa) |}
    /\ fd_computeInfo out
       = match gen_computePhase g with
         | ComputeSkipped _ => ComputeInfoSkipped
         | ComputePhaseVm vm =>
             ComputeInfoRecord
               {| ci_success := vm_success vm;
                  ci_exitCode :=
                    if vm_exitCode vm =? 0
                    then match gen_actionPhase g with
                         | Some a => act_resultCode a
                         | None => 0
                         end
                    else vm_exitCode vm;
                  ci_vmSteps := vm_vmSteps vm;
                  ci_gasUsed := vm_gasUsed vm;
                  ci_gasFees := vm_gasFees vm |}
         end.
Proof.
  unfold computeFinalData. intros H.
  destruct (decodeShardAccount (ok_shardAccount res)) as [sa|] eqn:Hsa; [|discriminate].
  destruct (decodeTransaction (ok_transaction res)) as [emTx|] eqn:Htx; [|discriminate].
  cbn [res_bind] in H.
  destruct (tx_inMessage emTx) as [m|] eqn:Hm; [|discriminate].
  destruct (checkedEndpoints (msg_info m)) as [[src dest]|] eqn:Hends; [|discriminate].
  cbn [res_bind fst snd] in H.
  destruct (tx_description emTx) as [g|] eqn:Hg; [|discriminate].
  injection H as <-. exists sa, emTx, m, g. cbn. auto 10.
Qed.

(** C8. For a successfully emulated generic transaction the compute-phase
    summary is "skipped" exactly when the compute phase was skipped;
    otherwise it is a record whose exit code is the compute phase's exit
    code when that is non-zero, the action phase's result code when the
    compute exit code is zero and there is an action phase, and zero when
    the compute exit code is zero and there is none. *)
Theorem computeInfo_summary (res : EmulationResultSuccess) (balanceBefore : Z)
    (out : FinalData) :
  computeFinalData res balanceBefore = Ok out ->
  exists g : GenericDescription,
    decodeTransaction (ok_transaction res) = Ok (fd_emulatedTx out)
    /\ tx_description (fd_emulatedTx out) = DescGeneric g
    /\ (fd_computeInfo out = ComputeInfoSkipped
        <-> exists reason, gen_computePhase g = ComputeSkipped reason)
    /\ (forall vm : ComputeVm,
          gen_computePhase g = ComputePhaseVm vm ->
          exists info : ComputeInfoVm,
            fd_computeInfo out = ComputeInfoRecord info
            /\ ci_success info = vm_success vm
            /\ ci_vmSteps info = vm_vmSteps vm
            /\ ci_gasUsed info = vm_gasUsed vm
            /\ ci_gasFees info = vm_gasFees vm
            /\ (vm_exitCode vm <> 0 -> ci_exitCode info = vm_exitCode vm)
            /\ (vm_exitCode vm = 0 ->
                forall a, gen_actionPhase g = Some a -> ci_exitCode info = act_resultCode a)
            /\ (vm_exitCode vm = 0 -> gen_actionPhase g = None -> ci_exitCode info = 0)).
Proof.
  intros H.
  destruct (computeFinalData_inv _ _ _ H)
    as (sa & emTx & m & g & _ & Htx & _ & _ & Hg & Hem & _ & Hci).
  exists g. rewrite Hem. repeat split; try assumption.
  - rewrite Hci. destruct (gen_computePhase g) as [reason|vm]; [eauto|discriminate].
  - intros [reason Hskip]. rewrite Hci, Hskip. reflexivity.
  - intros vm Hvm. rewrite Hci, Hvm. eexists. split; [reflexivity|]. cbn.
    repeat split.
    + intros Hnz. apply Z.eqb_neq in Hnz. rewrite Hnz. reflexivity.
    + intros Hz a Ha. rewrite Hz, Ha. reflexivity.
    + intros Hz Ha. rewrite Hz, Ha. reflexivity.
Qed.

(** The summary is produced whenever the decoders succeed on a generic
    transaction with an acceptable in-message. *)
Lemma computeFinalData_generic (res : EmulationResultSuccess) (balanceBefore : Z)
    (sa : ShardAccount) (emTx : Transaction) (m : Message) (ends : option Address * Address)
    (g : GenericDescription) :
  decodeShardAccount (ok_shardAccount res) = Ok sa ->
  decodeTransaction (ok_transaction res) = Ok emTx ->
  tx_inMessage emTx = Some m ->
  checkedEndpoints (msg_info m) = Ok ends ->
  tx_description emTx = DescGeneric g ->
  exists out, computeFinalData res balanceBefore = Ok out /\ fd_emulatedTx out = emTx.
Proof.
  intros Hsa Htx Hm Hends Hg. unfold computeFinalData.
  rewrite Hsa, Htx. cbn [res_bind]. rewrite Hm, Hends. cbn [res_bind].
  rewrite Hg. eexists. split; reflexivity.
Qed.

End FinalData.

(** ** Opcode of the in-message *)

Lemma txOpcode_no_inMessage (tx : Transaction) :
  tx_inMessage tx = None -> txOpcode tx = Ok None.
Proof. intros H. unfold txOpcode. rewrite H. reflexivity. Qed.

(** Without a bounce the opcode is the first 32 bits of an ordinary body
    that has them, and [undefined] on a shorter body. *)
Lemma txOpcode_not_bounced (tx : Transaction) (m : Message) :
  tx_inMessage tx = Some m ->
  isBouncedMessage m = false ->
  cell_isExotic (msg_body m) = false ->
  txOpcode tx
  = Ok (if (32 <=? length (cell_bits (msg_body m)))%nat
        then Some (bitsToZ (take 32 (cell_bits (msg_body m))))
        else None).
Proof.
  intros Hm Hb Hex. unfold txOpcode, isBouncedMessage in *. rewrite Hm.
  unfold asSlice, beginParse. rewrite Hex. cbn [andb res_bind].
  rewrite Hb. cbn [res_bind].
  unfold remainingBits. cbn [slice_bits slice_offset]. rewrite Nat.sub_0_r.
  destruct (Nat.leb_spec 32 (length (cell_bits (msg_body m)))) as [Hlen|Hlen].
  - rewrite loadUint_in_bounds by (unfold remainingBits; cbn; lia). reflexivity.
  - reflexivity.
Qed.

(** After a bounce the first 32 bits are skipped when the body has them. *)
Lemma txOpcode_bounced (tx : Transaction) (m : Message) :
  tx_inMessage tx = Some m ->
  isBouncedMessage m = true ->
  cell_isExotic (msg_body m) = false ->
  (32 <= length (cell_bits (msg_body m)))%nat ->
  txOpcode tx
  = Ok (if (64 <=? length (cell_bits (msg_body m)))%nat
        then Some (bitsToZ (take 32 (drop 32 (cell_bits (msg_body m)))))
        else None).
Proof.
  intros Hm Hb Hex Hlen. unfold txOpcode, isBouncedMessage in *. rewrite Hm.
  unfold asSlice, beginParse. rewrite Hex. cbn [andb res_bind].
  rewrite Hb. rewrite loadUint_in_bounds by (unfold remainingBits; cbn; lia).
  cbn [res_bind snd slice_bits slice_offset slice_refs].
  unfold remainingBits. cbn [slice_bits slice_offset Nat.add].
  destruct (Nat.leb_spec 64 (length (cell_bits (msg_body m)))) as [H64|H64].
  - destruct (Nat.leb_spec 32 (length (cell_bits (msg_body m)) - 32)) as [_|?]; [|lia].
    rewrite loadUint_in_bounds by (unfold remainingBits; cbn; lia). reflexivity.
  - destruct (Nat.leb_spec 32 (length (cell_bits (msg_body m)) - 32)) as [?|_]; [lia|].
    reflexivity.
Qed.

(** A bounced in-message whose body has fewer than 32 bits: the skip is an
    unguarded [loadUint(32)], and it throws. *)
Lemma txOpcode_bounced_short_throws (tx : Transaction) (m : Message) :
  tx_inMessage tx = Some m ->
  isBouncedMessage m = true ->
  cell_isExotic (msg_body m) = false ->
  (length (cell_bits (msg_body m)) < 32)%nat ->
  exists e, txOpcode tx = Throw e.
Proof.
  intros Hm Hb Hex Hlen. unfold txOpcode, isBouncedMessage in *. rewrite Hm.
  unfold asSlice, beginParse. rewrite Hex. cbn [andb res_bind].
  rewrite Hb. unfold loadUint. cbn [slice_bits slice_offset].
  destruct (preloadUint_out_of_bounds (cell_bits (msg_body m)) 32 0 0) as [e He];
    [lia | lia |].
  rewrite He. cbn [res_bind]. eauto.
Qed.

(** X7. The opcode of the in-message, wherever [txOpcode] answers: none without
    an in-message; the first 32 bits of an ordinary body, after the 32 bits
    skipped for a bounced message, when that many bits are there. *)
Theorem txOpcode_reads_opcode (tx : Transaction) :
  (tx_inMessage tx = None -> txOpcode tx = Ok None)
  /\ (forall m : Message,
        tx_inMessage tx = Some m ->
        cell_isExotic (msg_body m) = false ->
        isBouncedMessage m = false ->
        txOpcode tx
        = Ok (if (32 <=? length (cell_bits (msg_body m)))%nat
              then Some (bitsToZ (take 32 (cell_bits (msg_body m))))
              else None))
  /\ (forall m : Message,
        tx_inMessage tx = Some m ->
        cell_isExotic (msg_body m) = false ->
        isBouncedMessage m = true ->
        (32 <= length (cell_bits (msg_body m)))%nat ->
        txOpcode tx
        = Ok (if (64 <=? length (cell_bits (msg_body m)))%nat
              then Some (bitsToZ (take 32 (drop 32 (cell_bits (msg_body m)))))
              else None)).
Proof.
  split; [apply txOpcode_no_inMessage|]. split.
  - intros m Hm Hex Hb. apply txOpcode_not_bounced; assumption.
  - intros m Hm Hex Hb Hlen. apply txOpcode_bounced; assumption.
Qed.

(** C10 (the code departs from it). A bounced in-message with an empty
    body: the 32 bits to skip are read without a test on the remaining
    bits, and [txOpcode] throws instead of answering [undefined]. *)
Theorem txOpcode_bounced_empty_body_throws :
  txOpcode bouncedEmptyTx = Throw "Index 0 > 0 is out of bounds".
Proof. vm_compute. reflexivity. Qed.

(** ** Replay of the preceding transactions *)

Section Replay.
Context {E : Externals}.

Lemma for_of_app {A S : Type} (l1 l2 : list A) (body : A -> S -> M S) (s : S) (st : St World) :
  for_of (l1 ++ l2)%list body s st
  = match for_of l1 body s st with
    | (Ok s', st') => for_of l2 body s' st'
    | (Throw e, st') => (Throw e, st')
    end.
Proof.
  revert s st. induction l1 as [|x l1 IH]; intros s st.
  - reflexivity.
  - cbn [app for_of]. unfold bind.
    destruct (body x s st) as [[s'|e] st'].
    + apply IH.
    + reflexivity.
Qed.

(** The guard on the empty list changes nothing: the function is its loop. *)
Lemma emulatePreviousTransactions_loop (b : Z) (txs : list Transaction)
    (emulate : Transaction -> string -> M EmulationResult) (s : string) (st : St World) :
  emulatePreviousTransactions b txs emulate s st
  = for_of txs (replayStep emulate) (mkReplayState b s) st.
Proof. destruct txs; reflexivity. Qed.

(** C5. Replaying an empty sequence is the identity: the starting balance
    and snapshot come back unchanged, and nothing is asked of the engine,
    whatever it is: the world and the journal of runs are what they were. *)
Theorem replay_empty_identity (b : Z) (s : string)
    (emulate : Transaction -> string -> M EmulationResult) (st : St World) :
  emulatePreviousTransactions b [] emulate s st = (Ok (mkReplayState b s), st)
  /\ st_journal (snd (emulatePreviousTransactions b [] emulate s st)) = st_journal st.
Proof. split; reflexivity. Qed.


End Replay.

(** ** Runs of the monad *)

Section Runs.
Context {E : Externals}.

Lemma bind_inv {A B : Type} (m : M A) (k : A -> M B) (st st' : St World) (b : B) :
  bind m k st = (Ok b, st') ->
  exists (a : A) (st1 : St World), m st = (Ok a, st1) /\ k a st1 = (Ok b, st').
Proof.
  unfold bind. destruct (m st) as [[a|e] st1]; [eauto | discriminate].
Qed.

Lemma bind_run {A B : Type} (m : M A) (k : A -> M B) (st st1 : St World) (a : A) :
  m st = (Ok a, st1) -> bind m k st = k a st1.
Proof. intros H. unfold bind. rewrite H. reflexivity. Qed.

Lemma lift_inv {A : Type} (r : Res A) (st st' : St World) (a : A) :
  lift r st = (Ok a, st') -> r = Ok a /\ st' = st.
Proof. unfold lift. intros [= -> ->]. auto. Qed.

Lemma ret_inv {A : Type} (x a : A) (st st' : St World) :
  ret x st = (Ok a, st') -> a = x /\ st' = st.
Proof. unfold ret. intros [= -> ->]. auto. Qed.

End Runs.

(** Reading a successful run one [await] at a time, and replaying it. *)
Tactic Notation "await" hyp(H) ident(x) ident(s) ident(Hx) :=
  apply bind_inv in H as (x & s & Hx & H); cbv beta in H.

Ltac replay Hx := rewrite (bind_run _ _ _ _ _ Hx); cbv beta iota.

(** Every function of the repository but [computeFinalData] is the same in
    the world [withEmulatedHash h E] as in [E]. *)
Ltac same_world E' E :=
  change (@bind E') with (@bind E);
  change (@lift E') with (@lift E);
  change (@findBaseTxByHash E') with (@findBaseTxByHash E);
  change (@findRawTxByHash E') with (@findRawTxByHash E);
  change (@findShardBlockForTx E') with (@findShardBlockForTx E);
  change (@findFullBlockForSeqno E') with (@findFullBlockForSeqno E);
  change (@computeMinLt E') with (@computeMinLt E);
  change (@findAllTransactionsBetween E') with (@findAllTransactionsBetween E);
  change (@getBlockConfig E') with (@getBlockConfig E);
  change (@getBlockAccount E') with (@getBlockAccount E);
  change (@collectUsedLibraries E') with (@collectUsedLibraries E);
  change (@prepareEmulator E') with (@prepareEmulator E);
  change (@Buffer_fromBase64 E') with (@Buffer_fromBase64 E);
  change (@emulatePreviousTransactions E') with (@emulatePreviousTransactions E);
  change (@shardAccountToBase64 E') with (@shardAccountToBase64 E);
  change (@findFinalActions E') with (@findFinalActions E).

(** ** The retry controller *)

Section Retry.
Context {E : Externals}.

(** C2. A reconstruction that succeeds with a non-zero compute exit code
    is returned as it is, with no retry, whenever the tail of its VM log
    does not show the missing-library signature or the top of the dumped
    stack is not a library fragment: the answer and the state of the world
    are those of the inner pipeline. *)
Theorem retrace_without_signature_returns_result (fuel : nat) (testnet : bool)
    (txLink : string) (additionalLibs : list (Z * Cell)) (baseTx : BaseTxInfo)
    (result : TraceResult) (info : ComputeInfoVm) (st st1 st2 : St World) :
  findBaseTxByHash testnet txLink st = (Ok (Some baseTx), st1) ->
  retraceBaseTx testnet baseTx additionalLibs st1 = (Ok result, st2) ->
  em_computeInfo (emulatedTx result) = ComputeInfoRecord info ->
  ci_exitCode info <> 0 ->
  (forall stack : list StackElement,
     hasMissingLibrarySignature (logs_parse (em_vmLogs (emulatedTx result))) stack ->
     stackTopReadable stack /\ ~ stackTopIsFragment stack) ->
  retrace (S fuel) testnet txLink additionalLibs st = (Ok result, st2).
Proof.
  intros Hbase Hinner Hinfo Hexit Hsig.
  cbn [retrace]. rewrite (bind_run _ _ _ _ _ Hbase). cbv beta iota.
  rewrite (bind_run _ _ _ _ _ Hinner). cbv beta. rewrite Hinfo.
  apply Z.eqb_neq in Hexit. rewrite Hexit.
  destruct (ci_exitCode info =? 9); [|reflexivity].
  set (lines := logs_parse (em_vmLogs (emulatedTx result))) in *.
  destruct (at_neg lines 2) as [[| | |errno1|]|] eqn:H2; try reflexivity.
  destruct (at_neg lines 3) as [[| |errno2 message| |]|] eqn:H3; try reflexivity.
  destruct (at_neg lines 4) as [[|instr| | |]|] eqn:H4; try reflexivity.
  destruct (at_neg lines 6) as [[stack| | | |]|] eqn:H6; try reflexivity.
  destruct (String.eqb_spec message "failed to load library cell") as [->|];
    [|reflexivity].
  destruct (String.eqb_spec instr "CTOS") as [->|]; [|reflexivity].
  cbn [andb].
  destruct (Hsig stack) as [Hread Hnot].
  { unfold hasMissingLibrarySignature. eauto 10. }
  destruct (at_neg stack 1) as [[boc|tag]|] eqn:Htop; try reflexivity.
  destruct (Hread boc Htop) as [c Hc].
  unfold bind at 1. rewrite (tryLoadAsLibrary_classify testnet boc c st2 Hc).
  destruct (classifyFragment c) as [h|] eqn:Hcl.
  - exfalso. apply Hnot. exists boc, c, h. auto.
  - reflexivity.
Qed.

(** X1. On the missing-library signature with a fragment on top of the stack,
    the fragment is fetched and the whole pipeline starts again with one
    more library, keyed by the fragment's hash. *)
Theorem retrace_retries_with_one_more_library (fuel : nat) (testnet : bool)
    (txLink : string) (additionalLibs : list (Z * Cell)) (baseTx : BaseTxInfo)
    (result : TraceResult) (info : ComputeInfoVm) (stack : list StackElement)
    (boc : string) (c : Cell) (h : Buffer) (actualCode : Cell) (key : Z)
    (st st1 st2 st3 : St World) :
  findBaseTxByHash testnet txLink st = (Ok (Some baseTx), st1) ->
  retraceBaseTx testnet baseTx additionalLibs st1 = (Ok result, st2) ->
  em_computeInfo (emulatedTx result) = ComputeInfoRecord info ->
  ci_exitCode info = 9 ->
  hasMissingLibrarySignature (logs_parse (em_vmLogs (emulatedTx result))) stack ->
  at_neg stack 1 = Some (StackCell boc) ->
  Cell_fromHex boc = Ok c ->
  classifyFragment c = Some h ->
  getLibraryByHash testnet (fragmentName h) st2 = (Ok actualCode, st3) ->
  BigInt ("0x" +:+ fragmentName h) = Ok key ->
  retrace (S fuel) testnet txLink additionalLibs st
  = retrace fuel testnet txLink (additionalLibs ++ [(key, actualCode)])%list st3.
Proof.
  intros Hbase Hinner Hinfo Hexit ((e1 & H2) & (e2 & H3) & H4 & H6) Htop Hhex Hclass Hget Hkey.
  cbn [retrace]. rewrite (bind_run _ _ _ _ _ Hbase). cbv beta iota.
  rewrite (bind_run _ _ _ _ _ Hinner). cbv beta. rewrite Hinfo, Hexit.
  cbn [Z.eqb Pos.eqb]. rewrite H2, H3, H4, H6. cbn [String.eqb Ascii.eqb Bool.eqb andb].
  rewrite Htop.
  assert (Hload : tryLoadAsLibrary boc testnet st2
                  = (Ok (Some (fragmentName h, actualCode)), st3)).
  { rewrite (tryLoadAsLibrary_classify testnet boc c st2 Hhex), Hclass.
    rewrite (bind_run _ _ _ _ _ Hget). reflexivity. }
  rewrite (bind_run _ _ _ _ _ Hload). cbv beta iota.
  unfold bind at 1. unfold lift at 1. rewrite Hkey. reflexivity.
Qed.

(** X2. With a skipped compute phase or exit code 0 there is no retry. *)
Theorem retrace_success_returns_result (fuel : nat) (testnet : bool) (txLink : string)
    (additionalLibs : list (Z * Cell)) (baseTx : BaseTxInfo) (result : TraceResult)
    (st st1 st2 : St World) :
  findBaseTxByHash testnet txLink st = (Ok (Some baseTx), st1) ->
  retraceBaseTx testnet baseTx additionalLibs st1 = (Ok result, st2) ->
  (em_computeInfo (emulatedTx result) = ComputeInfoSkipped
   \/ exists info, em_computeInfo (emulatedTx result) = ComputeInfoRecord info
                   /\ ci_exitCode info = 0) ->
  retrace (S fuel) testnet txLink additionalLibs st = (Ok result, st2).
Proof.
  intros Hbase Hinner Hinfo.
  cbn [retrace]. rewrite (bind_run _ _ _ _ _ Hbase). cbv beta iota.
  rewrite (bind_run _ _ _ _ _ Hinner). cbv beta.
  destruct Hinfo as [->|(info & -> & ->)]; reflexivity.
Qed.

End Retry.

(** ** The integrity flag *)

Section HashFlag.
Context {E : Externals}.

Lemma decodeTransaction_withEmulatedHash (h : Buffer) (s : string) (t : Transaction) :
  @decodeTransaction E s = Ok t ->
  @decodeTransaction (withEmulatedHash h E) s = Ok (withNewHash h t).
Proof.
  unfold decodeTransaction. cbn [withEmulatedHash Cell_fromBase64 loadTransaction].
  destruct (Cell_fromBase64 s) as [c|]; [|discriminate]. cbn [res_bind].
  destruct (asSlice c) as [sl|]; [|discriminate]. cbn [res_bind].
  intros ->. reflexivity.
Qed.

(** Only the decoded transaction of [computeFinalData]'s answer depends
    on the state hash of the emulated transaction. *)
Lemma computeFinalData_withEmulatedHash (h : Buffer) (payload : EmulationResultSuccess)
    (b : Z) (final : FinalData) :
  @computeFinalData E payload b = Ok final ->
  @computeFinalData (withEmulatedHash h E) payload b
  = Ok {| fd_sender := fd_sender final;
          fd_contract := fd_contract final;
          fd_money := fd_money final;
          fd_emulatedTx := withNewHash h (fd_emulatedTx final);
          fd_amount := fd_amount final;
          fd_computeInfo := fd_computeInfo final |}.
Proof.
  intros H. unfold computeFinalData in *.
  change (@decodeShardAccount (withEmulatedHash h E)) with (@decodeShardAccount E).
  destruct (decodeShardAccount (ok_shardAccount payload)) as [sa|]; [|discriminate].
  cbn [res_bind] in *.
  destruct (@decodeTransaction E (ok_transaction payload)) as [emTx|] eqn:Htx;
    [|discriminate].
  rewrite (decodeTransaction_withEmulatedHash h _ _ Htx).
  cbn [res_bind withNewHash tx_inMessage tx_description tx_totalFees] in *.
  destruct (tx_inMessage emTx) as [m|]; [|discriminate].
  destruct (checkedEndpoints (msg_info m)) as [[src dest]|]; [|discriminate].
  cbn [res_bind fst snd] in *.
  destruct (tx_description emTx) as [g|]; [|discriminate].
  injection H as <-. reflexivity.
Qed.

End HashFlag.

Section HashFlagMain.
Context {E : Externals}.

(** The closure returned by [prepareEmulator] asks the engine once, with
    the transaction's in-message, and enters the run in the journal. *)
Lemma prepareEmulator_inv (blockConfig : string) (libs : option Cell) (randSeed : Buffer)
    (version : EmulatorVersion) (emulate : Transaction -> string -> M EmulationResult)
    (st st' : St World) :
  prepareEmulator blockConfig libs randSeed st = (Ok (version, emulate), st') ->
  forall (tx : Transaction) (snapshot : string) (res : EmulationResult) (st1 st2 : St World),
    emulate tx snapshot st1 = (Ok res, st2) ->
    exists args : RunTransactionArgs,
      st_journal st2 = EvRunTransaction args (Ok res) :: st_journal st1
      /\ run_lt args = tx_lt tx
      /\ run_shardAccount args = snapshot
      /\ tx_inMessage tx = Some (run_message args).
Proof.
  unfold prepareEmulator. intros H.
  apply bind_inv in H as (v & st0 & _ & H). apply ret_inv in H as [[= -> ->] _].
  intros tx snapshot res st1 st2 Hrun. cbv beta in Hrun.
  destruct (tx_inMessage tx) as [inMsg|]; [|discriminate].
  unfold runTransaction in Hrun.
  destruct (sandbox_runTransaction _ (st_world st1)) as [r w] eqn:Hengine.
  injection Hrun as -> <-. eexists. cbn. repeat split; reflexivity.
Qed.

(** C3. When [retraceBaseTx] returns a report, the last request to the
    engine was the target transaction and it succeeded; the flag
    [stateUpdateHashOk] of the report is true exactly when the state hash
    of the emulated transaction equals, byte for byte, the state hash of
    the on-chain transaction.  A mismatch is not an error: whatever state
    hash [h] the emulated transaction carries, the same run returns the
    same report, complete, with only the flag following [h]. *)
Theorem state_hash_mismatch_is_flagged (testnet : bool) (baseTx : BaseTxInfo)
    (additionalLibs : list (Z * Cell)) (report : TraceResult) (st st' : St World) :
  retraceBaseTx testnet baseTx additionalLibs st = (Ok report, st') ->
  exists (ourTx emTx : Transaction) (args : RunTransactionArgs) (txRes : EmulationResult)
         (payload : EmulationResultSuccess) (earlier : list Event),
    st_journal st' = EvRunTransaction args (Ok txRes) :: earlier
    /\ er_result txRes = EmulationSuccess payload
    /\ run_lt args = tx_lt ourTx
    /\ tx_inMessage ourTx = Some (run_message args)
    /\ em_raw (emulatedTx report) = storeTransaction_hex ourTx
    /\ decodeTransaction (ok_transaction payload) = Ok emTx
    /\ stateUpdateHashOk report
       = Buffer_equals (newHash (tx_stateUpdate emTx)) (newHash (tx_stateUpdate ourTx))
    /\ (stateUpdateHashOk report = true
        <-> newHash (tx_stateUpdate emTx) = newHash (tx_stateUpdate ourTx))
    /\ (forall h : Buffer,
          @retraceBaseTx (withEmulatedHash h E) testnet baseTx additionalLibs st
          = (Ok (withStateUpdateHashOk
                   (Buffer_equals h (newHash (tx_stateUpdate ourTx))) report), st')).
Proof.
  intros H. unfold retraceBaseTx in H.
  await H txs s1 H1.
  destruct (head txs) as [tx|] eqn:Htx; [|discriminate].
  await H oblock s2 H2.
  destruct oblock as [block|]; [|discriminate].
  destruct (negb (String.eqb (blk_root_hash block) (rb_rootHash (raw_block tx)))) eqn:Hroot;
    [discriminate|].
  await H fullBlock s3 H3. await H minLt s4 H4. await H all s5 H5.
  await H blockConfig s6 H6. await H account s7 H7. await H used s8 H8.
  await H prepared s9 H9. destruct prepared as [version emulate]. cbn [fst snd] in H.
  await H replayed s10 H10.
  destruct (head all) as [ourTx|] eqn:Hour; [|discriminate].
  await H txRes s11 H11.
  destruct (er_result txRes) as [payload|error] eqn:Hres; [|discriminate].
  await H acts s12 H12. await H final s13 H13. await H opcode s14 H14.
  apply ret_inv in H as [-> ->].
  pose proof H12 as H12'. apply lift_inv in H12' as [_ ->].
  pose proof H13 as H13'. apply lift_inv in H13' as [Hfinal ->].
  pose proof H14 as H14'. apply lift_inv in H14' as [_ ->].
  destruct (computeFinalData_inv _ _ _ Hfinal)
    as (sa & emTx & m & g & _ & Hdecode & _ & _ & _ & Hem & _ & _).
  destruct (prepareEmulator_inv _ _ _ _ _ _ _ H9 _ _ _ _ _ H11)
    as (args & Hjournal & Hlt & _ & Hmsg).
  subst emTx.
  exists ourTx, (fd_emulatedTx final), args, txRes, payload, (st_journal s10).
  cbn [stateUpdateHashOk emulatedTx em_raw].
  repeat split; try assumption; try reflexivity.
  - unfold Buffer_equals. intros Hflag. apply bool_decide_eq_true in Hflag. exact Hflag.
  - unfold Buffer_equals. intros Heq. apply bool_decide_eq_true. exact Heq.
  - intros h. unfold retraceBaseTx.
    set (E' := withEmulatedHash h E). same_world E' E.
    replay H1. rewrite Htx. replay H2. rewrite Hroot.
    replay H3. replay H4. replay H5. replay H6. replay H7. replay H8. replay H9.
    cbn [fst snd]. replay H10. rewrite Hour. replay H11. rewrite Hres. replay H12.
    unfold bind at 1. unfold lift at 1. subst E'.
    rewrite (computeFinalData_withEmulatedHash h _ _ _ Hfinal).
    replay H14. reflexivity.
Qed.

End HashFlagMain.

(** ** The library resolver *)

Section Resolver.
Context {E : Externals}.

(** X3. The resolver asks toncenter first and dton only when toncenter fails;
    it fails only when both do. *)
Theorem getLibraryByHash_fallback (testnet : bool) (hash : string) (st : St World) :
  getLibraryByHash testnet hash st
  = match api_getLibrary Toncenter testnet hash (st_world st) with
    | (Ok code, w) =>
        (Ok code, mkSt w (EvGetLibrary Toncenter testnet hash :: st_journal st))
    | (Throw _, w) =>
        let '(answer, w') := api_getLibrary Dton testnet hash w in
        (answer, mkSt w' (EvGetLibrary Dton testnet hash
                          :: EvGetLibrary Toncenter testnet hash :: st_journal st))
    end.
Proof.
  unfold getLibraryByHash, try_catch, getLibraryByHashToncenter, getLibraryByHashDton.
  unfold bind, journal, call. cbn [st_world st_journal].
  destruct (api_getLibrary Toncenter testnet hash (st_world st)) as [[code|e] w].
  - reflexivity.
  - cbn [st_world st_journal].
    destruct (api_getLibrary Dton testnet hash w) as [[code|e'] w']; reflexivity.
Qed.

End Resolver.

Example getLibraryByHash_falls_back_to_dton :
  @getLibraryByHash toncenterDownExternals false "AB" world0
  = (Ok resolvedCode,
     mkSt tt [EvGetLibrary Dton false "AB"; EvGetLibrary Toncenter false "AB"]).
Proof. reflexivity. Qed.


(** ** The library scanner *)

Section Scanner.
Context {E : Externals}.

(** X8. When the account's own code is a fragment that resolves, the scanner
    never looks at the StateInit of the in-message: its answer and its
    requests are the same for every transaction. *)
Lemma collectUsedLibraries_self_fragment (testnet : bool) (account : ShardAccount)
    (tx : Transaction) (additionalLibs : list (Z * Cell)) (s : StateInit) (c : Cell)
    (h : Buffer) (actualCode : Cell) (key : Z) (st st1 : St World) :
  accountState account = Some (AccountActive s) ->
  si_code s = Some c ->
  classifyFragment c = Some h ->
  getLibraryByHash testnet (fragmentName h) st = (Ok actualCode, st1) ->
  BigInt ("0x" +:+ fragmentName h) = Ok key ->
  collectUsedLibraries testnet account tx additionalLibs st
  = (let libs := fold_left (fun libs entry => <[fst entry := snd entry]> libs)
                   additionalLibs (<[key := actualCode]> ∅) in
     if (size libs =? 0)%nat
     then ret (None, Some actualCode)
     else let* dict := lift (storeDictDirect libs) in ret (Some dict, Some actualCode)) st1.
Proof.
  intros Hstate Hcode Hclass Hget Hkey. unfold collectUsedLibraries.
  rewrite Hstate, Hcode.
  assert (Hscan : addMaybeExoticLibrary testnet ∅ (Some c) st
                  = (Ok (<[key := actualCode]> ∅, Some actualCode), st1)).
  { rewrite addMaybeExoticLibrary_classify, Hclass.
    rewrite (bind_run _ _ _ _ _ Hget). unfold bind, lift. rewrite Hkey. reflexivity. }
  rewrite (bind_run _ _ _ _ _ Hscan). cbn [fst snd].
  destruct (inMessageInit tx) as [init|]; reflexivity.
Qed.

(** X9. When the account's code is there and is no fragment, the code of the
    StateInit is scanned. *)
Lemma collectUsedLibraries_scans_init (testnet : bool) (account : ShardAccount)
    (tx : Transaction) (additionalLibs : list (Z * Cell)) (s init : StateInit) (c : Cell)
    (st : St World) :
  accountState account = Some (AccountActive s) ->
  si_code s = Some c ->
  classifyFragment c = None ->
  inMessageInit tx = Some init ->
  collectUsedLibraries testnet account tx additionalLibs st
  = (let* r := addMaybeExoticLibrary testnet ∅ (si_code init) in
     let libs := fold_left (fun libs entry => <[fst entry := snd entry]> libs)
                   additionalLibs (fst r) in
     if (size libs =? 0)%nat
     then ret (None, snd r)
     else let* dict := lift (storeDictDirect libs) in ret (Some dict, snd r)) st.
Proof.
  intros Hstate Hcode Hclass Hinit. unfold collectUsedLibraries.
  rewrite Hstate, Hcode, Hinit.
  unfold bind at 1. rewrite addMaybeExoticLibrary_classify, Hclass. reflexivity.
Qed.

End Scanner.

(** C4 (the code departs from it). The account's code is the library cell
    A and the StateInit of the in-message carries the library cell B, both
    fragments by the detection rule.  The scanner requests A only: B is
    never scanned, and the dictionary handed to the engine has one entry. *)
Theorem collectUsedLibraries_skips_init_of_fragment_account :
  classifyFragment libraryCellA = Some (replicate 32 170)
  /\ classifyFragment libraryCellB = Some (replicate 32 187)
  /\ @collectUsedLibraries demoExternals false selfFragmentAccount deployTx [] world0
     = (Ok (Some (mkCell [] [resolvedCode] false), Some resolvedCode),
        mkSt tt [EvGetLibrary Toncenter false (fragmentName (replicate 32 170))])
  /\ @collectUsedLibraries demoExternals false selfFragmentAccount deployTx [] world0
     = @collectUsedLibraries demoExternals false selfFragmentAccount plainTx [] world0.
Proof. repeat split; vm_compute; reflexivity. Qed.

(** ** The theorems at work on the small world *)

Lemma fragment_detection_rule_witness :
  @Cell_fromHex demoExternals "LIB-A" = Ok libraryCellA
  /\ @tryLoadAsLibrary demoExternals "LIB-A" false world0
     = (Ok (Some (fragmentName (replicate 32 170), resolvedCode)),
        mkSt tt [EvGetLibrary Toncenter false (fragmentName (replicate 32 170))])
  /\ @Cell_fromHex demoExternals "CODE" = Ok ordinaryCode
  /\ @tryLoadAsLibrary demoExternals "CODE" false world0 = (Ok None, world0).
Proof.
  destruct (@fragment_detection_rule demoExternals) as (_ & _ & Hstack).
  split; [reflexivity|]. split.
  - rewrite (Hstack false "LIB-A" libraryCellA world0 eq_refl).
    vm_compute. reflexivity.
  - split; [reflexivity|].
    rewrite (Hstack false "CODE" ordinaryCode world0 eq_refl).
    vm_compute. reflexivity.
Defined.

Lemma retrace_without_signature_returns_result_witness :
  exists (result : TraceResult) (st2 : St unit),
    @retraceBaseTx underflowExternals false demoBase [] world0 = (Ok result, st2)
    /\ em_computeInfo (emulatedTx result)
       = ComputeInfoRecord (mkComputeInfoVm false 9 25 1000 400)
    /\ @retrace underflowExternals 1 false "hash" [] world0 = (Ok result, st2).
Proof.
  eexists. eexists. split; [vm_compute; reflexivity|]. split; [reflexivity|].
  apply (@retrace_without_signature_returns_result underflowExternals 0 false "hash" []
           demoBase _ (mkComputeInfoVm false 9 25 1000 400) world0 world0).
  - reflexivity.
  - vm_compute. reflexivity.
  - reflexivity.
  - discriminate.
  - intros stack (_ & _ & _ & Hstack).
    vm_compute in Hstack. injection Hstack as <-. split.
    + intros boc Htop. vm_compute in Htop. injection Htop as <-.
      exists ordinaryCode. reflexivity.
    + intros (boc & c & h & Htop & Hhex & Hclass).
      vm_compute in Htop. injection Htop as <-.
      vm_compute in Hhex. injection Hhex as <-.
      vm_compute in Hclass. discriminate Hclass.
Defined.

Lemma state_hash_mismatch_is_flagged_witness :
  exists (report : TraceResult) (st' : St unit),
    @retraceBaseTx mismatchExternals false demoBase [] world0 = (Ok report, st')
    /\ stateUpdateHashOk report = false
    /\ exists ourTx : Transaction,
         forall h : Buffer,
           @retraceBaseTx (withEmulatedHash h mismatchExternals) false demoBase [] world0
           = (Ok (withStateUpdateHashOk
                    (Buffer_equals h (newHash (tx_stateUpdate ourTx))) report), st').
Proof.
  eexists. eexists. split; [vm_compute; reflexivity|]. split; [reflexivity|].
  destruct (@state_hash_mismatch_is_flagged mismatchExternals false demoBase [] _ world0 _
              ltac:(vm_compute; reflexivity))
    as (ourTx & _ & _ & _ & _ & _ & _ & _ & _ & _ & _ & _ & _ & _ & Hany).
  exists ourTx. exact Hany.
Defined.


Lemma computeMinLt_is_minimum_witness :
  Forall2 (fun t lt => @BigInt demoExternals (stx_lt t) = Ok lt)
    (accountEntries (@Address_toString demoExternals demoAddress) demoBlock) [98; 99; 100]
  /\ @computeMinLt demoExternals plainTx demoAddress demoBlock = Ok 98.
Proof.
  assert (Hparse : Forall2 (fun t lt => @BigInt demoExternals (stx_lt t) = Ok lt)
                     (accountEntries (@Address_toString demoExternals demoAddress) demoBlock)
                     [98; 99; 100]).
  { assert (Hentries : accountEntries (@Address_toString demoExternals demoAddress) demoBlock
                       = [ mkShardTransaction "98" "h98" "EQ-demo";
                           mkShardTransaction "99" "h99" "EQ-demo";
                           mkShardTransaction "100" "h100" "EQ-demo" ])
      by reflexivity.
    rewrite Hentries. repeat (constructor; [reflexivity|]). constructor. }
  split; [exact Hparse|].
  destruct (@computeMinLt_is_minimum demoExternals plainTx demoAddress demoBlock
              [98; 99; 100] Hparse) as (minLt & Hrun & Hmin & _).
  rewrite Hrun, Hmin. reflexivity.
Defined.

Lemma computeInfo_summary_witness :
  exists out : FinalData,
    @computeFinalData underflowExternals demoPayload 4000 = Ok out
    /\ fd_computeInfo out = ComputeInfoRecord (mkComputeInfoVm false 9 25 1000 400)
    /\ exists g : GenericDescription,
         tx_description (fd_emulatedTx out) = DescGeneric g
         /\ (fd_computeInfo out = ComputeInfoSkipped
             <-> exists reason, gen_computePhase g = ComputeSkipped reason).
Proof.
  eexists. split; [vm_compute; reflexivity|]. split; [reflexivity|].
  destruct (@computeInfo_summary underflowExternals demoPayload 4000 _
              ltac:(vm_compute; reflexivity)) as (g & _ & Hg & Hskip & _).
  exists g. split; [exact Hg | exact Hskip].
Defined.

Lemma sentTotal_sums_internal_values_witness :
  let sent := [(0, internalMessage 300 false None emptyCell);
               (1, externalOutMessage);
               (2, internalMessage 200 false None emptyCell)] in
  calculateSentTotal (withOutMessages plainTx sent) = 500
  /\ internalValue externalOutMessage = None
  /\ calculateSentTotal (withOutMessages plainTx sent)
     = calculateSentTotal
         (withOutMessages plainTx [(0, internalMessage 300 false None emptyCell);
                                   (2, internalMessage 200 false None emptyCell)])
  /\ calculateSentTotal plainTx = 0.
Proof.
  intros sent.
  destruct (sentTotal_sums_internal_values (withOutMessages plainTx sent))
    as (Hsum & _ & _).
  destruct (sentTotal_sums_internal_values plainTx) as (_ & Hskip & Hzero).
  split; [rewrite Hsum; reflexivity|]. split; [reflexivity|]. split.
  - exact (Hskip [(0, internalMessage 300 false None emptyCell)]
                 [(2, internalMessage 200 false None emptyCell)] 1 externalOutMessage
                 eq_refl).
  - apply Hzero. reflexivity.
Defined.

Lemma retrace_retries_with_one_more_library_witness :
  exists (key : Z) (st3 : St unit),
    @BigInt missingLibraryExternals ("0x" +:+ fragmentName (replicate 32 170)) = Ok key
    /\ @retrace missingLibraryExternals 1 false "hash" [] world0
       = @retrace missingLibraryExternals 0 false "hash" [(key, resolvedCode)] st3
    /\ length (st_journal st3) = 4%nat.
Proof.
  eexists. eexists. split; [vm_compute; reflexivity|]. split.
  - eapply (@retrace_retries_with_one_more_library missingLibraryExternals 0 false "hash" []
             demoBase _ (mkComputeInfoVm false 9 25 1000 400)
             [StackOther "Integer"; StackCell "LIB-A"] "LIB-A" libraryCellA
             (replicate 32 170) resolvedCode _ world0 world0).
    + reflexivity.
    + vm_compute. reflexivity.
    + reflexivity.
    + reflexivity.
    + unfold hasMissingLibrarySignature. repeat split; try (eexists; reflexivity).
    + reflexivity.
    + reflexivity.
    + vm_compute. reflexivity.
    + vm_compute. reflexivity.
    + vm_compute. reflexivity.
  - reflexivity.
Defined.

Lemma retrace_success_returns_result_witness :
  exists (result : TraceResult) (st2 : St unit),
    @retraceBaseTx demoExternals false demoBase [] world0 = (Ok result, st2)
    /\ @retrace demoExternals 1 false "hash" [] world0 = (Ok result, st2).
Proof.
  eexists. eexists. split; [vm_compute; reflexivity|].
  apply (@retrace_success_returns_result demoExternals 0 false "hash" [] demoBase _
           world0 world0).
  - reflexivity.
  - vm_compute. reflexivity.
  - right. eexists. split; reflexivity.
Defined.

Lemma collectUsedLibraries_self_fragment_witness :
  @collectUsedLibraries demoExternals false selfFragmentAccount deployTx
    [(7, ordinaryCode)] world0
  = (Ok (Some (mkCell [] [ordinaryCode; resolvedCode] false), Some resolvedCode),
     mkSt tt [EvGetLibrary Toncenter false (fragmentName (replicate 32 170))]).
Proof.
  rewrite (@collectUsedLibraries_self_fragment demoExternals false selfFragmentAccount
             deployTx [(7, ordinaryCode)] (mkStateInit (Some libraryCellA) None)
             libraryCellA (replicate 32 170) resolvedCode
             77194726158210796949047323339125271902179989777093709359638389338608753093290
             world0
             (mkSt tt [EvGetLibrary Toncenter false (fragmentName (replicate 32 170))])
             eq_refl eq_refl).
  - vm_compute. reflexivity.
  - vm_compute. reflexivity.
  - vm_compute. reflexivity.
  - vm_compute. reflexivity.
Defined.

Lemma collectUsedLibraries_scans_init_witness :
  @collectUsedLibraries demoExternals false (activeAccount ordinaryCode 5000) deployTx []
    world0
  = (Ok (Some (mkCell [] [resolvedCode] false), Some resolvedCode),
     mkSt tt [EvGetLibrary Toncenter false (fragmentName (replicate 32 187))]).
Proof.
  rewrite (@collectUsedLibraries_scans_init demoExternals false
             (activeAccount ordinaryCode 5000) deployTx []
             (mkStateInit (Some ordinaryCode) None)
             (mkStateInit (Some libraryCellB) None) ordinaryCode world0
             eq_refl eq_refl).
  - vm_compute. reflexivity.
  - vm_compute. reflexivity.
  - reflexivity.
Defined.

Lemma txOpcode_reads_opcode_witness :
  let body := mkCell (byteBits 255 ++ byteBits 255 ++ byteBits 255 ++ byteBits 255
                      ++ byteBits 0 ++ byteBits 0 ++ byteBits 1 ++ byteBits 2)%list [] false in
  txOpcode (demoTx 100 None [] [] (genericVm 0 None)) = Ok None
  /\ txOpcode (demoTx 100 (Some (internalMessage 5 false None body)) [] [] (genericVm 0 None))
     = Ok (Some 4294967295)
  /\ txOpcode (demoTx 100 (Some (internalMessage 5 true None body)) [] [] (genericVm 0 None))
     = Ok (Some 258).
Proof.
  intros body. split; [|split].
  - exact (proj1 (txOpcode_reads_opcode (demoTx 100 None [] [] (genericVm 0 None))) eq_refl).
  - rewrite (proj1 (proj2 (txOpcode_reads_opcode
               (demoTx 100 (Some (internalMessage 5 false None body)) [] []
                  (genericVm 0 None))))
               (internalMessage 5 false None body) eq_refl eq_refl eq_refl).
    reflexivity.
  - rewrite (proj2 (proj2 (txOpcode_reads_opcode
               (demoTx 100 (Some (internalMessage 5 true None body)) [] []
                  (genericVm 0 None))))
               (internalMessage 5 true None body) eq_refl eq_refl eq_refl).
    + reflexivity.
    + vm_compute. lia.
Defined.

(** ** The journal of a replay *)

Section ReplayJournal.
Context {E : Externals}.

(** X18. Replay composes: replaying [l1 ++ l2] is replaying [l1] and then [l2]
    from the balance and snapshot [l1] ended on; a failure in [l1] is the
    failure of the whole. *)
Theorem replay_composes (b : Z) (s : string)
    (emulate : Transaction -> string -> M EmulationResult)
    (l1 l2 : list Transaction) (st : St World) :
  emulatePreviousTransactions b (l1 ++ l2)%list emulate s st
  = match emulatePreviousTransactions b l1 emulate s st with
    | (Ok cur, st1) =>
        emulatePreviousTransactions (rs_prevBalance cur) l2 emulate
          (rs_shardAccountBase64 cur) st1
    | (Throw e, st1) => (Throw e, st1)
    end.
Proof.
  rewrite !emulatePreviousTransactions_loop, for_of_app.
  destruct (for_of l1 (replayStep emulate) (mkReplayState b s) st) as [[cur|e] st1].
  - rewrite emulatePreviousTransactions_loop. destruct cur. reflexivity.
  - reflexivity.
Qed.

Lemma call_journal {A : Type} (f : World -> Res A * World) (st st' : St World) (r : Res A) :
  call f st = (r, st') -> st_journal st' = st_journal st.
Proof.
  unfold call. destruct (f (st_world st)) as [r0 w]. intros [= _ <-]. reflexivity.
Qed.

(** What the closure of [prepareEmulator] is. *)
Lemma prepareEmulator_closure (blockConfig : string) (libs : option Cell) (randSeed : Buffer)
    (version : EmulatorVersion) (emulate : Transaction -> string -> M EmulationResult)
    (st st' : St World) :
  prepareEmulator blockConfig libs randSeed st = (Ok (version, emulate), st') ->
  st_journal st' = st_journal st
  /\ emulate
     = (fun (tx : Transaction) (shardAccountBase64 : string) =>
          match tx_inMessage tx with
          | None => throw "No in_message was found in transaction"
          | Some inMsg =>
              runTransaction
                {| run_config := blockConfig;
                   run_libs := libs;
                   run_shardAccount := shardAccountBase64;
                   run_message := inMsg;
                   run_now := tx_now tx;
                   run_lt := tx_lt tx;
                   run_randomSeed := randSeed |}
          end).
Proof.
  unfold prepareEmulator. intros H.
  apply bind_inv in H as (v & st0 & Hcreate & H). apply ret_inv in H as [[= -> ->] ->].
  split; [|reflexivity]. exact (call_journal _ _ _ _ Hcreate).
Qed.

Lemma replay_trace_loop (blockConfig : string) (libs : option Cell) (randSeed : Buffer)
    (version : EmulatorVersion) (emulate : Transaction -> string -> M EmulationResult)
    (st0 st0' : St World) :
  prepareEmulator blockConfig libs randSeed st0 = (Ok (version, emulate), st0') ->
  forall (txs : list Transaction) (start cur : ReplayState) (st st' : St World),
    for_of txs (replayStep emulate) start st = (Ok cur, st') ->
    exists events : list Event,
      st_journal st' = (events ++ st_journal st)%list
      /\ ReplayTrace blockConfig libs randSeed (rs_shardAccountBase64 start) txs events
           (rs_shardAccountBase64 cur).
Proof.
  intros Hprep. destruct (prepareEmulator_closure _ _ _ _ _ _ _ Hprep) as [_ ->].
  induction txs as [|tx txs IH]; intros start cur st st' Hrun.
  - apply ret_inv in Hrun as [-> ->]. exists []. split; [reflexivity|constructor].
  - cbn [for_of] in Hrun. apply bind_inv in Hrun as (next & st1 & Hstep & Hrest).
    unfold replayStep in Hstep. apply bind_inv in Hstep as (res & st2 & Hcall & Hstep).
    destruct (tx_inMessage tx) as [inMsg|] eqn:HinMsg; [|discriminate].
    unfold runTransaction in Hcall.
    destruct (sandbox_runTransaction _ (st_world st)) as [r w] eqn:Hengine.
    injection Hcall as -> <-.
    destruct (er_result res) as [payload|error] eqn:Hres; [|discriminate].
    apply bind_inv in Hstep as (sa & st3 & Hdecode & Hret).
    apply lift_inv in Hdecode as [_ ->]. apply ret_inv in Hret as [-> ->].
    destruct (IH _ _ _ _ Hrest) as (events & Hjournal & Htrace).
    cbn [rs_shardAccountBase64 st_journal] in *.
    eexists (events ++ [_])%list. split.
    + rewrite Hjournal. rewrite <- app_assoc. reflexivity.
    + econstructor; eassumption.
Qed.

(** X10. A successful replay by the prepared emulator asks the engine once
    per transaction, in the order of the list: the first run starts from
    the given snapshot, every later run from the snapshot the run before
    returned, all with the configuration, libraries and seed the emulator
    was prepared with; the replay ends on the last returned snapshot, and
    nothing else enters the journal. *)
Theorem replay_runs_are_chained (blockConfig : string) (libs : option Cell)
    (randSeed : Buffer) (version : EmulatorVersion)
    (emulate : Transaction -> string -> M EmulationResult) (st0 st0' : St World)
    (b : Z) (s : string) (txs : list Transaction) (cur : ReplayState) (st st' : St World) :
  prepareEmulator blockConfig libs randSeed st0 = (Ok (version, emulate), st0') ->
  emulatePreviousTransactions b txs emulate s st = (Ok cur, st') ->
  exists events : list Event,
    st_journal st' = (events ++ st_journal st)%list
    /\ length events = length txs
    /\ ReplayTrace blockConfig libs randSeed s txs events (rs_shardAccountBase64 cur).
Proof.
  intros Hprep Hrun. rewrite emulatePreviousTransactions_loop in Hrun.
  destruct (replay_trace_loop _ _ _ _ _ _ _ Hprep _ _ _ _ _ Hrun)
    as (events & Hjournal & Htrace).
  exists events. split; [exact Hjournal|]. split; [|exact Htrace].
  clear -Htrace. cbn [rs_shardAccountBase64] in Htrace.
  induction Htrace as [|? ? ? ? ? ? ? ? _ _ _ IH]; [reflexivity|].
  rewrite length_app. cbn [length]. lia.
Qed.

End ReplayJournal.

(** ** The journal of the pipeline *)

Lemma ReplayTrace_app (blockConfig : string) (libs : option Cell) (randSeed : Buffer)
    (a b c : string) (l1 l2 : list Transaction) (ev1 ev2 : list Event) :
  ReplayTrace blockConfig libs randSeed a l1 ev1 b ->
  ReplayTrace blockConfig libs randSeed b l2 ev2 c ->
  ReplayTrace blockConfig libs randSeed a (l1 ++ l2)%list (ev2 ++ ev1)%list c.
Proof.
  intros H1 H2. induction H1 as [|? ? ? ? ? ? ? ? Hin Hres _ IH].
  - rewrite app_nil_r. exact H2.
  - cbn [app]. rewrite app_assoc. econstructor; [exact Hin | exact Hres | apply IH; exact H2].
Qed.

Lemma ReplayTrace_length (blockConfig : string) (libs : option Cell) (randSeed : Buffer)
    (a b : string) (txs : list Transaction) (events : list Event) :
  ReplayTrace blockConfig libs randSeed a txs events b -> length events = length txs.
Proof.
  induction 1 as [|? ? ? ? ? ? ? ? _ _ _ IH]; [reflexivity|].
  rewrite length_app. cbn [length]. lia.
Qed.

Section PipelineJournal.
Context {E : Externals}.

Lemma getLibraryByHash_requests {testnet : bool} {hash : string} {st st' : St World}
    {r : Res Cell} :
  getLibraryByHash testnet hash st = (r, st') ->
  exists requests : list Event,
    st_journal st' = (requests ++ st_journal st)%list
    /\ Forall isLibraryRequest requests
    /\ requests <> [].
Proof.
  unfold getLibraryByHash, try_catch, getLibraryByHashToncenter, getLibraryByHashDton.
  unfold bind, journal, call. cbn [st_world st_journal].
  destruct (api_getLibrary Toncenter testnet hash (st_world st)) as [[code|e] w].
  - intros [= _ <-]. exists [EvGetLibrary Toncenter testnet hash].
    repeat split; [repeat constructor | discriminate].
  - cbn [st_world st_journal].
    destruct (api_getLibrary Dton testnet hash w) as [r' w']. intros [= _ <-].
    exists [EvGetLibrary Dton testnet hash; EvGetLibrary Toncenter testnet hash].
    repeat split; [repeat constructor | discriminate].
Qed.

Lemma addMaybeExoticLibrary_requests {testnet : bool} {libs : gmap Z Cell}
    {code : option Cell} {st st' : St World} {r : Res (gmap Z Cell * option Cell)} :
  addMaybeExoticLibrary testnet libs code st = (r, st') ->
  exists requests : list Event,
    st_journal st' = (requests ++ st_journal st)%list
    /\ Forall isLibraryRequest requests
    /\ (forall libs' resolved, r = Ok (libs', Some resolved) -> requests <> []).
Proof.
  destruct code as [c|].
  - rewrite addMaybeExoticLibrary_classify.
    destruct (classifyFragment c) as [h|].
    + unfold bind at 1.
      destruct (getLibraryByHash testnet (fragmentName h) st) as [[actual|e] st1] eqn:Hget.
      * destruct (getLibraryByHash_requests Hget) as (requests & Hj & Hall & Hne).
        unfold bind, lift, ret.
        destruct (BigInt ("0x" +:+ fragmentName h)); intros [= _ <-];
          exists requests; auto.
      * destruct (getLibraryByHash_requests Hget) as (requests & Hj & Hall & Hne).
        intros [= _ <-]. exists requests. auto.
    + intros [= <- <-]. exists []. repeat split; [constructor | discriminate].
  - intros [= <- <-]. exists []. repeat split; [constructor | discriminate].
Qed.

(** Whatever [collectUsedLibraries] answers, it has entered nothing but
    library requests in the journal, and at least one when it answers a
    resolved code. *)
Lemma collectUsedLibraries_requests {testnet : bool} {account : ShardAccount}
    {tx : Transaction} {additionalLibs : list (Z * Cell)} {st st' : St World}
    {r : Res (option Cell * option Cell)} :
  collectUsedLibraries testnet account tx additionalLibs st = (r, st') ->
  exists requests : list Event,
    st_journal st' = (requests ++ st_journal st)%list
    /\ Forall isLibraryRequest requests
    /\ (forall dict resolved, r = Ok (dict, Some resolved) -> requests <> []).
Proof.
  unfold collectUsedLibraries. intros H.
  set (scanSelf := match accountState account with
                   | Some (AccountActive s) => addMaybeExoticLibrary testnet ∅ (si_code s)
                   | _ => ret (∅, None)
                   end) in H.
  assert (Hself : forall r1 st1, scanSelf st = (r1, st1) ->
            exists requests, st_journal st1 = (requests ++ st_journal st)%list
              /\ Forall isLibraryRequest requests
              /\ (forall libs' resolved, r1 = Ok (libs', Some resolved) -> requests <> [])).
  { intros r1 st1 Hscan. subst scanSelf.
    destruct (accountState account) as [[|s|]|];
      try (injection Hscan as <- <-; exists []; repeat split;
           [constructor | discriminate]).
    exact (addMaybeExoticLibrary_requests Hscan). }
  unfold bind at 1 in H.
  destruct (scanSelf st) as [[[libs1 loaded1]|e] st1] eqn:Hscan.
  - destruct (Hself _ _ eq_refl) as (req1 & Hj1 & Hall1 & Hsome1).
    cbn [fst snd] in H.
    set (scanInit := match inMessageInit tx with
                     | Some init =>
                         match loaded1 with
                         | Some _ => ret (libs1, loaded1)
                         | None => addMaybeExoticLibrary testnet libs1 (si_code init)
                         end
                     | None => ret (libs1, loaded1)
                     end) in H.
    assert (Hinit : forall r2 st2, scanInit st1 = (r2, st2) ->
              exists requests, st_journal st2 = (requests ++ st_journal st)%list
                /\ Forall isLibraryRequest requests
                /\ (forall libs' resolved, r2 = Ok (libs', Some resolved) -> requests <> [])).
    { intros r2 st2 Hscan2. subst scanInit.
      destruct (inMessageInit tx) as [init|].
      - destruct loaded1 as [code1|].
        + injection Hscan2 as <- <-. exists req1. split; [assumption|].
          split; [assumption|].
          intros libs' resolved _. exact (Hsome1 _ _ eq_refl).
        + destruct (addMaybeExoticLibrary_requests Hscan2) as (req2 & Hj2 & Hall2 & Hsome2).
          exists (req2 ++ req1)%list. rewrite Hj2, Hj1, app_assoc.
          split; [reflexivity | split].
          * apply Forall_app. split; assumption.
          * intros libs' resolved Hr. specialize (Hsome2 _ _ Hr).
            destruct req2; [contradiction | discriminate].
      - injection Hscan2 as <- <-. exists req1. split; [assumption | split; [assumption|]].
        intros libs' resolved [= -> ->]. exact (Hsome1 _ _ eq_refl). }
    unfold bind at 1 in H.
    destruct (scanInit st1) as [[[libs2 loaded2]|e] st2] eqn:Hscan2.
    + destruct (Hinit _ _ eq_refl) as (req & Hj & Hall & Hsome).
      cbn [fst snd] in H.
      destruct (size _ =? 0)%nat.
      * injection H as <- <-. exists req. split; [assumption | split; [assumption|]].
        intros dict resolved [= _ ->]. exact (Hsome _ _ eq_refl).
      * unfold bind, lift, ret in H. destruct (storeDictDirect _) as [dict|e].
        -- injection H as <- <-. exists req. split; [assumption | split; [assumption|]].
           intros dict' resolved [= _ ->]. exact (Hsome _ _ eq_refl).
        -- injection H as <- <-. exists req. split; [assumption | split; [assumption|]]. discriminate.
    + destruct (Hinit _ _ eq_refl) as (req & Hj & Hall & _).
      injection H as <- <-. exists req. split; [assumption | split; [assumption|]]. discriminate.
  - destruct (Hself _ _ eq_refl) as (req1 & Hj1 & Hall1 & _).
    injection H as <- <-. exists req1. split; [assumption | split; [assumption|]]. discriminate.
Qed.

End PipelineJournal.

Section PipelineSteps.
Context {E : Externals}.

(** Every step a successful [retraceBaseTx] went through, in order. *)
Lemma retraceBaseTx_success_inv (testnet : bool) (baseTx : BaseTxInfo)
    (additionalLibs : list (Z * Cell)) (report : TraceResult) (st st' : St World) :
  retraceBaseTx testnet baseTx additionalLibs st = (Ok report, st') ->
  exists (txs : list RawTransaction) (tx : RawTransaction) (block : Block)
         (fullBlock : BlockInfo) (minLt : Z) (all : list Transaction) (ourTx : Transaction)
         (blockConfig : string) (account : ShardAccount) (used : option Cell * option Cell)
         (version : EmulatorVersion) (emulate : Transaction -> string -> M EmulationResult)
         (replayed : ReplayState) (txRes : EmulationResult)
         (payload : EmulationResultSuccess) (acts : list OutAction * option Cell)
         (final : FinalData) (opcode : option Z)
         (s1 s2 s3 s5 s6 s7 s8 s9 s10 : St World),
    (findRawTxByHash testnet baseTx st = (Ok txs, s1) /\ head txs = Some tx)
    /\ (findShardBlockForTx testnet tx s1 = (Ok (Some block), s2)
        /\ blk_root_hash block = rb_rootHash (raw_block tx))
    /\ findFullBlockForSeqno testnet (ref_seqno (blk_masterchain_block_ref block)) s2
       = (Ok fullBlock, s3)
    /\ computeMinLt (raw_tx tx) (base_address baseTx) fullBlock = Ok minLt
    /\ (findAllTransactionsBetween testnet baseTx minLt s3 = (Ok all, s5)
        /\ head all = Some ourTx)
    /\ getBlockConfig testnet fullBlock s5 = (Ok blockConfig, s6)
    /\ getBlockAccount testnet (base_address baseTx) fullBlock s6 = (Ok account, s7)
    /\ collectUsedLibraries testnet account (raw_tx tx) additionalLibs s7 = (Ok used, s8)
    /\ prepareEmulator blockConfig (fst used) (Buffer_fromBase64 (blk_rand_seed block)) s8
       = (Ok (version, emulate), s9)
    /\ emulatePreviousTransactions (default 0 (balanceOf (clearedLastTransaction account)))
         (rev (tail all)) emulate (shardAccountToBase64 (clearedLastTransaction account)) s9
       = (Ok replayed, s10)
    /\ (emulate ourTx (rs_shardAccountBase64 replayed) s10 = (Ok txRes, st')
        /\ er_result txRes = EmulationSuccess payload)
    /\ findFinalActions payload = Ok acts
    /\ computeFinalData payload (rs_prevBalance replayed) = Ok final
    /\ txOpcode ourTx = Ok opcode
    /\ report
       = {| stateUpdateHashOk :=
              Buffer_equals (newHash (tx_stateUpdate (fd_emulatedTx final)))
                            (newHash (tx_stateUpdate ourTx));
            codeCell := nullish (snd used) (codeCellOf account (raw_tx tx));
            originalCodeCell := codeCellOf account (raw_tx tx);
            inMsg := {| in_sender := fd_sender final;
                        in_contract := fd_contract final;
                        in_amount := fd_amount final;
                        in_opcode := opcode |};
            money := fd_money final;
            emulatedTx :=
              {| em_raw := storeTransaction_hex ourTx;
                 em_utime := tx_now (fd_emulatedTx final);
                 em_lt := tx_lt (fd_emulatedTx final);
                 em_computeInfo := fd_computeInfo final;
                 em_executorLogs := er_logs txRes;
                 em_actions := fst acts;
                 em_c5 := snd acts;
                 em_vmLogs := ok_vmLog payload |};
            emulatorVersion := version |}.
Proof.
  intros H. unfold retraceBaseTx in H.
  await H txs s1 H1.
  destruct (head txs) as [tx|] eqn:Htx; [|discriminate].
  await H oblock s2 H2.
  destruct oblock as [block|]; [|discriminate].
  destruct (String.eqb_spec (blk_root_hash block) (rb_rootHash (raw_block tx)))
    as [Hroot|]; [|discriminate].
  cbn [negb] in H.
  await H fullBlock s3 H3. await H minLt s4 H4. apply lift_inv in H4 as [H4 ->].
  await H all s5 H5. await H blockConfig s6 H6. await H account s7 H7.
  await H used s8 H8.
  await H prepared s9 H9. destruct prepared as [version emulate]. cbn [fst snd] in H.
  await H replayed s10 H10.
  destruct (head all) as [ourTx|] eqn:Hour; [|discriminate].
  await H txRes s11 H11.
  destruct (er_result txRes) as [payload|error] eqn:Hres; [|discriminate].
  await H acts s12 H12. apply lift_inv in H12 as [H12 ->].
  await H final s13 H13. apply lift_inv in H13 as [H13 ->].
  await H opcode s14 H14. apply lift_inv in H14 as [H14 ->].
  apply ret_inv in H as [-> ->].
  exists txs, tx, block, fullBlock, minLt, all, ourTx, blockConfig, account, used,
    version, emulate, replayed, txRes, payload, acts, final, opcode,
    s1, s2, s3, s5, s6, s7, s8, s9, s10.
  repeat split; assumption || reflexivity.
Qed.

End PipelineSteps.

Section PipelineProperties.
Context {E : Externals}.

(** The journal of a successful [retraceBaseTx], with what the report
    says about the code cells. *)
Lemma retraceBaseTx_journal_inv (testnet : bool) (baseTx : BaseTxInfo)
    (additionalLibs : list (Z * Cell)) (report : TraceResult) (st st' : St World) :
  retraceBaseTx testnet baseTx additionalLibs st = (Ok report, st') ->
  exists (fullBlock : BlockInfo) (all : list Transaction) (ourTx : Transaction)
         (account : ShardAccount) (blockConfig : string) (libs : option Cell)
         (randSeed : Buffer) (runs requests : list Event) (last : string) (minLt : Z)
         (s3 s5 s6 s7 : St World),
    findAllTransactionsBetween testnet baseTx minLt s3 = (Ok all, s5)
    /\ head all = Some ourTx
    /\ getBlockConfig testnet fullBlock s5 = (Ok blockConfig, s6)
    /\ getBlockAccount testnet (base_address baseTx) fullBlock s6 = (Ok account, s7)
    /\ em_raw (emulatedTx report) = storeTransaction_hex ourTx
    /\ st_journal st' = (runs ++ requests ++ st_journal st)%list
    /\ Forall isLibraryRequest requests
    /\ length runs = length all
    /\ ReplayTrace blockConfig libs randSeed
         (shardAccountToBase64 (clearedLastTransaction account)) (rev all) runs last
    /\ (codeCell report <> originalCodeCell report -> requests <> []).
Proof.
  intros H.
  destruct (retraceBaseTx_success_inv _ _ _ _ _ _ H)
    as (txs & tx & block & fullBlock & minLt & all & ourTx & blockConfig & account & used
        & version & emulate & replayed & txRes & payload & acts & final & opcode
        & s1 & s2 & s3 & s5 & s6 & s7 & s8 & s9 & s10
        & [H1 Htx] & [H2 Hroot] & H3 & H4 & [H5 Hour] & H6 & H7 & H8 & H9 & H10
        & [H11 Hres] & H12 & H13 & H14 & ->).
  destruct (collectUsedLibraries_requests H8) as (requests & Hreq & Hall & Hsome).
  destruct (replay_trace_loop _ _ _ _ _ _ _ H9 (rev (tail all)) _ _ _ _
              ltac:(rewrite <- emulatePreviousTransactions_loop; exact H10))
    as (events & Hevents & Htrace).
  cbn [rs_shardAccountBase64] in Htrace.
  assert (Htarget : exists event,
             st_journal st' = event :: st_journal s10
             /\ ReplayTrace blockConfig (fst used) (Buffer_fromBase64 (blk_rand_seed block))
                  (rs_shardAccountBase64 replayed) [ourTx] [event]
                  (ok_shardAccount payload)).
  { destruct (prepareEmulator_closure _ _ _ _ _ _ _ H9) as [_ Hclosure].
    rewrite Hclosure in H11.
    destruct (tx_inMessage ourTx) as [inMsg|] eqn:HinMsg; [|discriminate].
    unfold runTransaction in H11.
    destruct (sandbox_runTransaction _ (st_world s10)) as [r w].
    injection H11 as -> <-. eexists. split; [reflexivity|].
    apply (ReplayTrace_cons _ _ _ _ ourTx [] inMsg txRes payload [] _ HinMsg Hres).
    constructor. }
  destruct Htarget as (event & Hlast & Hstep).
  pose proof (ReplayTrace_app _ _ _ _ _ _ _ _ _ _ Htrace Hstep) as Hwhole.
  assert (Hall' : all = ourTx :: tail all) by (destruct all; [discriminate | injection Hour as ->; reflexivity]).
  exists fullBlock, all, ourTx, account, blockConfig, (fst used),
    (Buffer_fromBase64 (blk_rand_seed block)), ([event] ++ events)%list, requests,
    (ok_shardAccount payload), minLt, s3, s5, s6, s7.
  split; [exact H5|]. split; [exact Hour|]. split; [exact H6|]. split; [exact H7|].
  split; [reflexivity|].
  destruct (prepareEmulator_closure _ _ _ _ _ _ _ H9) as [Hj9 _].
  split.
  { rewrite Hlast, Hevents, Hj9, Hreq.
    rewrite (call_journal _ _ _ _ H7), (call_journal _ _ _ _ H6), (call_journal _ _ _ _ H5),
      (call_journal _ _ _ _ H3), (call_journal _ _ _ _ H2), (call_journal _ _ _ _ H1).
    cbn [app]. reflexivity. }
  split; [exact Hall|].
  assert (Hrev : rev all = (rev (tail all) ++ [ourTx])%list).
  { rewrite Hall' at 1. reflexivity. }
  split.
  { rewrite (ReplayTrace_length _ _ _ _ _ _ _ Hwhole), length_app, length_rev.
    rewrite Hall' at 2. cbn [length]. lia. }
  split; [rewrite Hrev; exact Hwhole|].
  cbn [codeCell originalCodeCell]. intros Hdiff.
  destruct used as [dict [resolved|]]; cbn [snd nullish] in Hdiff.
  - exact (Hsome _ _ eq_refl).
  - contradiction.
Qed.

(** X11. A report of [retraceBaseTx] rests on one engine run per
    transaction the indexer listed for the round, oldest first and the
    target last: the first run starts from the account snapshot with its
    last-transaction pointer cleared, each later run from the snapshot the
    run before returned, all with one configuration, one library
    dictionary and one seed; the snapshot and the configuration are the
    answers of [getBlockAccount] and [getBlockConfig].  Beside these runs the
    journal holds nothing but the library requests made before the first
    run. *)
Theorem retraceBaseTx_runs_the_whole_window (testnet : bool) (baseTx : BaseTxInfo)
    (additionalLibs : list (Z * Cell)) (report : TraceResult) (st st' : St World) :
  retraceBaseTx testnet baseTx additionalLibs st = (Ok report, st') ->
  exists (fullBlock : BlockInfo) (all : list Transaction) (ourTx : Transaction)
         (account : ShardAccount) (blockConfig : string) (libs : option Cell)
         (randSeed : Buffer) (runs requests : list Event) (last : string) (minLt : Z)
         (s3 s5 s6 s7 : St World),
    findAllTransactionsBetween testnet baseTx minLt s3 = (Ok all, s5)
    /\ head all = Some ourTx
    /\ getBlockConfig testnet fullBlock s5 = (Ok blockConfig, s6)
    /\ getBlockAccount testnet (base_address baseTx) fullBlock s6 = (Ok account, s7)
    /\ em_raw (emulatedTx report) = storeTransaction_hex ourTx
    /\ st_journal st' = (runs ++ requests ++ st_journal st)%list
    /\ Forall isLibraryRequest requests
    /\ length runs = length all
    /\ ReplayTrace blockConfig libs randSeed
         (shardAccountToBase64 (clearedLastTransaction account)) (rev all) runs last.
Proof.
  intros H.
  destruct (retraceBaseTx_journal_inv _ _ _ _ _ _ H)
    as (fullBlock & all & ourTx & account & blockConfig & libs & randSeed & runs & requests
        & last & minLt & s3 & s5 & s6 & s7 & H5 & Hour & H6 & H7 & Hraw & Hj & Hreq & Hlen
        & Htrace & _).
  exists fullBlock, all, ourTx, account, blockConfig, libs, randSeed, runs, requests, last,
    minLt, s3, s5, s6, s7.
  auto 12.
Qed.

Lemma countLibraryRequests_app (a b : list Event) :
  countLibraryRequests (a ++ b) = (countLibraryRequests a + countLibraryRequests b)%nat.
Proof. unfold countLibraryRequests. rewrite filter_app, length_app. reflexivity. Qed.

Lemma countLibraryRequests_all (requests : list Event) :
  Forall isLibraryRequest requests -> countLibraryRequests requests = length requests.
Proof.
  unfold countLibraryRequests. induction 1 as [|e l He _ IH]; [reflexivity|].
  rewrite filter_cons_True by exact He. cbn [length]. rewrite IH. reflexivity.
Qed.

(** X12. The report's [codeCell] differs from its [originalCodeCell] only
    when a library was requested during the run: with no new library
    request in the journal the two are the same cell. *)
Theorem codeCell_differs_only_after_a_library_request (testnet : bool)
    (baseTx : BaseTxInfo) (additionalLibs : list (Z * Cell)) (report : TraceResult)
    (st st' : St World) :
  retraceBaseTx testnet baseTx additionalLibs st = (Ok report, st') ->
  codeCell report <> originalCodeCell report ->
  (countLibraryRequests (st_journal st) < countLibraryRequests (st_journal st'))%nat.
Proof.
  intros H Hdiff.
  destruct (retraceBaseTx_journal_inv _ _ _ _ _ _ H)
    as (fullBlock & all & ourTx & account & blockConfig & libs & randSeed & runs & requests
        & last & minLt & s3 & s5 & s6 & s7 & _ & _ & _ & _ & _ & Hj & Hreq & _ & _ & Hne).
  rewrite Hj, !countLibraryRequests_app, (countLibraryRequests_all _ Hreq).
  specialize (Hne Hdiff). destruct requests; [contradiction|]. cbn [length]. lia.
Qed.

End PipelineProperties.

(** ** The two runners *)

Section Runners.
Context {E : Externals}.






(** The stack-cell classifier changes the state only by its request. *)
Lemma tryLoadAsLibrary_undefined_keeps_state (testnet : bool) (boc : string)
    (st st' : St World) :
  tryLoadAsLibrary boc testnet st = (Ok None, st') -> st' = st.
Proof.
  intros H. destruct (Cell_fromHex boc) as [c|e] eqn:Hhex.
  - rewrite (tryLoadAsLibrary_classify testnet boc c st Hhex) in H.
    destruct (classifyFragment c) as [h|].
    + unfold bind, ret in H.
      destruct (getLibraryByHash testnet (fragmentName h) st) as [[code|e] st1];
        discriminate.
    + injection H as <-. reflexivity.
  - unfold tryLoadAsLibrary, bind, lift in H. rewrite Hhex in H. discriminate.
Qed.

(** The stack-cell classifier adds nothing but library requests to the
    journal. *)
Lemma tryLoadAsLibrary_requests {testnet : bool} {boc : string} {st st' : St World}
    {r : Res (option (string * Cell))} :
  tryLoadAsLibrary boc testnet st = (r, st') ->
  exists requests : list Event,
    st_journal st' = (requests ++ st_journal st)%list /\ Forall isLibraryRequest requests.
Proof.
  intros H. destruct (Cell_fromHex boc) as [c|e] eqn:Hhex.
  - rewrite (tryLoadAsLibrary_classify testnet boc c st Hhex) in H.
    destruct (classifyFragment c) as [h|].
    + unfold bind in H.
      destruct (getLibraryByHash testnet (fragmentName h) st) as [[code|e] st1] eqn:Hget;
        destruct (getLibraryByHash_requests Hget) as (requests & Hj & Hall & _);
        [unfold ret in H|]; injection H as _ <-; exists requests; auto.
    + injection H as _ <-. exists []. split; [reflexivity | constructor].
  - unfold tryLoadAsLibrary, bind, lift in H. rewrite Hhex in H.
    injection H as _ <-. exists []. split; [reflexivity | constructor].
Qed.

(** X14. Whatever the number of retries, a report returned by [retrace] is
    the report the pipeline [retraceBaseTx] returned on its last round, for
    the given additional libraries followed by the ones the retries added,
    one per retry: each is the code a provider answered for the library
    cell on top of the dumped stack, under the key its hash spells.  The
    state is the one that round left; the round started from the initial
    state when nothing was added, and in any case from a state whose journal
    extends the initial one. *)
Theorem retrace_report_is_a_pipeline_report (fuel : nat) (testnet : bool)
    (txLink : string) (additionalLibs : list (Z * Cell)) (report : TraceResult)
    (st st' : St World) :
  retrace fuel testnet txLink additionalLibs st = (Ok report, st') ->
  exists (added : list (Z * Cell)) (baseTx : BaseTxInfo) (st0 st1 : St World)
         (earlier : list Event),
    (length added < fuel)%nat
    /\ Forall (addedByRetry testnet) added
    /\ (added = [] -> st0 = st)
    /\ st_journal st0 = (earlier ++ st_journal st)%list
    /\ findBaseTxByHash testnet txLink st0 = (Ok (Some baseTx), st1)
    /\ retraceBaseTx testnet baseTx (additionalLibs ++ added)%list st1 = (Ok report, st').
Proof.
  revert additionalLibs st.
  induction fuel as [|fuel IH]; intros additionalLibs st H; [discriminate|].
  cbn [retrace] in H.
  await H obase st1 Hbase. destruct obase as [baseTx|]; [|discriminate].
  await H result st2 Hinner.
  assert (Hdone : forall s, ret result st2 = (Ok report, s) ->
            exists added baseTx0 st0 st1' earlier,
              (length added < S fuel)%nat
              /\ Forall (addedByRetry testnet) added
              /\ (added = [] -> st0 = st)
              /\ st_journal st0 = (earlier ++ st_journal st)%list
              /\ findBaseTxByHash testnet txLink st0 = (Ok (Some baseTx0), st1')
              /\ retraceBaseTx testnet baseTx0 (additionalLibs ++ added)%list st1'
                 = (Ok report, s)).
  { intros s Hret. apply ret_inv in Hret as [-> ->].
    exists [], baseTx, st, st1, []. rewrite app_nil_r. cbn [length].
    split; [lia|]. split; [constructor|]. auto. }
  destruct (em_computeInfo (emulatedTx result)) as [|info]; [exact (Hdone _ H)|].
  destruct (ci_exitCode info =? 0); [exact (Hdone _ H)|].
  destruct (ci_exitCode info =? 9); [|exact (Hdone _ H)].
  destruct (at_neg _ 2) as [[| | |errno1|]|]; try exact (Hdone _ H).
  destruct (at_neg _ 3) as [[| |errno2 message| |]|]; try exact (Hdone _ H).
  destruct (at_neg _ 4) as [[|instr| | |]|]; try exact (Hdone _ H).
  destruct (at_neg _ 6) as [[stack| | | |]|]; try exact (Hdone _ H).
  destruct (_ && _); [|exact (Hdone _ H)].
  destruct (at_neg stack 1) as [[boc|tag]|]; try exact (Hdone _ H).
  await H libraryResult st3 Hload.
  destruct libraryResult as [[libHashHex actualCode]|].
  - await H key st4 Hkey. apply lift_inv in Hkey as [Hkey ->].
    destruct (IH _ _ H)
      as (added & baseTx0 & st0 & st1' & earlier & Hlen & Hadded & _ & Hj & Hbase0 & Hrun).
    destruct (retraceBaseTx_journal_inv _ _ _ _ _ _ Hinner)
      as (_ & _ & _ & _ & _ & _ & _ & runs & requests & _ & _ & _ & _ & _ & _ & _ & _ & _
          & _ & _ & Hj2 & _).
    destruct (tryLoadAsLibrary_requests Hload) as (loads & Hj3 & _).
    exists ((key, actualCode) :: added), baseTx0, st0, st1',
      (earlier ++ loads ++ runs ++ requests)%list.
    cbn [length]. split; [lia|]. split.
    { constructor; [|exact Hadded]. exists boc, libHashHex, st2, st3. auto. }
    split; [discriminate|]. split.
    + rewrite Hj, Hj3, Hj2, (call_journal _ _ _ _ Hbase).
      rewrite <- !app_assoc. reflexivity.
    + split; [exact Hbase0|]. rewrite <- app_assoc in Hrun. exact Hrun.
  - apply tryLoadAsLibrary_undefined_keeps_state in Hload as ->. exact (Hdone _ H).
Qed.

(** X15. A mismatch between the root hash of the located shard block and
    the one recorded with the transaction is fatal: [retrace] throws the
    mismatch, with both hashes in the message, on its first round; no
    library has been requested and the engine has not been asked. *)
Theorem retrace_root_hash_mismatch_is_fatal (fuel : nat) (testnet : bool) (txLink : string)
    (additionalLibs : list (Z * Cell)) (baseTx : BaseTxInfo) (txs : list RawTransaction)
    (tx : RawTransaction) (block : Block) (st st0 st1 st2 : St World) :
  findBaseTxByHash testnet txLink st = (Ok (Some baseTx), st0) ->
  findRawTxByHash testnet baseTx st0 = (Ok txs, st1) ->
  head txs = Some tx ->
  findShardBlockForTx testnet tx st1 = (Ok (Some block), st2) ->
  blk_root_hash block <> rb_rootHash (raw_block tx) ->
  retrace (S fuel) testnet txLink additionalLibs st
  = (Throw ("root_hash mismatch in mc_seqno getter: " +:+ rb_rootHash (raw_block tx)
            +:+ " != " +:+ blk_root_hash block), st2)
  /\ st_journal st2 = st_journal st.
Proof.
  intros Hbase H1 Htx H2 Hroot. split.
  - cbn [retrace]. replay Hbase. unfold bind at 1. unfold retraceBaseTx.
    replay H1. rewrite Htx. replay H2.
    apply String.eqb_neq in Hroot. rewrite Hroot. reflexivity.
  - rewrite (call_journal _ _ _ _ H2), (call_journal _ _ _ _ H1),
      (call_journal _ _ _ _ Hbase). reflexivity.
Qed.

End Runners.

(** ** Where the pure functions throw *)

(** X16. [txOpcode] throws in two cases and no other: the body of the
    in-message is an exotic cell, or the in-message is bounced and its body
    has fewer than 32 bits. *)
Theorem txOpcode_throws_exactly_when (tx : Transaction) :
  (exists e, txOpcode tx = Throw e)
  <-> exists m : Message,
        tx_inMessage tx = Some m
        /\ (cell_isExotic (msg_body m) = true
            \/ (isBouncedMessage m = true /\ (length (cell_bits (msg_body m)) < 32)%nat)).
Proof.
  destruct (tx_inMessage tx) as [m|] eqn:Hm.
  - destruct (cell_isExotic (msg_body m)) eqn:Hex.
    + split; [intros _; exists m; auto|]. intros _.
      unfold txOpcode. rewrite Hm. unfold asSlice, beginParse. rewrite Hex.
      cbn. eauto.
    + destruct (isBouncedMessage m) eqn:Hb.
      * destruct (le_lt_dec 32 (length (cell_bits (msg_body m)))) as [Hlen|Hlen].
        -- rewrite (txOpcode_bounced tx m Hm Hb Hex Hlen). split.
           ++ intros [e He]. discriminate.
           ++ intros (m' & [= <-] & [Hex'|[_ Hshort]]); [congruence | lia].
        -- split; [intros _; exists m; auto|]. intros _.
           apply (txOpcode_bounced_short_throws tx m Hm Hb Hex Hlen).
      * rewrite (txOpcode_not_bounced tx m Hm Hb Hex). split.
        -- intros [e He]. discriminate.
        -- intros (m' & [= <-] & [Hex'|[Hb' _]]); congruence.
  - rewrite (txOpcode_no_inMessage tx Hm). split.
    + intros [e He]. discriminate.
    + intros (m & Hm' & _). discriminate.
Qed.

Section MinLtErrors.
Context {E : Externals}.

(** Where the scan of [computeMinLt] stops. *)
Lemma computeMinLt_scan_throws (addrStr : string) (entries : list ShardTransaction)
    (m0 : Z) (e : JsError) :
  for_of_res entries
    (fun txInBlock minLt =>
       if String.eqb (stx_account txInBlock) addrStr
       then
         let? lt := BigInt (stx_lt txInBlock) in
         if lt <? minLt then BigInt (stx_lt txInBlock) else Ok minLt
       else Ok minLt) m0
  = Throw e
  <-> exists (before : list ShardTransaction) (t : ShardTransaction)
             (after : list ShardTransaction),
        filter (fun t => stx_account t = addrStr) entries = (before ++ t :: after)%list
        /\ Forall (fun t => exists lt, BigInt (stx_lt t) = Ok lt) before
        /\ BigInt (stx_lt t) = Throw e.
Proof.
  revert m0. induction entries as [|t entries IH]; intros m0.
  - cbn [for_of_res]. rewrite filter_nil. split; [discriminate|].
    intros (before & t & after & Heq & _). destruct before; discriminate.
  - cbn [for_of_res]. destruct (String.eqb_spec (stx_account t) addrStr) as [Heq|Hne].
    + rewrite filter_cons_True by exact Heq.
      destruct (BigInt (stx_lt t)) as [lt|e'] eqn:Hlt; cbn [res_bind].
      * assert (Hstep : exists m1,
                  (if lt <? m0 then Ok lt else Ok m0) = Ok m1).
        { destruct (lt <? m0); eauto. }
        destruct Hstep as [m1 ->]. cbn [res_bind]. rewrite IH. split.
        -- intros (before & t' & after & Hf & Hall & Ht').
           exists (t :: before), t', after. rewrite Hf. split; [reflexivity|].
           split; [constructor; eauto | exact Ht'].
        -- intros (before & t' & after & Hf & Hall & Ht').
           destruct before as [|b before].
           ++ injection Hf as -> _. congruence.
           ++ injection Hf as <- Hf. inversion Hall; subst.
              exists before, t', after. auto.
      * split.
        -- intros [= <-]. exists [], t, (filter (fun t => stx_account t = addrStr) entries).
           split; [reflexivity|]. split; [constructor | exact Hlt].
        -- intros (before & t' & after & Hf & Hall & Ht').
           destruct before as [|b before].
           ++ injection Hf as -> _. congruence.
           ++ injection Hf as <- Hf. inversion Hall as [|? ? [lt Hok] ?]; subst. congruence.
    + rewrite filter_cons_False by exact Hne. cbn [res_bind]. apply IH.
Qed.

(** X17. [computeMinLt] throws exactly when the logical time of one of
    the account's entries cannot be read as an integer; the error is that of
    the first such entry in the order of the shard summaries.  Entries of
    other accounts are not read. *)
Theorem computeMinLt_throws_exactly_when (tx : Transaction) (address : Address)
    (block : BlockInfo) (e : JsError) :
  computeMinLt tx address block = Throw e
  <-> exists (before : list ShardTransaction) (t : ShardTransaction)
             (after : list ShardTransaction),
        accountEntries (Address_toString address) block = (before ++ t :: after)%list
        /\ Forall (fun t => exists lt, BigInt (stx_lt t) = Ok lt) before
        /\ BigInt (stx_lt t) = Throw e.
Proof.
  unfold computeMinLt, accountEntries. rewrite for_of_res_concat.
  apply computeMinLt_scan_throws.
Qed.

End MinLtErrors.

(** ** The in-message of a report *)

Section InMessage.
Context {E : Externals}.

(** X4. The in-message summary of [computeFinalData] never holds an
    external address: the in-message of the emulated transaction is either
    internal, and sender, contract and amount are its source, destination
    and value, or external-in without a source, and sender and amount are
    both undefined.  The balance after is 0 when the resulting shard account
    holds no account. *)
Theorem computeFinalData_in_message (res : EmulationResultSuccess) (balanceBefore : Z)
    (out : FinalData) :
  computeFinalData res balanceBefore = Ok out ->
  exists (sa : ShardAccount) (m : Message),
    decodeShardAccount (ok_shardAccount res) = Ok sa
    /\ tx_inMessage (fd_emulatedTx out) = Some m
    /\ ((exists i, msg_info m = InfoInternal i
                   /\ fd_sender out = Some (int_src i)
                   /\ fd_contract out = int_dest i
                   /\ fd_amount out = Some (coins (int_value i)))
        \/ (exists i, msg_info m = InfoExternalIn i
                      /\ extin_src i = None
                      /\ fd_sender out = None
                      /\ fd_contract out = extin_dest i
                      /\ fd_amount out = None))
    /\ (sa_account sa = None -> balanceAfter (fd_money out) = 0)
    /\ (forall a, sa_account sa = Some a ->
          balanceAfter (fd_money out) = coins (as_balance (acc_storage a))).
Proof.
  unfold computeFinalData. intros H.
  destruct (decodeShardAccount (ok_shardAccount res)) as [sa|] eqn:Hsa; [|discriminate].
  destruct (decodeTransaction (ok_transaction res)) as [emTx|] eqn:Htx; [|discriminate].
  cbn [res_bind] in H.
  destruct (tx_inMessage emTx) as [m|] eqn:Hm; [|discriminate].
  destruct (checkedEndpoints (msg_info m)) as [[src dest]|] eqn:Hends; [|discriminate].
  cbn [res_bind fst snd] in H.
  destruct (tx_description emTx) as [g|]; [|discriminate].
  injection H as <-. exists sa, m. cbn.
  split; [reflexivity|]. split; [exact Hm|]. split.
  - unfold checkedEndpoints in Hends. destruct (msg_info m) as [i|i|i].
    + injection Hends as <- <-. left. exists i. auto.
    + destruct (extin_src i) eqn:Hsrc; [discriminate|].
      injection Hends as <- <-. right. exists i. auto.
    + discriminate.
  - unfold balanceOf. split.
    + intros ->. reflexivity.
    + intros a ->. reflexivity.
Qed.

End InMessage.

(** ** The key of a library *)

Lemma bitsToZ_acc (bs : list bool) (acc : Z) :
  fold_left (fun a (b : bool) => 2 * a + (if b then 1 else 0)) bs acc
  = acc * 2 ^ Z.of_nat (length bs) + bitsToZ bs.
Proof.
  unfold bitsToZ. revert acc. induction bs as [|b bs IH]; intros acc.
  - cbn. lia.
  - cbn [fold_left length]. rewrite IH, (IH (2 * 0 + _)).
    rewrite Nat2Z.inj_succ, Z.pow_succ_r by lia. lia.
Qed.

Lemma bitsToZ_range (bs : list bool) : 0 <= bitsToZ bs < 2 ^ Z.of_nat (length bs).
Proof.
  induction bs as [|b bs IH] using rev_ind.
  - cbn. lia.
  - unfold bitsToZ in *. rewrite fold_left_app, length_app. cbn [fold_left length].
    rewrite Nat2Z.inj_add, Z.pow_add_r by lia. change (2 ^ Z.of_nat 1) with 2.
    destruct b; lia.
Qed.

Lemma bitsToZ_app (l1 l2 : list bool) :
  bitsToZ (l1 ++ l2) = bitsToZ l1 * 2 ^ Z.of_nat (length l2) + bitsToZ l2.
Proof. unfold bitsToZ at 1. rewrite fold_left_app. apply bitsToZ_acc. Qed.

Lemma bytesToZ_acc (b : Buffer) (acc : Z) :
  fold_left (fun a byte => 256 * a + byte) b acc
  = acc * 256 ^ Z.of_nat (length b) + bytesToZ b.
Proof.
  unfold bytesToZ. revert acc. induction b as [|x b IH]; intros acc.
  - cbn. lia.
  - cbn [fold_left length]. rewrite IH, (IH (256 * 0 + _)).
    rewrite Nat2Z.inj_succ, Z.pow_succ_r by lia. lia.
Qed.

(** The bytes a slice reads spell the same number as the bits they cover. *)
Lemma bytesToZ_bytes (bs : list bool) (from k : nat) :
  (from + 8 * k <= length bs)%nat ->
  bytesToZ (map (byteAt bs from) (seq 0 k)) = bitsToZ (take (8 * k) (drop from bs)).
Proof.
  revert from. induction k as [|k IH]; intros from Hlen.
  - reflexivity.
  - cbn [seq map]. unfold bytesToZ. cbn [fold_left].
    rewrite bytesToZ_acc, length_map, length_seq.
    rewrite <- seq_shift, map_map.
    rewrite (map_ext (fun i => byteAt bs from (S i)) (byteAt bs (from + 8))).
    2:{ intros i. unfold byteAt. do 3 f_equal. lia. }
    rewrite (IH (from + 8)%nat) by lia.
    replace (8 * S k)%nat with (8 + 8 * k)%nat by lia.
    rewrite <- (take_drop 8 (take (8 + 8 * k) (drop from bs))).
    rewrite take_take, Nat.min_l by lia.
    rewrite bitsToZ_app.
    assert (Hd : drop 8 (take (8 + 8 * k) (drop from bs)) = take (8 * k) (drop (from + 8) bs)).
    { rewrite <- (drop_drop bs 8 from). generalize (drop from bs) as l. intros l.
      rewrite skipn_firstn_comm. f_equal. lia. }
    rewrite Hd. rewrite length_take, length_drop, Nat.min_l by lia.
    unfold byteAt. rewrite Nat.mul_0_r, Nat.add_0_r.
    replace (256 ^ Z.of_nat k) with (2 ^ Z.of_nat (8 * k)).
    2:{ rewrite Nat2Z.inj_mul, Z.pow_mul_r by lia. reflexivity. }
    lia.
Qed.

Lemma byteAt_range (bs : list bool) (from k : nat) : 0 <= byteAt bs from k < 256.
Proof.
  unfold byteAt. pose proof (bitsToZ_range (take 8 (drop (from + 8 * k) bs))) as H.
  assert (Hl : (length (take 8 (drop (from + 8 * k) bs)) <= 8)%nat).
  { rewrite length_take. lia. }
  assert (2 ^ Z.of_nat (length (take 8 (drop (from + 8 * k) bs))) <= 2 ^ 8).
  { apply Z.pow_le_mono_r; lia. }
  lia.
Qed.

(** A hexadecimal digit reads back, in lower and in upper case. *)
Lemma digitValue_hexDigit (d : Z) :
  0 <= d < 16 ->
  digitValue (hexDigit d) = Some d /\ digitValue (ascii_toUpperCase (hexDigit d)) = Some d.
Proof.
  intros Hd.
  assert (Hcases : d = 0 \/ d = 1 \/ d = 2 \/ d = 3 \/ d = 4 \/ d = 5 \/ d = 6 \/ d = 7
                   \/ d = 8 \/ d = 9 \/ d = 10 \/ d = 11 \/ d = 12 \/ d = 13 \/ d = 14
                   \/ d = 15) by lia.
  repeat (destruct Hcases as [->|Hcases]; [split; reflexivity|]).
  subst. split; reflexivity.
Qed.

(** Reading back the hexadecimal text of a buffer, in either case. *)
Lemma parseDigits_toHex (b : Buffer) (acc : Z) :
  Forall (fun byte => 0 <= byte < 256) b ->
  parseDigits 16 (Buffer_toHex b) acc = Ok (fold_left (fun a byte => 256 * a + byte) b acc)
  /\ parseDigits 16 (toUpperCase (Buffer_toHex b)) acc
     = Ok (fold_left (fun a byte => 256 * a + byte) b acc).
Proof.
  intros Hall. revert acc. induction Hall as [|byte b Hbyte Hall IH]; intros acc.
  - split; reflexivity.
  - cbn [Buffer_toHex toUpperCase parseDigits fold_left].
    assert (Hhi : 0 <= byte / 16 < 16).
    { split; [apply Z.div_pos; lia | apply Z.div_lt_upper_bound; lia]. }
    assert (Hlo : 0 <= byte mod 16 < 16) by (apply Z.mod_pos_bound; lia).
    destruct (digitValue_hexDigit _ Hhi) as [-> ->].
    destruct (digitValue_hexDigit _ Hlo) as [-> ->].
    destruct (Z.ltb_spec (byte / 16) 16) as [_|?]; [|lia].
    destruct (Z.ltb_spec (byte mod 16) 16) as [_|?]; [|lia].
    replace (16 * (16 * acc + byte / 16) + byte mod 16) with (256 * acc + byte).
    2:{ pose proof (Z.div_mod byte 16). lia. }
    apply IH.
Qed.

(** [BigInt] of the 0x-prefixed hexadecimal text of a buffer that is not
    empty, in a runtime that reads hexadecimal numerals. *)
Lemma BigInt_hex_of_buffer {E : Externals} (b : Buffer) :
  readsHexNumerals E ->
  b <> [] ->
  Forall (fun byte => 0 <= byte < 256) b ->
  BigInt ("0x" +:+ Buffer_toHex b) = Ok (bytesToZ b)
  /\ BigInt ("0x" +:+ toUpperCase (Buffer_toHex b)) = Ok (bytesToZ b).
Proof.
  intros Hhex Hne Hall. destruct (parseDigits_toHex b 0 Hall) as [Hlow Hup].
  destruct b as [|byte b]; [contradiction|].
  split; apply Hhex; try assumption; cbn [Buffer_toHex toUpperCase]; discriminate.
Qed.

(** The two runtimes of the small worlds read hexadecimal numerals. *)
Lemma numeralBigInt_reads_hex (digits : string) (n : Z) :
  digits <> EmptyString ->
  parseDigits 16 digits 0 = Ok n ->
  numeralBigInt ("0x" +:+ digits) = Ok n.
Proof.
  intros Hne Hparse. destruct digits as [|c rest]; [contradiction|]. exact Hparse.
Qed.

Lemma demoExternals_reads_hex : readsHexNumerals demoExternals.
Proof. intros digits n Hne Hparse. apply numeralBigInt_reads_hex; assumption. Qed.

Lemma signedExternals_reads_hex : readsHexNumerals signedExternals.
Proof. intros digits n Hne Hparse. apply numeralBigInt_reads_hex; assumption. Qed.

Section LibraryKey.
Context {E : Externals}.

(** X19. In a runtime whose [BigInt] reads the numerals made of [0x] and
    hexadecimal digits (nothing is assumed on other texts), the key
    under which the scanner files the code of a library fragment is the 256
    bits of the hash read as one unsigned number; the code is found under
    that key, and the entries filed before are kept unless they had that
    key. *)
Theorem library_key_is_the_hash (testnet : bool) (libs libs' : gmap Z Cell) (c code : Cell)
    (st st' : St World) :
  readsHexNumerals E ->
  addMaybeExoticLibrary testnet libs (Some c) st = (Ok (libs', Some code), st') ->
  let key := bitsToZ (take 256 (drop 8 (cell_bits c))) in
  0 <= key < 2 ^ 256
  /\ libs' = <[key := code]> libs
  /\ libs' !! key = Some code
  /\ (forall k, k <> key -> libs' !! k = libs !! k).
Proof.
  intros Hhex H key.
  assert (Hrange : 0 <= key < 2 ^ 256).
  { subst key. pose proof (bitsToZ_range (take 256 (drop 8 (cell_bits c)))) as Hr.
    assert (Hl : (length (take 256 (drop 8 (cell_bits c))) <= 256)%nat).
    { rewrite length_take. lia. }
    assert (2 ^ Z.of_nat (length (take 256 (drop 8 (cell_bits c)))) <= 2 ^ 256).
    { apply Z.pow_le_mono_r; lia. }
    lia. }
  split; [exact Hrange|].
  rewrite addMaybeExoticLibrary_classify in H.
  destruct (classifyFragment c) as [h|] eqn:Hc; [|discriminate].
  apply classifyFragment_spec in Hc as (Hlen & _ & ->).
  await H actual st1 Hget. await H k st2 Hkey. apply lift_inv in Hkey as [Hkey ->].
  apply ret_inv in H as [[= Hlibs Hcode] _]. subst libs' actual.
  unfold fragmentName in Hkey.
  destruct (BigInt_hex_of_buffer (map (byteAt (cell_bits c) 8) (seq 0 32)) Hhex)
    as [_ Hup].
  { discriminate. }
  { apply Forall_forall. intros byte Hin. apply list_elem_of_In, in_map_iff in Hin.
    destruct Hin as (i & <- & _). apply byteAt_range. }
  rewrite Hup in Hkey.
  assert (Hk : k = key).
  { unfold key. change 256%nat with (8 * 32)%nat.
    rewrite <- (bytesToZ_bytes (cell_bits c) 8 32) by lia. congruence. }
  rewrite Hk.
  split; [reflexivity|]. split.
  - apply lookup_insert_eq.
  - intros k' Hne. apply lookup_insert_ne. congruence.
Qed.

End LibraryKey.

(** ** The requests, one level down *)

(** Reading back what [toString(16)] prints. *)
Lemma parseDigits_hexDigitsOf (fuel : nat) (n : Z) (s : string) :
  0 <= n < 16 ^ Z.of_nat fuel ->
  parseDigits 16 (hexDigitsOf fuel n s) 0 = parseDigits 16 s n.
Proof.
  revert n s. induction fuel as [|fuel IH]; intros n s Hn.
  - cbn in Hn. replace n with 0 by lia. reflexivity.
  - cbn [hexDigitsOf]. destruct (Z.ltb_spec n 16) as [Hlt|Hge].
    + cbn [parseDigits]. destruct (digitValue_hexDigit n) as [-> _]; [lia|].
      destruct (Z.ltb_spec n 16) as [_|?]; [|lia].
      replace (16 * 0 + n) with n by lia. reflexivity.
    + rewrite IH.
      * cbn [parseDigits].
        assert (Hlo : 0 <= n mod 16 < 16) by (apply Z.mod_pos_bound; lia).
        destruct (digitValue_hexDigit _ Hlo) as [-> _].
        destruct (Z.ltb_spec (n mod 16) 16) as [_|?]; [|lia].
        replace (16 * (n / 16) + n mod 16) with n by (pose proof (Z.div_mod n 16); lia).
        reflexivity.
      * rewrite Nat2Z.inj_succ, Z.pow_succ_r in Hn by lia.
        split; [apply Z.div_pos; lia | apply Z.div_lt_upper_bound; lia].
Qed.

Lemma hexDigitsOf_nonempty (fuel : nat) (n : Z) (c : ascii) (s : string) :
  exists c' s', hexDigitsOf fuel n (String c s) = String c' s'.
Proof.
  revert n c s. induction fuel as [|fuel IH]; intros n c s; cbn [hexDigitsOf]; [eauto|].
  destruct (n <? 16); [eauto | apply IH].
Qed.

(** What [n.toString(16)] prints, for [n] not negative, is not empty and
    spells [n]. *)
Lemma parseDigits_toString16 (n : Z) :
  0 <= n ->
  BigInt_toString16 n <> EmptyString
  /\ parseDigits 16 (BigInt_toString16 n) 0 = Ok n.
Proof.
  intros Hn. unfold BigInt_toString16.
  destruct (Z.ltb_spec n 0) as [?|_]; [lia|].
  assert (Hfuel : 0 <= n < 16 ^ Z.of_nat (S (Z.to_nat (Z.log2 n)))).
  { split; [exact Hn|]. rewrite Nat2Z.inj_succ, Z2Nat.id by apply Z.log2_nonneg.
    destruct (Z.eq_dec n 0) as [->|Hpos]; [reflexivity|].
    pose proof (Z.log2_spec n ltac:(lia)) as [_ Hup].
    assert (2 ^ Z.succ (Z.log2 n) <= 16 ^ Z.succ (Z.log2 n)).
    { apply Z.pow_le_mono_l. lia. }
    lia. }
  pose proof (parseDigits_hexDigitsOf _ n "" Hfuel) as Hparse.
  assert (Hne : exists c' s', hexDigitsOf (S (Z.to_nat (Z.log2 n))) n "" = String c' s').
  { cbn [hexDigitsOf]. destruct (n <? 16); [eauto | apply hexDigitsOf_nonempty]. }
  destruct Hne as (c' & s' & Heq). rewrite Heq in *.
  split; [discriminate | exact Hparse].
Qed.

Section RequestsOneLevelDown.
Context {E : Externals} {C : Requests.Clients}.

(** X20. In a runtime whose [BigInt] reads the numerals made of [0x] and
    hexadecimal digits, [base64ToBigint] answers the decoded bytes read as
    one unsigned number, most significant byte first.  On a text that
    decodes to no byte at all, the empty text for one, its answer is that of
    [BigInt] on the bare prefix [0x], which JavaScript refuses: whatever
    that error is, it is the error of [base64ToBigint]. *)
Theorem base64ToBigint_reads_the_bytes (b64 : string) :
  readsHexNumerals E ->
  Forall (fun byte => 0 <= byte < 256) (Buffer_fromBase64 b64) ->
  (Buffer_fromBase64 b64 <> [] ->
   Requests.base64ToBigint b64 = Ok (bytesToZ (Buffer_fromBase64 b64)))
  /\ (Buffer_fromBase64 b64 = [] ->
      Requests.base64ToBigint b64 = BigInt "0x"
      /\ forall e : JsError, BigInt "0x" = Throw e -> Requests.base64ToBigint b64 = Throw e).
Proof.
  intros Hhex Hbytes. unfold Requests.base64ToBigint. split.
  - intros Hne. apply BigInt_hex_of_buffer; assumption.
  - intros ->. cbn [Buffer_toHex]. split; [reflexivity | intros e He; exact He].
Qed.

(** X21. A shard account built from an API record always holds an account,
    at the given address; the logical time of the last transaction is the
    same in its storage and beside it; balance, state and last transaction
    are the record's, converted; without a last transaction both the logical
    time and the hash are 0. *)
Theorem createShardAccountFromAPI_shape (apiAccount : Requests.AccountFromAPI)
    (address : Address) (sa : ShardAccount) :
  Requests.createShardAccountFromAPI apiAccount address = Ok sa ->
  exists a : Account,
    sa_account sa = Some a
    /\ acc_addr a = address
    /\ as_lastTransLt (acc_storage a) = sa_lastTransactionLt sa
    /\ BigInt (Requests.api_coins apiAccount) = Ok (coins (as_balance (acc_storage a)))
    /\ Requests.normalizeStateFromAPI (Requests.api_state apiAccount)
       = Ok (as_state (acc_storage a))
    /\ match Requests.api_last apiAccount with
       | None => sa_lastTransactionLt sa = 0 /\ sa_lastTransactionHash sa = 0
       | Some last =>
           BigInt (Requests.last_lt last) = Ok (sa_lastTransactionLt sa)
           /\ Requests.base64ToBigint (Requests.last_hash last)
              = Ok (sa_lastTransactionHash sa)
       end.
Proof.
  unfold Requests.createShardAccountFromAPI. intros H.
  destruct (Requests.api_last apiAccount) as [last|].
  - destruct (BigInt (Requests.last_lt last)) as [lt|] eqn:Hlt; [|discriminate].
    cbn [res_bind] in H.
    destruct (BigInt (Requests.api_coins apiAccount)) as [balance|]; [|discriminate].
    cbn [res_bind] in H.
    destruct (Requests.normalizeStateFromAPI _) as [state|]; [|discriminate].
    cbn [res_bind] in H.
    destruct (match Requests.api_storageStat apiAccount with Some _ => _ | None => _ end)
      as [due|]; [|discriminate].
    cbn [res_bind] in H.
    destruct (Requests.base64ToBigint _) as [hash|]; [|discriminate].
    injection H as <-. eexists. cbn. auto 10.
  - cbn [res_bind] in H.
    destruct (BigInt (Requests.api_coins apiAccount)) as [balance|]; [|discriminate].
    cbn [res_bind] in H.
    destruct (Requests.normalizeStateFromAPI _) as [state|]; [|discriminate].
    cbn [res_bind] in H.
    destruct (match Requests.api_storageStat apiAccount with Some _ => _ | None => _ end)
      as [due|]; [|discriminate].
    injection H as <-. eexists. cbn. auto 10.
Qed.

(** X22. [getBlockAccount] asks the v4 client for the account at the block
    before the first shard entry's.  When the answer arrives and converts,
    that is the result, and nothing else is requested.  When the client
    throws, and also when its answer does not convert, the account is
    requested once more by its path, for the same block, and the result is
    that answer converted, or the error of that second attempt. *)
Theorem getBlockAccount_falls_back (testnet : bool) (address : Address) (block : BlockInfo)
    (shard : ShardInfo) (rest : list ShardInfo) (st : St World)
    (answer : Res Requests.AccountFromAPI) (w1 : World) :
  shards block = shard :: rest ->
  Requests.clientV4_getAccount (Requests.createTonClient4 testnet)
    (shard_seqno shard - 1) address (st_world st) = (answer, w1) ->
  Requests.getBlockAccount testnet address block st
  = match (let? res := answer in Requests.createShardAccountFromAPI res address) with
    | Ok account => (Ok account, mkSt w1 (st_journal st))
    | Throw _ =>
        let path := Requests.createTonClient4 testnet +:+ "/block/"
                    +:+ Z_toString (shard_seqno shard - 1) +:+ "/"
                    +:+ Requests.Address_toString_urlSafe address in
        let '(second, w2) := Requests.axios_get_account path w1 in
        (let? res := second in Requests.createShardAccountFromAPI res address,
         mkSt w2 (st_journal st))
    end.
Proof.
  intros Hshards Hfirst.
  unfold Requests.getBlockAccount, Requests.firstShardSeqno. rewrite Hshards.
  unfold bind at 1. unfold lift at 1. unfold try_catch.
  unfold bind at 1. unfold call at 1. rewrite Hfirst.
  destruct answer as [res|e]; cbn [res_bind].
  - unfold lift at 1.
    destruct (Requests.createShardAccountFromAPI res address) as [account|e];
      [reflexivity|].
    unfold Requests.getBlockAccountFallback, bind, call, lift. cbn [st_world st_journal].
    destruct (Requests.axios_get_account _ w1) as [[res2|e2] w2]; reflexivity.
  - unfold Requests.getBlockAccountFallback, bind, call, lift. cbn [st_world st_journal].
    destruct (Requests.axios_get_account _ w1) as [[res2|e2] w2]; reflexivity.
Qed.

(** Both requests about a master block read the sequence number of
    its first shard entry, and the configuration is asked for that very
    block; on a block without shard entries both throw the same error
    before any request is made. *)
Lemma requests_read_the_first_shard (testnet : bool) (address : Address)
    (block : BlockInfo) (st : St World) :
  match shards block with
  | [] =>
      exists e,
        Requests.getBlockConfig testnet block st = (Throw e, st)
        /\ Requests.getBlockAccount testnet address block st = (Throw e, st)
  | shard :: _ =>
      Requests.getBlockConfig testnet block st
      = call (Requests.clientV4_getConfig (Requests.createTonClient4 testnet)
                (shard_seqno shard)) st
  end.
Proof.
  unfold Requests.getBlockConfig, Requests.getBlockAccount, Requests.firstShardSeqno.
  destruct (shards block) as [|shard rest].
  - eexists. split; reflexivity.
  - reflexivity.
Qed.

(** X24. For a shard identifier in the signed 64-bit range, in a runtime
    whose [BigInt] reads the numerals made of [0x] and hexadecimal digits
    (nothing is assumed on other texts), [findShardBlockForTx] asks for
    the shard as the unsigned 64-bit number with the same bits, in
    hexadecimal: the parameter reads back as the identifier modulo [2^64].
    The result is the first block of the answer, if any. *)
Theorem findShardBlockForTx_shard_is_unsigned (testnet : bool) (tx : RawTransaction)
    (shardInt : Z) (st : St World) :
  readsHexNumerals E ->
  BigInt (rb_shard (raw_block tx)) = Ok shardInt ->
  - 2 ^ 63 <= shardInt < 2 ^ 63 ->
  let shardParam := "0x" +:+ BigInt_toString16 (shardInt mod 2 ^ 64) in
  Requests.findShardBlockForTx testnet tx st
  = (let* blocks :=
       call (Requests.axios_get_blocks
               ("https://" +:+ (if testnet then "testnet." else "")
                +:+ "toncenter.com/api/v3/blocks")
               (rb_workchain (raw_block tx)) shardParam (rb_seqno (raw_block tx))) in
     ret (head blocks)) st
  /\ BigInt shardParam = Ok (shardInt mod 2 ^ 64)
  /\ 0 <= shardInt mod 2 ^ 64 < 2 ^ 64
  /\ (0 <= shardInt -> shardInt mod 2 ^ 64 = shardInt)
  /\ (shardInt < 0 -> shardInt mod 2 ^ 64 = shardInt + 2 ^ 64).
Proof.
  intros Hhex Hshard Hrange shardParam.
  assert (Hmod : 0 <= shardInt mod 2 ^ 64 < 2 ^ 64) by (apply Z.mod_pos_bound; lia).
  assert (Hpos : 0 <= shardInt -> shardInt mod 2 ^ 64 = shardInt).
  { intros H. apply Z.mod_small. lia. }
  assert (Hneg : shardInt < 0 -> shardInt mod 2 ^ 64 = shardInt + 2 ^ 64).
  { intros H. symmetry. apply (Z.mod_unique _ _ (-1)); lia. }
  split; [|split; [|auto]].
  - unfold Requests.findShardBlockForTx.
    unfold bind at 1. unfold lift at 1. rewrite Hshard.
    unfold bind at 1. unfold lift at 1.
    destruct (Z.ltb_spec shardInt 0) as [Hlt|Hge].
    + change "0x10000000000000000" with ("0x" +:+ "10000000000000000").
      rewrite (Hhex "10000000000000000" (2 ^ 64)) by (discriminate || reflexivity).
      cbn [res_bind]. rewrite <- (Hneg Hlt). reflexivity.
    + rewrite <- (Hpos Hge) at 1. reflexivity.
  - unfold shardParam.
    destruct (parseDigits_toString16 (shardInt mod 2 ^ 64)) as [Hne Hparse]; [lia|].
    apply Hhex; assumption.
Qed.

(** X27. An error of [getLibraryByHash] is always dton's: its message
    starts with the name of that provider, whatever went wrong at toncenter,
    an empty answer included; and by then both providers have been asked,
    toncenter first, each once. *)
Theorem getLibraryByHash_error_is_dtons (testnet : bool) (hash : string) (e : JsError)
    (st st' : St World) :
  Requests.getLibraryByHash testnet hash st = (Throw e, st') ->
  (exists cause : JsError, e = "Get library on dton's graphql: " +:+ cause)
  /\ st_journal st'
     = EvGetLibrary Dton testnet hash :: EvGetLibrary Toncenter testnet hash
       :: st_journal st.
Proof.
  unfold Requests.getLibraryByHash, try_catch at 1.
  destruct (Requests.getLibraryByHashToncenter testnet hash st) as [[code|e1] st1] eqn:Hfirst;
    [discriminate|].
  assert (Hj1 : st_journal st1 = EvGetLibrary Toncenter testnet hash :: st_journal st).
  { unfold Requests.getLibraryByHashToncenter, try_catch, bind, journal, call, throw, lift
      in Hfirst. cbn [st_world st_journal] in Hfirst.
    destruct (Requests.axios_get_libraries _ hash (st_world st)) as [[[|entry rest]|e0] w];
      [| destruct (Cell_fromBase64 (Requests.lib_data entry)); [discriminate|] |];
      injection Hfirst as _ <-; reflexivity. }
  unfold Requests.getLibraryByHashDton, try_catch, bind, journal, call, throw, lift.
  cbn [st_world st_journal].
  destruct (Requests.axios_post_graphql _ _ (st_world st1)) as [[get_lib|e0] w].
  - destruct (Cell_fromBase64 get_lib) as [code|e2]; [discriminate|].
    intros [= <- <-]. cbn [st_journal]. rewrite Hj1. eauto.
  - intros [= <- <-]. cbn [st_journal]. rewrite Hj1. eauto.
Qed.

End RequestsOneLevelDown.

(** ** The balances of a report *)

Section Balances.
Context {E : Externals}.




(** What a successful [findFinalActions] went through. *)
Lemma findFinalActions_inv (res : EmulationResultSuccess) (acts : list OutAction * option Cell) :
  findFinalActions res = Ok acts ->
  match snd acts with
  | None => ok_actions res = None /\ fst acts = []
  | Some c5 =>
      exists (actions : string) (sl : Slice),
        ok_actions res = Some actions
        /\ Cell_fromBase64 actions = Ok c5
        /\ asSlice c5 = Ok sl
        /\ loadOutList sl = Ok (fst acts)
  end.
Proof.
  unfold findFinalActions. intros H.
  destruct (ok_actions res) as [actions|].
  - destruct (Cell_fromBase64 actions) as [c5|] eqn:Hc5; [|discriminate].
    cbn [res_bind] in H.
    destruct (asSlice c5) as [sl|] eqn:Hsl; [|discriminate].
    cbn [res_bind] in H.
    destruct (loadOutList sl) as [finalActions|] eqn:Hlist; [|discriminate].
    injection H as <-. cbn [fst snd]. exists actions, sl. auto.
  - injection H as <-. cbn [fst snd]. auto.
Qed.

(** X5. The actions of a report are those of its [c5]: without a [c5] the
    list of actions is empty and the target run returned no action register;
    with one, the list is the out-list read from that very cell, which is
    the decoded register the target run returned. *)
Theorem report_actions_follow_c5 (testnet : bool) (baseTx : BaseTxInfo)
    (additionalLibs : list (Z * Cell)) (report : TraceResult) (st st' : St World) :
  retraceBaseTx testnet baseTx additionalLibs st = (Ok report, st') ->
  exists (args : RunTransactionArgs) (res : EmulationResult)
         (payload : EmulationResultSuccess) (earlier : list Event),
    st_journal st' = EvRunTransaction args (Ok res) :: earlier
    /\ er_result res = EmulationSuccess payload
    /\ em_vmLogs (emulatedTx report) = ok_vmLog payload
    /\ em_executorLogs (emulatedTx report) = er_logs res
    /\ match em_c5 (emulatedTx report) with
       | None => ok_actions payload = None /\ em_actions (emulatedTx report) = []
       | Some c5 =>
           exists (actions : string) (sl : Slice),
             ok_actions payload = Some actions
             /\ Cell_fromBase64 actions = Ok c5
             /\ asSlice c5 = Ok sl
             /\ loadOutList sl = Ok (em_actions (emulatedTx report))
       end.
Proof.
  intros H.
  destruct (retraceBaseTx_success_inv _ _ _ _ _ _ H)
    as (txs & tx & block & fullBlock & minLt & all & ourTx & blockConfig & account & used
        & version & emulate & replayed & txRes & payload & acts & final & opcode
        & s1 & s2 & s3 & s5 & s6 & s7 & s8 & s9 & s10
        & [H1 Htx] & [H2 Hroot] & H3 & H4 & [H5 Hour] & H6 & H7 & H8 & H9 & H10
        & [H11 Hres] & H12 & H13 & H14 & ->).
  destruct (prepareEmulator_closure _ _ _ _ _ _ _ H9) as [_ Hclosure].
  pose proof H11 as Hrun. rewrite Hclosure in Hrun.
  destruct (tx_inMessage ourTx) as [inMsg|] eqn:HinMsg; [|discriminate].
  unfold runTransaction in Hrun.
  destruct (sandbox_runTransaction _ (st_world s10)) as [r w].
  injection Hrun as -> <-.
  eexists _, txRes, payload, (st_journal s10).
  cbn [st_journal emulatedTx em_vmLogs em_executorLogs em_c5 em_actions].
  split; [reflexivity|]. split; [exact Hres|]. split; [reflexivity|].
  split; [reflexivity|]. exact (findFinalActions_inv _ _ H12).
Qed.

End Balances.

(** ** [bigintToAddress] *)

Lemma uintBits_length (bits : nat) (v : Z) : length (uintBits bits v) = bits.
Proof.
  revert v. induction bits as [|bits IH]; intros v; [reflexivity|].
  cbn [uintBits]. rewrite length_app, IH. cbn [length]. lia.
Qed.

(** The bits written for a number that fits spell it. *)
Lemma bitsToZ_uintBits (bits : nat) (v : Z) :
  0 <= v < 2 ^ Z.of_nat bits -> bitsToZ (uintBits bits v) = v.
Proof.
  revert v. induction bits as [|bits IH]; intros v Hv.
  - cbn in *. lia.
  - cbn [uintBits]. rewrite bitsToZ_app. cbn [length].
    rewrite Nat2Z.inj_succ, Z.pow_succ_r in Hv by lia.
    rewrite IH.
    2:{ split; [apply Z.div_pos; lia | apply Z.div_lt_upper_bound; lia]. }
    change (2 ^ Z.of_nat 1) with 2.
    rewrite (Z.div_mod v 2) at 3 by lia. rewrite Zmod_odd.
    unfold bitsToZ. cbn [fold_left]. destruct (Z.odd v); lia.
Qed.

(** X26. [bigintToAddress] answers an address exactly for a number from 0
    up to, not including, [2^256]: the address is in workchain 0 and the 32
    bytes of its hash spell the number.  On [undefined], on a negative
    number and on a larger one the answer is [undefined]. *)
Theorem bigintToAddress_round_trip (addr : option Z) :
  match addr with
  | None => bigintToAddress addr = None
  | Some n =>
      if (0 <=? n) && (n <? 2 ^ 256)
      then exists hash : Buffer,
             bigintToAddress addr = Some {| addr_workChain := 0; addr_hash := hash |}
             /\ length hash = 32%nat
             /\ Forall (fun byte => 0 <= byte < 256) hash
             /\ bytesToZ hash = n
      else bigintToAddress addr = None
  end.
Proof.
  destruct addr as [n|]; [|reflexivity].
  unfold bigintToAddress.
  change (storeUint 4 3 []) with (Ok [true; false; false]). cbn [res_bind].
  change (storeUint 0 8 [true; false; false])
    with (Ok ([true; false; false] ++ replicate 8 false)%list). cbn [res_bind].
  unfold storeUint. change (256 =? 0)%nat with false. cbv iota.
  change (Z.of_nat 256) with 256.
  destruct (Z.leb_spec 0 n) as [Hlo|Hlo]; destruct (Z.ltb_spec n (2 ^ 256)) as [Hhi|Hhi];
    cbn [andb].
  2:{ destruct (Z.ltb_spec n 0) as [?|_]; [lia|].
      destruct (Z.leb_spec (2 ^ 256) n) as [_|?]; [|lia]. reflexivity. }
  2:{ destruct (Z.ltb_spec n 0) as [_|?]; [|lia]. reflexivity. }
  2:{ destruct (Z.ltb_spec n 0) as [_|?]; [|lia]. reflexivity. }
  destruct (Z.ltb_spec n 0) as [?|_]; [lia|].
  destruct (Z.leb_spec (2 ^ 256) n) as [?|_]; [lia|]. cbn [orb].
  set (bs := (([true; false; false] ++ replicate 8 false) ++ uintBits 256 n)%list).
  assert (Hlen : length bs = 267%nat).
  { unfold bs. rewrite !length_app, uintBits_length. reflexivity. }
  change (length ([true; false; false] ++ replicate 8 false)%list) with 11%nat.
  change (1023 <? 11 + 256)%nat with false. cbv iota. cbn [res_bind].
  unfold Builder_asSlice, asSlice, beginParse. cbn [cell_isExotic andb res_bind cell_bits cell_refs].
  unfold loadAddress. cbn [slice_bits slice_offset slice_refs Nat.add].
  rewrite preloadUint_in_bounds by lia.
  change (fold_left _ (take 2 (drop 0 bs)) 0) with 2. cbn [res_bind Z.eqb Pos.eqb].
  rewrite preloadUint_in_bounds by lia.
  change (fold_left _ (take 1 (drop 2 bs)) 0) with 0. cbn [res_bind Z.eqb negb].
  unfold preloadInt. rewrite preloadUint_in_bounds by lia.
  change (fold_left _ (take 8 (drop 3 bs)) 0) with 0. cbn [res_bind].
  change (2 ^ (Z.of_nat 8 - 1) <=? 0) with false. cbv iota.
  rewrite preloadBuffer_in_bounds by lia. cbn [res_bind fst].
  eexists. split; [reflexivity|]. split; [rewrite length_map, length_seq; reflexivity|].
  split.
  - apply Forall_forall. intros byte Hin. apply list_elem_of_In, in_map_iff in Hin.
    destruct Hin as (i & <- & _). apply byteAt_range.
  - rewrite (bytesToZ_bytes bs 11 32) by lia.
    change (drop 11 bs) with (uintBits 256 n).
    change (8 * 32)%nat with 256%nat.
    rewrite firstn_all2 by (rewrite uintBits_length; lia).
    apply bitsToZ_uintBits. change (Z.of_nat 256) with 256. lia.
Qed.

(** ** The further theorems at work on the small worlds *)

Lemma replay_runs_are_chained_witness :
  exists (version : EmulatorVersion)
         (emulate : Transaction -> string -> @M demoExternals EmulationResult)
         (cur : ReplayState) (st' : St unit) (events : list Event),
    @prepareEmulator demoExternals "config" None [7] world0 = (Ok (version, emulate), world0)
    /\ @emulatePreviousTransactions demoExternals 5000 [tx98; tx99] emulate "snapshot-0" world0
       = (Ok cur, st')
    /\ st_journal st' = events
    /\ length events = 2%nat
    /\ ReplayTrace "config" None [7] "snapshot-0" [tx98; tx99] events "snapshot-99".
Proof.
  let r := eval vm_compute in (@prepareEmulator demoExternals "config" None [7] world0) in
  lazymatch r with
  | (Ok (?version, ?emulate), _) =>
      let r2 := eval vm_compute in
        (@emulatePreviousTransactions demoExternals 5000 [tx98; tx99] emulate "snapshot-0"
           world0) in
      lazymatch r2 with
      | (Ok ?cur, ?st') =>
          destruct (@replay_runs_are_chained demoExternals "config" None [7] version emulate
                      world0 world0 5000 "snapshot-0" [tx98; tx99] cur world0 st'
                      ltac:(vm_compute; reflexivity) ltac:(vm_compute; reflexivity))
            as (events & Hjournal & Hlen & Htrace);
          exists version, emulate, cur, st', events
      end
  end.
  split; [vm_compute; reflexivity|]. split; [vm_compute; reflexivity|].
  split; [transitivity (events ++ [])%list; [exact Hjournal | apply app_nil_r]|].
  split; [exact Hlen | exact Htrace].
Defined.

Lemma retraceBaseTx_runs_the_whole_window_witness :
  exists (report : TraceResult) (st' : St unit) (runs requests : list Event) (last : string),
    @retraceBaseTx demoExternals false demoBase [] world0 = (Ok report, st')
    /\ st_journal st' = (runs ++ requests)%list
    /\ Forall isLibraryRequest requests
    /\ length runs = 3%nat
    /\ exists (account : ShardAccount) (blockConfig : string) (libs : option Cell)
              (randSeed : Buffer),
         ReplayTrace blockConfig libs randSeed
           (@shardAccountToBase64 demoExternals (clearedLastTransaction account))
           (rev demoHistory) runs last.
Proof.
  let r := eval vm_compute in (@retraceBaseTx demoExternals false demoBase [] world0) in
  lazymatch r with
  | (Ok ?report, ?st') =>
      destruct (@retraceBaseTx_runs_the_whole_window demoExternals false demoBase [] report
                  world0 st' ltac:(vm_compute; reflexivity))
        as (fullBlock & all & ourTx & account & blockConfig & libs & randSeed & runs
            & requests & last & minLt & s3 & s5 & s6 & s7 & Hall & _ & _ & _ & _ & Hjournal
            & Hreq & Hlen & Htrace);
      exists report, st', runs, requests, last
  end.
  assert (Hhistory : all = demoHistory).
  { vm_compute in Hall. injection Hall as <-. reflexivity. }
  subst all.
  split; [vm_compute; reflexivity|].
  split; [transitivity (runs ++ requests ++ [])%list;
          [exact Hjournal | rewrite app_nil_r; reflexivity]|].
  split; [exact Hreq|]. split; [exact Hlen|].
  exists account, blockConfig, libs, randSeed. exact Htrace.
Defined.

Lemma codeCell_differs_only_after_a_library_request_witness :
  exists (report : TraceResult) (st' : St unit),
    @retraceBaseTx selfFragmentExternals false demoBase [] world0 = (Ok report, st')
    /\ codeCell report = Some resolvedCode
    /\ originalCodeCell report = Some libraryCellA
    /\ (0 < countLibraryRequests (st_journal st'))%nat.
Proof.
  let r := eval vm_compute in (@retraceBaseTx selfFragmentExternals false demoBase [] world0) in
  lazymatch r with
  | (Ok ?report, ?st') =>
      pose proof (@codeCell_differs_only_after_a_library_request selfFragmentExternals false
                    demoBase [] report world0 st' ltac:(vm_compute; reflexivity)
                    ltac:(intros Heq; vm_compute in Heq; discriminate Heq)) as Hmore;
      exists report, st'
  end.
  split; [vm_compute; reflexivity|]. split; [reflexivity|]. split; [reflexivity|].
  exact Hmore.
Defined.


Lemma retrace_report_is_a_pipeline_report_witness :
  exists (report : TraceResult) (st' : St unit) (lib : Z * Cell) (baseTx : BaseTxInfo)
         (st0 st1 : St unit),
    @retrace libraryOnDemandExternals 2 false "hash" [] world0 = (Ok report, st')
    /\ em_computeInfo (emulatedTx report) = ComputeInfoRecord (mkComputeInfoVm true 0 25 1000 400)
    /\ (exists (first : TraceResult) (s : St unit),
          @retraceBaseTx libraryOnDemandExternals false demoBase [] world0 = (Ok first, s)
          /\ em_computeInfo (emulatedTx first)
             = ComputeInfoRecord (mkComputeInfoVm false 9 25 1000 400))
    /\ @addedByRetry libraryOnDemandExternals false lib
    /\ @findBaseTxByHash libraryOnDemandExternals false "hash" st0 = (Ok (Some baseTx), st1)
    /\ @retraceBaseTx libraryOnDemandExternals false baseTx [lib] st1 = (Ok report, st').
Proof.
  let r := eval vm_compute in (@retrace libraryOnDemandExternals 2 false "hash" [] world0) in
  lazymatch r with
  | (Ok ?report, ?st') =>
      destruct (@retrace_report_is_a_pipeline_report libraryOnDemandExternals 2 false "hash" []
                  report world0 st' ltac:(vm_compute; reflexivity))
        as (added & baseTx & st0 & st1 & earlier & Hlen & Hadded & Hfirst & _ & Hbase & Hrun);
      destruct added as [|lib [|lib2 added]];
        [ exfalso | exists report, st', lib, baseTx, st0, st1
        | exfalso; cbn [length] in Hlen; lia ]
  end.
  - rewrite (Hfirst eq_refl) in Hbase. vm_compute in Hbase. injection Hbase as <- <-.
    apply (f_equal (fun p => length (st_journal (snd p)))) in Hrun.
    vm_compute in Hrun. discriminate Hrun.
  - split; [vm_compute; reflexivity|]. split; [reflexivity|]. split.
    + eexists. eexists. split; [vm_compute; reflexivity | reflexivity].
    + split; [exact (Forall_inv Hadded)|]. split; [exact Hbase | exact Hrun].
Defined.

Lemma retrace_root_hash_mismatch_is_fatal_witness :
  @retrace rootMismatchExternals 3 false "hash" [] world0
  = (Throw "root_hash mismatch in mc_seqno getter: root != another root", world0).
Proof.
  exact (proj1 (@retrace_root_hash_mismatch_is_fatal rootMismatchExternals 2 false "hash" []
                  demoBase [scenarioRaw (demoScenario 0 [1; 2; 3] [])]
                  (scenarioRaw (demoScenario 0 [1; 2; 3] []))
                  {| blk_root_hash := "another root";
                     blk_masterchain_block_ref := mkBlockRef (-1) "8000000000000000" 40;
                     blk_rand_seed := "seed" |}
                  world0 world0 world0 world0 eq_refl eq_refl eq_refl eq_refl
                  ltac:(intros Heq; vm_compute in Heq; discriminate Heq))).
Defined.

Lemma computeFinalData_in_message_witness :
  exists out : FinalData,
    @computeFinalData demoExternals demoPayload 4000 = Ok out
    /\ fd_sender out = Some otherAddress
    /\ fd_amount out = Some 1000
    /\ balanceAfter (fd_money out) = 4000.
Proof.
  eexists. split; [vm_compute; reflexivity|].
  destruct (@computeFinalData_in_message demoExternals demoPayload 4000 _
              ltac:(vm_compute; reflexivity))
    as (sa & m & Hsa & _ & _ & _ & Hsome).
  split; [reflexivity|]. split; [reflexivity|].
  vm_compute in Hsa. injection Hsa as <-.
  exact (Hsome _ eq_refl).
Defined.

Lemma library_key_is_the_hash_witness :
  exists (libs' : gmap Z Cell) (st' : St unit),
    @addMaybeExoticLibrary demoExternals false ∅ (Some libraryCellA) world0
    = (Ok (libs', Some resolvedCode), st')
    /\ libs' !! 77194726158210796949047323339125271902179989777093709359638389338608753093290
       = Some resolvedCode.
Proof.
  eexists. eexists. split; [vm_compute; reflexivity|].
  destruct (@library_key_is_the_hash demoExternals false ∅ _ libraryCellA resolvedCode
              world0 _ demoExternals_reads_hex ltac:(vm_compute; reflexivity))
    as (_ & _ & Hlookup & _).
  exact Hlookup.
Defined.

Lemma base64ToBigint_reads_the_bytes_witness :
  @Requests.base64ToBigint signedExternals "AwEE" = Ok 196868
  /\ exists e, @Requests.base64ToBigint signedExternals "" = Throw e.
Proof.
  split.
  - rewrite (proj1 (@base64ToBigint_reads_the_bytes signedExternals "AwEE"
                      signedExternals_reads_hex
                      ltac:(repeat (constructor; [lia|]); constructor))).
    + reflexivity.
    + discriminate.
  - eexists.
    apply (proj2 (@base64ToBigint_reads_the_bytes signedExternals ""
                    signedExternals_reads_hex ltac:(constructor)) eq_refl).
    reflexivity.
Defined.

Lemma createShardAccountFromAPI_shape_witness :
  exists sa : ShardAccount,
    @Requests.createShardAccountFromAPI signedExternals
      (apiAccount "5000" (Some (Requests.mkLast "90" "aGFzaA=="))) demoAddress = Ok sa
    /\ balanceOf sa = Some 5000
    /\ sa_lastTransactionLt sa = 90
    /\ sa_lastTransactionHash sa = 196868
    /\ exists a : Account, sa_account sa = Some a /\ as_lastTransLt (acc_storage a) = 90.
Proof.
  eexists. split; [vm_compute; reflexivity|].
  destruct (@createShardAccountFromAPI_shape signedExternals
              (apiAccount "5000" (Some (Requests.mkLast "90" "aGFzaA=="))) demoAddress _
              ltac:(vm_compute; reflexivity))
    as (a & Ha & _ & Hlt & _).
  split; [reflexivity|]. split; [reflexivity|]. split; [reflexivity|].
  exists a. split; [exact Ha | exact Hlt].
Defined.

Lemma getBlockAccount_falls_back_witness :
  exists sa : ShardAccount,
    @Requests.getBlockAccount signedExternals malformedPrimaryClients false demoAddress
      demoBlock world0 = (Ok sa, world0)
    /\ balanceOf sa = Some 5000.
Proof.
  eexists. split.
  - rewrite (@getBlockAccount_falls_back signedExternals malformedPrimaryClients false
               demoAddress demoBlock (mkShardInfo 0 "8000000000000000" 5 summaryEntries) []
               world0 (Ok (apiAccount "5 TON" None)) tt eq_refl eq_refl).
    vm_compute. reflexivity.
  - reflexivity.
Defined.

Lemma findShardBlockForTx_shard_is_unsigned_witness :
  exists block : Block,
    @Requests.findShardBlockForTx signedExternals malformedPrimaryClients false
      negativeShardRaw world0 = (Ok (Some block), world0).
Proof.
  destruct (@findShardBlockForTx_shard_is_unsigned signedExternals malformedPrimaryClients
              false negativeShardRaw (-9223372036854775808) world0
              signedExternals_reads_hex eq_refl ltac:(lia)) as [Hrun _].
  eexists. rewrite Hrun. vm_compute. reflexivity.
Defined.



Lemma report_actions_follow_c5_witness :
  exists (report : TraceResult) (st' : St unit),
    @retraceBaseTx demoExternals false demoBase [] world0 = (Ok report, st')
    /\ em_c5 (emulatedTx report) = None
    /\ em_actions (emulatedTx report) = []
    /\ em_vmLogs (emulatedTx report) = "vm log".
Proof.
  let r := eval vm_compute in (@retraceBaseTx demoExternals false demoBase [] world0) in
  lazymatch r with
  | (Ok ?report, ?st') =>
      destruct (@report_actions_follow_c5 demoExternals false demoBase [] report
                  world0 st' ltac:(vm_compute; reflexivity))
        as (args & res & payload & earlier & _ & _ & _ & _ & Hactions);
      exists report, st'
  end.
  split; [vm_compute; reflexivity|]. split; [reflexivity|].
  cbn [emulatedTx em_c5] in Hactions. split; [exact (proj2 Hactions) | reflexivity].
Defined.

Lemma getLibraryByHash_error_is_dtons_witness :
  @Requests.getLibraryByHash signedExternals malformedPrimaryClients false "AA" world0
  = (Throw "Get library on dton's graphql: Request failed with status code 500",
     mkSt tt [EvGetLibrary Dton false "AA"; EvGetLibrary Toncenter false "AA"])
  /\ exists cause : JsError,
       "Get library on dton's graphql: Request failed with status code 500"
       = "Get library on dton's graphql: " +:+ cause.
Proof.
  split; [reflexivity|].
  exact (proj1 (@getLibraryByHash_error_is_dtons signedExternals malformedPrimaryClients
                  false "AA" _ world0 _ eq_refl)).
Defined.
